(** * foxESS command line client: a shallow embedding of [foxESS.py]

    The client signs a request, unwraps the server's JSON envelope, looks
    variables up in the list of data points and prints them.  Each Python
    function is rendered as a Rocq function of the same name; Python
    exceptions are the [Raise] branch of [result], printing appends a line
    to the program's output. *)

From Stdlib Require Import ZArith NArith List Bool Ascii String Lia.
From Stdlib Require Import SpecFloat.
Import ListNotations.

Local Open Scope N_scope.

(** ** Python text

    A Python [str] is a sequence of Unicode code points (below 0x110000).
    A code point in the surrogate range may occur in a [str] (an argument
    of the command line that is not valid UTF-8 is decoded into lone
    surrogates), but has no UTF-8 encoding. *)

Definition str := list N.

(** The [str] written by an ASCII literal of the source. *)
Definition lit (s : string) : str := map N_of_ascii (list_ascii_of_string s).

Definition str_eqb (a b : str) : bool :=
  if list_eq_dec N.eq_dec a b then true else false.

(** [sep.join(parts)] *)
Fixpoint py_join (sep : str) (parts : list str) : str :=
  match parts with
  | [] => []
  | [p] => p
  | p :: rest => p ++ sep ++ py_join sep rest
  end.

(** ** Letter case

    [str.lower()] as CPython 3.11 computes it, over the character data of
    Unicode 14.0: every character is replaced by its full lowercase
    mapping, and a capital sigma by the final or the medial small sigma
    according to its context.  A code point without a mapping (a digit, a
    lowercase letter, a lone surrogate) is kept. *)

Module Unicode.

(** The code points with a lowercase mapping of one character, in
    increasing order, as runs [(first, last, step, image of first)]: the
    members of a run are [first], [first + step], ... up to [last], and
    the image of a member lies as far above the image of [first] as the
    member lies above [first]. *)
Definition lowercase_runs : list (N * N * N * N) := [
  (65, 90, 1, 97); (192, 214, 1, 224); (216, 222, 1, 248);
  (256, 302, 2, 257); (306, 310, 2, 307); (313, 327, 2, 314);
  (330, 374, 2, 331); (376, 376, 1, 255); (377, 381, 2, 378);
  (385, 385, 1, 595); (386, 388, 2, 387); (390, 390, 1, 596);
  (391, 391, 1, 392); (393, 394, 1, 598); (395, 395, 1, 396);
  (398, 398, 1, 477); (399, 399, 1, 601); (400, 400, 1, 603);
  (401, 401, 1, 402); (403, 403, 1, 608); (404, 404, 1, 611);
  (406, 406, 1, 617); (407, 407, 1, 616); (408, 408, 1, 409);
  (412, 412, 1, 623); (413, 413, 1, 626); (415, 415, 1, 629);
  (416, 420, 2, 417); (422, 422, 1, 640); (423, 423, 1, 424);
  (425, 425, 1, 643); (428, 428, 1, 429); (430, 430, 1, 648);
  (431, 431, 1, 432); (433, 434, 1, 650); (435, 437, 2, 436);
  (439, 439, 1, 658); (440, 440, 1, 441); (444, 444, 1, 445);
  (452, 452, 1, 454); (453, 453, 1, 454); (455, 455, 1, 457);
  (456, 456, 1, 457); (458, 458, 1, 460); (459, 475, 2, 460);
  (478, 494, 2, 479); (497, 497, 1, 499); (498, 500, 2, 499);
  (502, 502, 1, 405); (503, 503, 1, 447); (504, 542, 2, 505);
  (544, 544, 1, 414); (546, 562, 2, 547); (570, 570, 1, 11365);
  (571, 571, 1, 572); (573, 573, 1, 410); (574, 574, 1, 11366);
  (577, 577, 1, 578); (579, 579, 1, 384); (580, 580, 1, 649);
  (581, 581, 1, 652); (582, 590, 2, 583); (880, 882, 2, 881);
  (886, 886, 1, 887); (895, 895, 1, 1011); (902, 902, 1, 940);
  (904, 906, 1, 941); (908, 908, 1, 972); (910, 911, 1, 973);
  (913, 929, 1, 945); (931, 939, 1, 963); (975, 975, 1, 983);
  (984, 1006, 2, 985); (1012, 1012, 1, 952); (1015, 1015, 1, 1016);
  (1017, 1017, 1, 1010); (1018, 1018, 1, 1019); (1021, 1023, 1, 891);
  (1024, 1039, 1, 1104); (1040, 1071, 1, 1072); (1120, 1152, 2, 1121);
  (1162, 1214, 2, 1163); (1216, 1216, 1, 1231); (1217, 1229, 2, 1218);
  (1232, 1326, 2, 1233); (1329, 1366, 1, 1377); (4256, 4293, 1, 11520);
  (4295, 4295, 1, 11559); (4301, 4301, 1, 11565); (5024, 5103, 1, 43888);
  (5104, 5109, 1, 5112); (7312, 7354, 1, 4304); (7357, 7359, 1, 4349);
  (7680, 7828, 2, 7681); (7838, 7838, 1, 223); (7840, 7934, 2, 7841);
  (7944, 7951, 1, 7936); (7960, 7965, 1, 7952); (7976, 7983, 1, 7968);
  (7992, 7999, 1, 7984); (8008, 8013, 1, 8000); (8025, 8031, 2, 8017);
  (8040, 8047, 1, 8032); (8072, 8079, 1, 8064); (8088, 8095, 1, 8080);
  (8104, 8111, 1, 8096); (8120, 8121, 1, 8112); (8122, 8123, 1, 8048);
  (8124, 8124, 1, 8115); (8136, 8139, 1, 8050); (8140, 8140, 1, 8131);
  (8152, 8153, 1, 8144); (8154, 8155, 1, 8054); (8168, 8169, 1, 8160);
  (8170, 8171, 1, 8058); (8172, 8172, 1, 8165); (8184, 8185, 1, 8056);
  (8186, 8187, 1, 8060); (8188, 8188, 1, 8179); (8486, 8486, 1, 969);
  (8490, 8490, 1, 107); (8491, 8491, 1, 229); (8498, 8498, 1, 8526);
  (8544, 8559, 1, 8560); (8579, 8579, 1, 8580); (9398, 9423, 1, 9424);
  (11264, 11311, 1, 11312); (11360, 11360, 1, 11361); (11362, 11362, 1, 619);
  (11363, 11363, 1, 7549); (11364, 11364, 1, 637); (11367, 11371, 2, 11368);
  (11373, 11373, 1, 593); (11374, 11374, 1, 625); (11375, 11375, 1, 592);
  (11376, 11376, 1, 594); (11378, 11378, 1, 11379); (11381, 11381, 1, 11382);
  (11390, 11391, 1, 575); (11392, 11490, 2, 11393); (11499, 11501, 2, 11500);
  (11506, 11506, 1, 11507); (42560, 42604, 2, 42561); (42624, 42650, 2, 42625);
  (42786, 42798, 2, 42787); (42802, 42862, 2, 42803); (42873, 42875, 2, 42874);
  (42877, 42877, 1, 7545); (42878, 42886, 2, 42879); (42891, 42891, 1, 42892);
  (42893, 42893, 1, 613); (42896, 42898, 2, 42897); (42902, 42920, 2, 42903);
  (42922, 42922, 1, 614); (42923, 42923, 1, 604); (42924, 42924, 1, 609);
  (42925, 42925, 1, 620); (42926, 42926, 1, 618); (42928, 42928, 1, 670);
  (42929, 42929, 1, 647); (42930, 42930, 1, 669); (42931, 42931, 1, 43859);
  (42932, 42946, 2, 42933); (42948, 42948, 1, 42900); (42949, 42949, 1, 642);
  (42950, 42950, 1, 7566); (42951, 42953, 2, 42952); (42960, 42960, 1, 42961);
  (42966, 42968, 2, 42967); (42997, 42997, 1, 42998); (65313, 65338, 1, 65345);
  (66560, 66599, 1, 66600); (66736, 66771, 1, 66776); (66928, 66938, 1, 66967);
  (66940, 66954, 1, 66979); (66956, 66962, 1, 66995); (66964, 66965, 1, 67003);
  (68736, 68786, 1, 68800); (71840, 71871, 1, 71872); (93760, 93791, 1, 93792);
  (125184, 125217, 1, 125218)
].

Fixpoint mapped (runs : list (N * N * N * N)) (c : N) : N :=
  match runs with
  | [] => c
  | (first, last, step, image) :: rest =>
      if c <? first then c
      else if (c <=? last) && ((c - first) mod step =? 0)
           then image + (c - first)
           else mapped rest c
  end.

Definition to_lower (c : N) : N := mapped lowercase_runs c.

(** The full lowercase mapping: capital I with dot above (U+0130) is the
    one character whose lowercase has two code points. *)
Definition lower_full (c : N) : str :=
  if c =? 0x130 then [0x69; 0x307] else [to_lower c].

(** The case-ignorable code points, in increasing order, as intervals
    [(first, last)]. *)
Definition case_ignorable_runs : list (N * N) := [
  (39, 39); (46, 46); (58, 58); (94, 94); (96, 96);
  (168, 168); (173, 173); (175, 175); (180, 180); (183, 184);
  (688, 879); (884, 885); (890, 890); (900, 901); (903, 903);
  (1155, 1161); (1369, 1369); (1375, 1375); (1425, 1469); (1471, 1471);
  (1473, 1474); (1476, 1477); (1479, 1479); (1524, 1524); (1536, 1541);
  (1552, 1562); (1564, 1564); (1600, 1600); (1611, 1631); (1648, 1648);
  (1750, 1757); (1759, 1768); (1770, 1773); (1807, 1807); (1809, 1809);
  (1840, 1866); (1958, 1968); (2027, 2037); (2042, 2042); (2045, 2045);
  (2070, 2093); (2137, 2139); (2184, 2184); (2192, 2193); (2200, 2207);
  (2249, 2306); (2362, 2362); (2364, 2364); (2369, 2376); (2381, 2381);
  (2385, 2391); (2402, 2403); (2417, 2417); (2433, 2433); (2492, 2492);
  (2497, 2500); (2509, 2509); (2530, 2531); (2558, 2558); (2561, 2562);
  (2620, 2620); (2625, 2626); (2631, 2632); (2635, 2637); (2641, 2641);
  (2672, 2673); (2677, 2677); (2689, 2690); (2748, 2748); (2753, 2757);
  (2759, 2760); (2765, 2765); (2786, 2787); (2810, 2815); (2817, 2817);
  (2876, 2876); (2879, 2879); (2881, 2884); (2893, 2893); (2901, 2902);
  (2914, 2915); (2946, 2946); (3008, 3008); (3021, 3021); (3072, 3072);
  (3076, 3076); (3132, 3132); (3134, 3136); (3142, 3144); (3146, 3149);
  (3157, 3158); (3170, 3171); (3201, 3201); (3260, 3260); (3263, 3263);
  (3270, 3270); (3276, 3277); (3298, 3299); (3328, 3329); (3387, 3388);
  (3393, 3396); (3405, 3405); (3426, 3427); (3457, 3457); (3530, 3530);
  (3538, 3540); (3542, 3542); (3633, 3633); (3636, 3642); (3654, 3662);
  (3761, 3761); (3764, 3772); (3782, 3782); (3784, 3789); (3864, 3865);
  (3893, 3893); (3895, 3895); (3897, 3897); (3953, 3966); (3968, 3972);
  (3974, 3975); (3981, 3991); (3993, 4028); (4038, 4038); (4141, 4144);
  (4146, 4151); (4153, 4154); (4157, 4158); (4184, 4185); (4190, 4192);
  (4209, 4212); (4226, 4226); (4229, 4230); (4237, 4237); (4253, 4253);
  (4348, 4348); (4957, 4959); (5906, 5908); (5938, 5939); (5970, 5971);
  (6002, 6003); (6068, 6069); (6071, 6077); (6086, 6086); (6089, 6099);
  (6103, 6103); (6109, 6109); (6155, 6159); (6211, 6211); (6277, 6278);
  (6313, 6313); (6432, 6434); (6439, 6440); (6450, 6450); (6457, 6459);
  (6679, 6680); (6683, 6683); (6742, 6742); (6744, 6750); (6752, 6752);
  (6754, 6754); (6757, 6764); (6771, 6780); (6783, 6783); (6823, 6823);
  (6832, 6862); (6912, 6915); (6964, 6964); (6966, 6970); (6972, 6972);
  (6978, 6978); (7019, 7027); (7040, 7041); (7074, 7077); (7080, 7081);
  (7083, 7085); (7142, 7142); (7144, 7145); (7149, 7149); (7151, 7153);
  (7212, 7219); (7222, 7223); (7288, 7293); (7376, 7378); (7380, 7392);
  (7394, 7400); (7405, 7405); (7412, 7412); (7416, 7417); (7468, 7530);
  (7544, 7544); (7579, 7679); (8125, 8125); (8127, 8129); (8141, 8143);
  (8157, 8159); (8173, 8175); (8189, 8190); (8203, 8207); (8216, 8217);
  (8228, 8228); (8231, 8231); (8234, 8238); (8288, 8292); (8294, 8303);
  (8305, 8305); (8319, 8319); (8336, 8348); (8400, 8432); (11388, 11389);
  (11503, 11505); (11631, 11631); (11647, 11647); (11744, 11775); (11823, 11823);
  (12293, 12293); (12330, 12333); (12337, 12341); (12347, 12347); (12441, 12446);
  (12540, 12542); (40981, 40981); (42232, 42237); (42508, 42508); (42607, 42610);
  (42612, 42621); (42623, 42623); (42652, 42655); (42736, 42737); (42752, 42785);
  (42864, 42864); (42888, 42890); (42994, 42996); (43000, 43001); (43010, 43010);
  (43014, 43014); (43019, 43019); (43045, 43046); (43052, 43052); (43204, 43205);
  (43232, 43249); (43263, 43263); (43302, 43309); (43335, 43345); (43392, 43394);
  (43443, 43443); (43446, 43449); (43452, 43453); (43471, 43471); (43493, 43494);
  (43561, 43566); (43569, 43570); (43573, 43574); (43587, 43587); (43596, 43596);
  (43632, 43632); (43644, 43644); (43696, 43696); (43698, 43700); (43703, 43704);
  (43710, 43711); (43713, 43713); (43741, 43741); (43756, 43757); (43763, 43764);
  (43766, 43766); (43867, 43871); (43881, 43883); (44005, 44005); (44008, 44008);
  (44013, 44013); (64286, 64286); (64434, 64450); (65024, 65039); (65043, 65043);
  (65056, 65071); (65106, 65106); (65109, 65109); (65279, 65279); (65287, 65287);
  (65294, 65294); (65306, 65306); (65342, 65342); (65344, 65344); (65392, 65392);
  (65438, 65439); (65507, 65507); (65529, 65531); (66045, 66045); (66272, 66272);
  (66422, 66426); (67456, 67461); (67463, 67504); (67506, 67514); (68097, 68099);
  (68101, 68102); (68108, 68111); (68152, 68154); (68159, 68159); (68325, 68326);
  (68900, 68903); (69291, 69292); (69446, 69456); (69506, 69509); (69633, 69633);
  (69688, 69702); (69744, 69744); (69747, 69748); (69759, 69761); (69811, 69814);
  (69817, 69818); (69821, 69821); (69826, 69826); (69837, 69837); (69888, 69890);
  (69927, 69931); (69933, 69940); (70003, 70003); (70016, 70017); (70070, 70078);
  (70089, 70092); (70095, 70095); (70191, 70193); (70196, 70196); (70198, 70199);
  (70206, 70206); (70367, 70367); (70371, 70378); (70400, 70401); (70459, 70460);
  (70464, 70464); (70502, 70508); (70512, 70516); (70712, 70719); (70722, 70724);
  (70726, 70726); (70750, 70750); (70835, 70840); (70842, 70842); (70847, 70848);
  (70850, 70851); (71090, 71093); (71100, 71101); (71103, 71104); (71132, 71133);
  (71219, 71226); (71229, 71229); (71231, 71232); (71339, 71339); (71341, 71341);
  (71344, 71349); (71351, 71351); (71453, 71455); (71458, 71461); (71463, 71467);
  (71727, 71735); (71737, 71738); (71995, 71996); (71998, 71998); (72003, 72003);
  (72148, 72151); (72154, 72155); (72160, 72160); (72193, 72202); (72243, 72248);
  (72251, 72254); (72263, 72263); (72273, 72278); (72281, 72283); (72330, 72342);
  (72344, 72345); (72752, 72758); (72760, 72765); (72767, 72767); (72850, 72871);
  (72874, 72880); (72882, 72883); (72885, 72886); (73009, 73014); (73018, 73018);
  (73020, 73021); (73023, 73029); (73031, 73031); (73104, 73105); (73109, 73109);
  (73111, 73111); (73459, 73460); (78896, 78904); (92912, 92916); (92976, 92982);
  (92992, 92995); (94031, 94031); (94095, 94111); (94176, 94177); (94179, 94180);
  (110576, 110579); (110581, 110587); (110589, 110590); (113821, 113822); (113824, 113827);
  (118528, 118573); (118576, 118598); (119143, 119145); (119155, 119170); (119173, 119179);
  (119210, 119213); (119362, 119364); (121344, 121398); (121403, 121452); (121461, 121461);
  (121476, 121476); (121499, 121503); (121505, 121519); (122880, 122886); (122888, 122904);
  (122907, 122913); (122915, 122916); (122918, 122922); (123184, 123197); (123566, 123566);
  (123628, 123631); (125136, 125142); (125252, 125259); (127995, 127999); (917505, 917505);
  (917536, 917631); (917760, 917999)
].

(** The cased code points that are not case-ignorable.  The context test
    of the capital sigma asks whether a character is cased only after it
    has found it not case-ignorable. *)
Definition cased_runs : list (N * N) := [
  (65, 90); (97, 122); (170, 170); (181, 181); (186, 186);
  (192, 214); (216, 246); (248, 442); (444, 447); (452, 659);
  (661, 687); (880, 883); (886, 887); (891, 893); (895, 895);
  (902, 902); (904, 906); (908, 908); (910, 929); (931, 1013);
  (1015, 1153); (1162, 1327); (1329, 1366); (1376, 1416); (4256, 4293);
  (4295, 4295); (4301, 4301); (4304, 4346); (4349, 4351); (5024, 5109);
  (5112, 5117); (7296, 7304); (7312, 7354); (7357, 7359); (7424, 7467);
  (7531, 7543); (7545, 7578); (7680, 7957); (7960, 7965); (7968, 8005);
  (8008, 8013); (8016, 8023); (8025, 8025); (8027, 8027); (8029, 8029);
  (8031, 8061); (8064, 8116); (8118, 8124); (8126, 8126); (8130, 8132);
  (8134, 8140); (8144, 8147); (8150, 8155); (8160, 8172); (8178, 8180);
  (8182, 8188); (8450, 8450); (8455, 8455); (8458, 8467); (8469, 8469);
  (8473, 8477); (8484, 8484); (8486, 8486); (8488, 8488); (8490, 8493);
  (8495, 8500); (8505, 8505); (8508, 8511); (8517, 8521); (8526, 8526);
  (8544, 8575); (8579, 8580); (9398, 9449); (11264, 11387); (11390, 11492);
  (11499, 11502); (11506, 11507); (11520, 11557); (11559, 11559); (11565, 11565);
  (42560, 42605); (42624, 42651); (42786, 42863); (42865, 42887); (42891, 42894);
  (42896, 42954); (42960, 42961); (42963, 42963); (42965, 42969); (42997, 42998);
  (43002, 43002); (43824, 43866); (43872, 43880); (43888, 43967); (64256, 64262);
  (64275, 64279); (65313, 65338); (65345, 65370); (66560, 66639); (66736, 66771);
  (66776, 66811); (66928, 66938); (66940, 66954); (66956, 66962); (66964, 66965);
  (66967, 66977); (66979, 66993); (66995, 67001); (67003, 67004); (68736, 68786);
  (68800, 68850); (71840, 71903); (93760, 93823); (119808, 119892); (119894, 119964);
  (119966, 119967); (119970, 119970); (119973, 119974); (119977, 119980); (119982, 119993);
  (119995, 119995); (119997, 120003); (120005, 120069); (120071, 120074); (120077, 120084);
  (120086, 120092); (120094, 120121); (120123, 120126); (120128, 120132); (120134, 120134);
  (120138, 120144); (120146, 120485); (120488, 120512); (120514, 120538); (120540, 120570);
  (120572, 120596); (120598, 120628); (120630, 120654); (120656, 120686); (120688, 120712);
  (120714, 120744); (120746, 120770); (120772, 120779); (122624, 122633); (122635, 122654);
  (125184, 125251); (127280, 127305); (127312, 127337); (127344, 127369)
].

Fixpoint within (runs : list (N * N)) (c : N) : bool :=
  match runs with
  | [] => false
  | (first, last) :: rest =>
      if c <? first then false
      else if c <=? last then true
      else within rest c
  end.

Definition case_ignorable (c : N) : bool := within case_ignorable_runs c.
Definition cased (c : N) : bool := within cased_runs c.

Fixpoint skip_ignorable (s : str) : str :=
  match s with
  | [] => []
  | c :: t => if case_ignorable c then skip_ignorable t else s
  end.

(** A capital sigma is final when the nearest character before it that is
    not case-ignorable is cased, and the nearest such character after it,
    if any, is not.  [before] is the text before the sigma, nearest
    character first. *)
Definition final_sigma (before after : str) : bool :=
  match skip_ignorable before with
  | [] => false
  | c :: _ =>
      cased c
      && match skip_ignorable after with
         | [] => true
         | d :: _ => negb (cased d)
         end
  end.

Definition capital_sigma : N := 0x3A3.

Fixpoint lower_from (before s : str) : str :=
  match s with
  | [] => []
  | c :: t =>
      (if c =? capital_sigma
       then [if final_sigma before t then 0x3C2 else 0x3C3]
       else lower_full c)
      ++ lower_from (c :: before) t
  end.

Definition lower (s : str) : str := lower_from [] s.

End Unicode.

(** [s.lower()] *)
Definition py_lower (s : str) : str := Unicode.lower s.

(** [s.rstrip(c)] for a one-character argument: drop every trailing [c]. *)
Fixpoint rstrip (c : N) (s : str) : str :=
  match s with
  | [] => []
  | x :: t =>
      match rstrip c t with
      | [] => if x =? c then [] else [x]
      | t' => x :: t'
      end
  end.

(** [s.startswith(p)] *)
Fixpoint startswith (p s : str) : bool :=
  match p, s with
  | [], _ => true
  | _ :: _, [] => false
  | a :: p', b :: s' => (a =? b) && startswith p' s'
  end.

(** [s.replace(old, new)] for a non-empty [old]: occurrences are replaced
    from the left and do not overlap. *)
Fixpoint replace_from (fuel : nat) (old new s : str) : str :=
  match fuel with
  | O => s
  | S fuel' =>
      match s with
      | [] => []
      | c :: t =>
          if startswith old s
          then new ++ replace_from fuel' old new (skipn (List.length old) s)
          else c :: replace_from fuel' old new t
      end
  end.

Definition py_replace (old new s : str) : str :=
  replace_from (S (List.length s)) old new s.

(** ** Exceptions *)

Inductive exn :=
| Exception (msg : str)      (* [raise Exception(...)] of the program itself *)
| UnicodeEncodeError
| TypeError
| ValueError               (* also its subclass [json.JSONDecodeError] *)
| OverflowError
| AttributeError
| UnicodeDecodeError.

Inductive result (A : Type) :=
| Ok (a : A)
| Raise (e : exn).
Arguments Ok {A} a.
Arguments Raise {A} e.

Definition rbind {A B} (r : result A) (k : A -> result B) : result B :=
  match r with
  | Ok a => k a
  | Raise e => Raise e
  end.

Declare Scope result_scope.
Delimit Scope result_scope with result.
Notation "x <- r ;; k" := (rbind r (fun x => k))
  (at level 61, r at next level, right associativity) : result_scope.

(** ** UTF-8, the default codec of [str.encode()] *)

Module UTF8.

Definition is_surrogate (c : N) : bool := (0xD800 <=? c) && (c <=? 0xDFFF).

(** A Unicode scalar value: a code point that has an encoding. *)
Definition is_scalar (c : N) : bool := (c <? 0x110000) && negb (is_surrogate c).

Definition cont (c : N) : N := 0x80 + N.land c 0x3F.

(** The one to four bytes of a scalar value. *)
Definition bytes_of (c : N) : list N :=
  if c <? 0x80 then [c]
  else if c <? 0x800 then [0xC0 + N.shiftr c 6; cont c]
  else if c <? 0x10000 then
    [0xE0 + N.shiftr c 12; cont (N.shiftr c 6); cont c]
  else
    [0xF0 + N.shiftr c 18; cont (N.shiftr c 12); cont (N.shiftr c 6); cont c].

(** [s.encode()] with [errors='strict']: a lone surrogate raises. *)
Fixpoint encode (s : str) : result (list N) :=
  match s with
  | [] => Ok []
  | c :: t =>
      if is_scalar c
      then match encode t with
           | Ok bs => Ok (bytes_of c ++ bs)
           | Raise e => Raise e
           end
      else Raise UnicodeEncodeError
  end.

(** The UTF-8 bytes of a text, where every code point has them. *)
Definition utf8 (s : str) : list N := flat_map bytes_of s.

Definition encodable (s : str) : Prop := forallb is_scalar s = true.

End UTF8.

(** ** MD5 (RFC 1321), what [hashlib.md5] computes

    Words are 32-bit numbers in [N]; every addition wraps around. *)

Module MD5.

Definition mask32 : N := 0xFFFFFFFF.
Definition add32 (a b : N) : N := N.land (a + b) mask32.
Definition not32 (a : N) : N := N.lxor (N.land a mask32) mask32.
Definition rotl32 (x s : N) : N :=
  N.land (N.lor (N.shiftl x s) (N.shiftr x (32 - s))) mask32.

Definition F (x y z : N) := N.lor (N.land x y) (N.land (not32 x) z).
Definition G (x y z : N) := N.lor (N.land x z) (N.land y (not32 z)).
Definition H (x y z : N) := N.lxor x (N.lxor y z).
Definition I (x y z : N) := N.lxor y (N.lor x (not32 z)).

(** [T[i] = floor(2^32 * abs(sin(i + 1)))] *)
Definition T : list N :=
  [ 0xd76aa478; 0xe8c7b756; 0x242070db; 0xc1bdceee;
    0xf57c0faf; 0x4787c62a; 0xa8304613; 0xfd469501;
    0x698098d8; 0x8b44f7af; 0xffff5bb1; 0x895cd7be;
    0x6b901122; 0xfd987193; 0xa679438e; 0x49b40821;
    0xf61e2562; 0xc040b340; 0x265e5a51; 0xe9b6c7aa;
    0xd62f105d; 0x02441453; 0xd8a1e681; 0xe7d3fbc8;
    0x21e1cde6; 0xc33707d6; 0xf4d50d87; 0x455a14ed;
    0xa9e3e905; 0xfcefa3f8; 0x676f02d9; 0x8d2a4c8a;
    0xfffa3942; 0x8771f681; 0x6d9d6122; 0xfde5380c;
    0xa4beea44; 0x4bdecfa9; 0xf6bb4b60; 0xbebfbc70;
    0x289b7ec6; 0xeaa127fa; 0xd4ef3085; 0x04881d05;
    0xd9d4d039; 0xe6db99e5; 0x1fa27cf8; 0xc4ac5665;
    0xf4292244; 0x432aff97; 0xab9423a7; 0xfc93a039;
    0x655b59c3; 0x8f0ccc92; 0xffeff47d; 0x85845dd1;
    0x6fa87e4f; 0xfe2ce6e0; 0xa3014314; 0x4e0811a1;
    0xf7537e82; 0xbd3af235; 0x2ad7d2bb; 0xeb86d391 ].

(** Rotation amounts, four per round, each used four times. *)
Definition shifts : list N :=
  [ 7; 12; 17; 22;  7; 12; 17; 22;  7; 12; 17; 22;  7; 12; 17; 22;
    5;  9; 14; 20;  5;  9; 14; 20;  5;  9; 14; 20;  5;  9; 14; 20;
    4; 11; 16; 23;  4; 11; 16; 23;  4; 11; 16; 23;  4; 11; 16; 23;
    6; 10; 15; 21;  6; 10; 15; 21;  6; 10; 15; 21;  6; 10; 15; 21 ].

Definition state := (N * N * N * N)%type.

Definition init : state := (0x67452301, 0xefcdab89, 0x98badcfe, 0x10325476).

(** One of the 64 operations on the 16 words [M] of a block. *)
Definition step (M : list N) (st : state) (i : nat) : state :=
  let '(a, b, c, d) := st in
  let n := N.of_nat i in
  let '(f, g) :=
    if n <? 16 then (F b c d, n)
    else if n <? 32 then (G b c d, (5 * n + 1) mod 16)
    else if n <? 48 then (H b c d, (3 * n + 5) mod 16)
    else (I b c d, (7 * n) mod 16) in
  let x := add32 (add32 a f) (add32 (nth i T 0) (nth (N.to_nat g) M 0)) in
  (d, add32 b (rotl32 x (nth i shifts 0)), b, c).

(** Little-endian words of a byte string. *)
Fixpoint words (fuel : nat) (bs : list N) : list N :=
  match fuel with
  | O => []
  | S fuel' =>
      match bs with
      | b0 :: b1 :: b2 :: b3 :: rest =>
          (b0 + N.shiftl b1 8 + N.shiftl b2 16 + N.shiftl b3 24)
            :: words fuel' rest
      | _ => []
      end
  end.

Definition block (st : state) (bs : list N) : state :=
  let M := words 16 bs in
  let '(a, b, c, d) := st in
  let '(a', b', c', d') := fold_left (step M) (seq 0 64) st in
  (add32 a a', add32 b b', add32 c c', add32 d d').

Fixpoint le_bytes (n : nat) (x : N) : list N :=
  match n with
  | O => []
  | S n' => N.land x 0xFF :: le_bytes n' (N.shiftr x 8)
  end.

(** The message, a 1 bit, zeros up to 56 modulo 64, the bit length. *)
Definition pad (msg : list N) : list N :=
  let len := N.of_nat (List.length msg) in
  let zeros := (119 - len mod 64) mod 64 in
  msg ++ [0x80] ++ repeat 0 (N.to_nat zeros)
      ++ le_bytes 8 (N.land (8 * len) 0xFFFFFFFFFFFFFFFF).

Fixpoint blocks (fuel : nat) (st : state) (bs : list N) : state :=
  match fuel with
  | O => st
  | S fuel' =>
      match bs with
      | [] => st
      | _ => blocks fuel' (block st (firstn 64 bs)) (skipn 64 bs)
      end
  end.

(** [hashlib.md5(msg).digest()]: 16 bytes. *)
Definition digest (msg : list N) : list N :=
  let p := pad msg in
  let '(a, b, c, d) := blocks (List.length p) init p in
  le_bytes 4 a ++ le_bytes 4 b ++ le_bytes 4 c ++ le_bytes 4 d.

Definition hex_digit (n : N) : N :=
  if n <? 10 then 48 + n else 87 + n.   (* '0'..'9', 'a'..'f' *)

Definition hex_byte (b : N) : str := [hex_digit (b / 16); hex_digit (b mod 16)].

(** [hashlib.md5(msg).hexdigest()]: 32 lowercase hex digits. *)
Definition hexdigest (msg : list N) : str := flat_map hex_byte (digest msg).

End MD5.

(** ** The API client *)

Record FoxESSStatsAPI := {
  api_key : str;
  token : option str;          (* [None] until [authenticate] *)
  debug_mode : bool
}.

(** [self.base_url], fixed by the constructor. *)
Definition base_url : str := lit "https://www.foxesscloud.com".

(** [FoxESSStatsAPI.__init__] *)
Definition FoxESSStatsAPI_init (key : str) (debug : bool) : FoxESSStatsAPI :=
  {| api_key := key; token := None; debug_mode := debug |}.

(** [FoxESSStatsAPI.authenticate]: the key itself is the token. *)
Definition authenticate (api : FoxESSStatsAPI) : FoxESSStatsAPI :=
  {| api_key := api_key api; token := Some (api_key api);
     debug_mode := debug_mode api |}.

(** [self.token or ""]: [None] and the empty token both give [""]. *)
Definition token_or_empty (api : FoxESSStatsAPI) : str :=
  match token api with
  | Some (c :: t) => c :: t
  | _ => []
  end.

Local Open Scope result_scope.

(** [FoxESSStatsAPI._generate_signature] *)
Definition _generate_signature (api : FoxESSStatsAPI) (path timestamp : str)
  : result str :=
  let signature_parts := [path; token_or_empty api; timestamp] in
  let signature_input := py_join (lit "\r\n") signature_parts in
  bs <- UTF8.encode signature_input ;;
  Ok (MD5.hexdigest bs).

Definition md5_of_ascii (s : string) : str := MD5.hexdigest (UTF8.utf8 (lit s)).

Example md5_empty : md5_of_ascii "" = lit "d41d8cd98f00b204e9800998ecf8427e".
Proof. vm_compute. reflexivity. Qed.

Example md5_abc : md5_of_ascii "abc" = lit "900150983cd24fb0d6963f7d28e17f72".
Proof. vm_compute. reflexivity. Qed.

(** ** Python values

    What [json.loads] produces: the value of a data point, the fields of the
    response envelope. *)

#[local] Set Warnings "-register-all".
Inductive pyval :=
| PNone
| PBool (b : bool)
| PInt (z : Z)
| PFloat (f : spec_float)
| PStr (s : str)
| PList (l : list pyval)
| PDict (d : list (str * pyval)).

(** ** Binary64 numbers

    A Python [float] is an IEEE-754 double: [spec_float] at precision 53
    with exponents up to 1024.  Arithmetic rounds to nearest, ties to
    even. *)

Module Float.

Local Open Scope Z_scope.

Definition prec : Z := 53.
Definition emax : Z := 1024.

Definition zero : spec_float := S754_zero false.

(** The double nearest to [m * 2^e]. *)
Definition normalize (m e : Z) : spec_float := binary_normalize prec emax m e false.

Definition of_Z (z : Z) : spec_float := normalize z 0.

Definition sub : spec_float -> spec_float -> spec_float := SFsub prec emax.
Definition div : spec_float -> spec_float -> spec_float := SFdiv prec emax.
Definition abs : spec_float -> spec_float := SFabs.
Definition leb : spec_float -> spec_float -> bool := SFleb.
Definition ltb : spec_float -> spec_float -> bool := SFltb.

(** The literal [n / 10^k] of the source, e.g. [0.02] is [decimal 2 2]:
    a decimal literal denotes the double nearest to it, which is the
    correctly rounded quotient of the two integers. *)
Definition decimal (n : Z) (k : Z) : spec_float := div (of_Z n) (of_Z (10 ^ k)).

Definition is_zero (f : spec_float) : bool :=
  match f with S754_zero _ => true | _ => false end.

Definition is_finite (f : spec_float) : bool :=
  match f with S754_zero _ | S754_finite _ _ _ => true | _ => false end.

(** Python compares an [int] with a [float] exactly, without rounding the
    [int]: [z <= f]. *)
Definition Z_leb (z : Z) (f : spec_float) : bool :=
  match f with
  | S754_nan => false
  | S754_infinity s => negb s
  | S754_zero _ => z <=? 0
  | S754_finite s m e =>
      let v := cond_Zopp s (Zpos m) in
      if 0 <=? e then z <=? v * 2 ^ e else z * 2 ^ (- e) <=? v
  end.

(** ** [format(x, '.pf')]

    The decimal with [p] digits after the point that is nearest to the
    exact value of the double, ties to even. *)

(** [m * 2^e * 10^p] rounded to an integer, ties to even. *)
Definition scaled_round (m : positive) (e : Z) (p : nat) : N :=
  let num := Zpos m * 10 ^ Z.of_nat p in
  if 0 <=? e then Z.to_N (num * 2 ^ e)
  else
    let den := 2 ^ (- e) in
    let q := num / den in
    let r := num mod den in
    Z.to_N (match 2 * r ?= den with
            | Lt => q
            | Gt => q + 1
            | Eq => if Z.even q then q else q + 1
            end).

End Float.

(** ** Decimal digits *)

Module Digits.

Definition digit (d : N) : N := 48 + d.      (* '0' + d *)

(** The digits of [n], least significant first. *)
Fixpoint rev_digits (fuel : nat) (n : N) : str :=
  match fuel with
  | O => []
  | S fuel' =>
      if n <? 10 then [digit n]
      else digit (n mod 10) :: rev_digits fuel' (n / 10)
  end.

(** [str(n)] for a natural number; the fuel is the number of bits of [n],
    which is at least the number of its digits. *)
Definition of_N (n : N) : str := rev (rev_digits (S (N.to_nat (N.size n))) n).

(** [str(z)] for an integer. *)
Definition of_Z (z : Z) : str :=
  match z with
  | Zneg p => 45 :: of_N (Npos p)
  | _ => of_N (Z.to_N z)
  end.

(** The [p] digits of [r] below [10^p], most significant first. *)
Fixpoint frac (p : nat) (r : N) : str :=
  match p with
  | O => []
  | S p' => digit (r / 10 ^ N.of_nat p') :: frac p' (r mod 10 ^ N.of_nat p')
  end.

(** [n / 10^p] written with [p] digits after the point; no point is
    written when [p] is 0. *)
Definition fixed (n : N) (p : nat) : str :=
  let scale := 10 ^ N.of_nat p in
  of_N (n / scale) ++
  match p with
  | O => []
  | S _ => 46 :: frac p (n mod scale)
  end.

End Digits.

Module FloatFormat.

Definition sign (s : bool) : str := if s then [45] else [].

(** [f"{x:.{p}f}"] for a float [x] and a count [p]. *)
Definition format_f (x : spec_float) (p : nat) : str :=
  match x with
  | S754_nan => lit "nan"
  | S754_infinity s => sign s ++ lit "inf"
  | S754_zero s => sign s ++ Digits.fixed 0 p
  | S754_finite s m e => sign s ++ Digits.fixed (Float.scaled_round m e p) p
  end.

End FloatFormat.

(** ** Operations of Python on values *)

(** [bool(v)], the test behind [v or 0]. *)
Definition truthy (v : pyval) : bool :=
  match v with
  | PNone => false
  | PBool b => b
  | PInt z => negb (z =? 0)%Z
  | PFloat f => negb (Float.is_zero f)
  | PStr s => match s with [] => false | _ => true end
  | PList l => match l with [] => false | _ => true end
  | PDict d => match d with [] => false | _ => true end
  end.

(** [a or b] *)
Definition py_or (a b : pyval) : pyval := if truthy a then a else b.

(** [isinstance(v, (int, float))]; [bool] is a subclass of [int]. *)
Definition is_number (v : pyval) : bool :=
  match v with
  | PBool _ | PInt _ | PFloat _ => true
  | _ => false
  end.

Definition Z_of_bool (b : bool) : Z := if b then 1%Z else 0%Z.

(** [float(z)]: the nearest double, or [OverflowError]. *)
Definition float_of_int (z : Z) : result spec_float :=
  match Float.of_Z z with
  | S754_infinity _ => Raise OverflowError
  | f => Ok f
  end.

(** [float(v)] for a number [v]. *)
Definition py_float (v : pyval) : result spec_float :=
  match v with
  | PBool b => float_of_int (Z_of_bool b)
  | PInt z => float_of_int z
  | PFloat f => Ok f
  | _ => Raise TypeError
  end.

(** [a - b] *)
Definition py_sub (a b : pyval) : result pyval :=
  match a, b with
  | (PNone | PStr _ | PList _ | PDict _), _ => Raise TypeError
  | _, (PNone | PStr _ | PList _ | PDict _) => Raise TypeError
  | PFloat x, _ => y <- py_float b ;; Ok (PFloat (Float.sub x y))
  | _, PFloat y => x <- py_float a ;; Ok (PFloat (Float.sub x y))
  | PBool x, PBool y => Ok (PInt (Z_of_bool x - Z_of_bool y))
  | PBool x, PInt y => Ok (PInt (Z_of_bool x - y))
  | PInt x, PBool y => Ok (PInt (x - Z_of_bool y))
  | PInt x, PInt y => Ok (PInt (x - y))
  end.

(** [abs(v)] *)
Definition py_abs (v : pyval) : result pyval :=
  match v with
  | PBool b => Ok (PInt (Z_of_bool b))
  | PInt z => Ok (PInt (Z.abs z))
  | PFloat f => Ok (PFloat (Float.abs f))
  | _ => Raise TypeError
  end.

(** [v > 0], against the [int] zero. *)
Definition py_gt_zero (v : pyval) : result bool :=
  match v with
  | PBool b => Ok b
  | PInt z => Ok (0 <? z)%Z
  | PFloat f => Ok (Float.ltb Float.zero f)
  | _ => Raise TypeError
  end.

(** [v <= c] against a float constant [c]. *)
Definition py_le_float (v : pyval) (c : spec_float) : result bool :=
  match v with
  | PBool b => Ok (Float.Z_leb (Z_of_bool b) c)
  | PInt z => Ok (Float.Z_leb z c)
  | PFloat f => Ok (Float.leb f c)
  | _ => Raise TypeError
  end.

(** The largest precision the format mini-language accepts (C's INT_MAX). *)
Definition max_precision : Z := 2147483647.

(** [f"{v:.{p}f}"]: the precision is read first, then a number is turned
    into a float and written. *)
Definition py_format_f (v : pyval) (p : Z) : result str :=
  match v with
  | PNone | PList _ | PDict _ => Raise TypeError
  | PStr _ => Raise ValueError
  | _ =>
      if ((p <? 0) || (max_precision <? p))%Z then Raise ValueError
      else x <- py_float v ;; Ok (FloatFormat.format_f x (Z.to_nat p))
  end.

(** The number formatting of the program:
    [f"{v:.{p}f}".rstrip('0').rstrip('.')] *)
Definition trimmed (v : pyval) (p : Z) : result str :=
  s <- py_format_f v p ;; Ok (rstrip 46 (rstrip 48 s)).

Definition fl (n k : Z) : pyval := PFloat (Float.decimal n k).

Example lit_0_02 : Float.decimal 2 2 = S754_finite false 5764607523034235 (-58).
Proof. vm_compute. reflexivity. Qed.

Example fmt_1 : py_format_f (fl 1234 3) 2 = Ok (lit "1.23").
Proof. vm_compute. reflexivity. Qed.
Example fmt_2 : py_format_f (fl 125 3) 2 = Ok (lit "0.12").
Proof. vm_compute. reflexivity. Qed.
Example fmt_3 : py_format_f (fl 375 3) 2 = Ok (lit "0.38").
Proof. vm_compute. reflexivity. Qed.
Example fmt_4 : py_format_f (fl 2675 3) 2 = Ok (lit "2.67").
Proof. vm_compute. reflexivity. Qed.
Example fmt_5 : py_format_f (fl (-1) 3) 2 = Ok (lit "-0.00").
Proof. vm_compute. reflexivity. Qed.
Example fmt_6 : py_format_f (PInt 9007199254740993) 0 = Ok (lit "9007199254740992").
Proof. vm_compute. reflexivity. Qed.
Example fmt_7 : py_format_f (fl 1234567899876543 7) 4 = Ok (lit "123456789.9877").
Proof. vm_compute. reflexivity. Qed.
Example fmt_8 : py_format_f (fl 25 1) 0 = Ok (lit "2").
Proof. vm_compute. reflexivity. Qed.
Example fmt_9 : trimmed (PInt 100) 0 = Ok (lit "1").
Proof. vm_compute. reflexivity. Qed.
Example fmt_10 : py_format_f (PBool true) 2 = Ok (lit "1.00").
Proof. vm_compute. reflexivity. Qed.
Example sub_1 : py_sub (fl 100 0) (fl 30 0) = Ok (fl 70 0).
Proof. vm_compute. reflexivity. Qed.

(** ** Domain models

    The constructors store what the JSON of the server holds under each
    key.  The records are the devices and data points of the service:
    names and units are JSON strings, a unit may be null, a value is
    whatever the server sent. *)

Record Device := {
  device_sn : str;
  station_name : str;
  station_id : str;
  battery : pyval;
  module_sn : str;
  device_type : str;
  has_pv : bool;
  has_battery : bool
}.

Record OpenQueryData := {
  variable : str;
  value : pyval;
  name : str;
  unit_ : option str           (* the attribute [unit] *)
}.

(** ** Printing

    A computation prints lines and then returns or raises; the lines
    printed before an exception stay printed. *)

Definition io (A : Type) : Type := (list str * result A)%type.

Definition io_ret {A} (a : A) : io A := ([], Ok a).

Definition io_bind {A B} (m : io A) (k : A -> io B) : io B :=
  match m with
  | (out, Ok a) => let (out', r) := k a in (out ++ out', r)
  | (out, Raise e) => (out, Raise e)
  end.

Definition print (line : str) : io unit := ([line], Ok tt).

Definition lift {A} (r : result A) : io A := ([], r).

Definition when (b : bool) (m : io unit) : io unit := if b then m else io_ret tt.

Declare Scope io_scope.
Delimit Scope io_scope with io.
Notation "x <- m ;; k" := (io_bind m (fun x => k))
  (at level 61, m at next level, right associativity) : io_scope.
Notation "m ;; k" := (io_bind m (fun _ => k))
  (at level 61, right associativity) : io_scope.

(** [for x in l: body(x)] *)
Fixpoint for_each {A} (l : list A) (body : A -> io unit) : io unit :=
  match l with
  | [] => io_ret tt
  | x :: rest => io_bind (body x) (fun _ => for_each rest body)
  end.

(** The lines a computation printed, and how it ended. *)
Definition output {A} (m : io A) : list str := fst m.
Definition outcome {A} (m : io A) : result A := snd m.

(** ** Query helpers *)

(** [item.variable.lower() == key.lower()] *)
Definition matches (item : OpenQueryData) (key : str) : bool :=
  str_eqb (py_lower (variable item)) (py_lower key).

(** [get_data_value] *)
Fixpoint get_data_value (data_list : list OpenQueryData) (key : str)
  : result pyval :=
  match data_list with
  | [] => Ok PNone
  | item :: rest =>
      if matches item key then
        if is_number (value item)
        then (f <- py_float (value item) ;; Ok (PFloat f))%result
        else Ok (value item)
      else get_data_value rest key
  end.

(** The degree sign followed by C. *)
Definition degree_C : str := [0xB0; 0x43].

(** [get_data_unit] *)
Fixpoint get_data_unit (data_list : list OpenQueryData) (key : str) : str :=
  match data_list with
  | [] => []
  | item :: rest =>
      if matches item key then
        let unit := match unit_ item with Some u => u | None => [] end in
        py_replace degree_C (lit "C") unit
      else get_data_unit rest key
  end.

(** [get_data_name] *)
Fixpoint get_data_name (data_list : list OpenQueryData) (key : str) : str :=
  match data_list with
  | [] => key
  | item :: rest =>
      if matches item key then name item else get_data_name rest key
  end.

(** [format_power_value] *)
Definition format_power_value (value : pyval) (decimal_places : Z) : result str :=
  (formatted <- trimmed value decimal_places ;;
   Ok (formatted ++ lit " kW"))%result.

(** [variable in ["generationPower", "pvPower"]]: exact comparison. *)
Definition is_solar (variable : str) : bool :=
  existsb (str_eqb variable) [lit "generationPower"; lit "pvPower"].

(** The threshold [0.02] of the source. *)
Definition threshold : spec_float := Float.decimal 2 2.

(** [0.0 if (variable in [...] and value <= 0.02) else value], for a
    number [value]. *)
Definition adjusted_value (variable : str) (value : pyval) : result pyval :=
  if is_solar variable then
    (le <- py_le_float value threshold ;;
     Ok (if le then PFloat Float.zero else value))%result
  else Ok value.

(** [dict.get(key, default)] on the pairs of a dict. *)
Fixpoint dict_get (d : list (str * pyval)) (key : str) (default : pyval) : pyval :=
  match d with
  | [] => default
  | (k, v) :: rest => if str_eqb k key then v else dict_get rest key default
  end.

(** What [urlopen] did with one request.  The body of a response is given
    as [json.loads] read it, [None] when it is not JSON.  An HTTP error
    status comes with the outcome of [e.read().decode('utf-8') if e.fp else
    str(e)]: the text, or the exception of the strict decoding
    ([UnicodeDecodeError] for a body that is not UTF-8).  [Failed] is any
    other exception raised while the request is sent, one that neither
    [except] clause of [_fetch] names (a header value outside Latin-1
    makes [http.client] raise [UnicodeEncodeError], for instance). *)
Inductive transport :=
| Responded (status : Z) (body : option pyval)
| HTTPError (code : Z) (error_text : result str)
| URLError (reason : str)
| Failed (e : exn).

Record Args := {
  arg_api_key : str;
  arg_debug : bool;
  arg_test : bool;
  arg_all : bool;
  arg_decimals : Z
}.

(** The [--variableName] flags among the arguments argparse left over. *)
Definition extract_variables (remaining : list str) : list str :=
  flat_map (fun arg =>
              if startswith (lit "--") arg && (2 <? List.length arg)%nat
              then [skipn 2 arg] else [])
           remaining.

Section Client.

(** [repr] of a float (the shortest decimal that reads back as the same
    double) and of a list or dict.  The program only prints such a text,
    in debug lines and for a non-numeric value; it never inspects it. *)
Variable repr_of : pyval -> str.

(** [str(v)], which is also [f"{v}"]. *)
Definition py_str (v : pyval) : str :=
  match v with
  | PNone => lit "None"
  | PBool true => lit "True"
  | PBool false => lit "False"
  | PInt z => Digits.of_Z z
  | PStr s => s
  | _ => repr_of v
  end.

Local Open Scope io_scope.

(** [FoxESSStatsAPI._get_headers]; [timestamp] is [str(int(time.time() * 1000))]. *)
Definition _get_headers (api : FoxESSStatsAPI) (path timestamp : str)
  : io (list (str * str)) :=
  signature <- lift (_generate_signature api path timestamp) ;;
  let headers :=
    [ (lit "Accept", lit "application/json, text/plain, */*");
      (lit "Accept-Language", lit "en-US;q=0.9,en;q=0.8");
      (lit "Content-Type", lit "application/json");
      (lit "lang", lit "en");
      (lit "timezone", lit "UTC");
      (lit "User-Agent", lit "FoxESSCmdLine/1.0");
      (lit "timestamp", timestamp);
      (lit "signature", signature) ] in
  let headers :=
    match token_or_empty api with
    | [] => headers
    | tok => headers ++ [(lit "token", tok)]
    end in
  when (debug_mode api)
    (print (lit "DEBUG: Setting up headers for " ++ path) ;;
     print (lit "DEBUG: Timestamp: " ++ timestamp) ;;
     print (lit "DEBUG: Signature: " ++ signature)) ;;
  io_ret headers.

(** [FoxESSStatsAPI._fetch], given the clock reading and what came back
    from [urlopen]. *)
Definition _fetch (api : FoxESSStatsAPI) (timestamp url : str) (answer : transport)
  : io pyval :=
  let path := py_replace base_url [] url in
  headers <- _get_headers api path timestamp ;;
  when (debug_mode api) (print (lit "DEBUG: Fetching " ++ url)) ;;
  match answer with
  | Responded status body =>
      when (debug_mode api)
        (print (lit "DEBUG: Status code: " ++ Digits.of_Z status)) ;;
      match body with
      | None => lift (Raise ValueError)
      | Some (PDict response_data) =>
          let errno := dict_get response_data (lit "errno") (PInt 0) in
          positive <- lift (py_gt_zero errno) ;;
          if (positive : bool)
          then lift (Raise (Exception (lit "Server error " ++ py_str errno)))
          else io_ret (dict_get response_data (lit "result") (PDict []))
      | Some _ => lift (Raise AttributeError)
      end
  | HTTPError code decoded =>
      error_text <- lift decoded ;;
      when (debug_mode api) (print (lit "DEBUG: Error response: " ++ error_text)) ;;
      lift (Raise (Exception (lit "HTTP " ++ Digits.of_Z code ++ lit ": " ++ error_text)))
  | URLError reason =>
      lift (Raise (Exception (lit "URL Error: " ++ reason)))
  | Failed e =>
      lift (Raise e)
  end.

(** The text of one value in [dump_all_variables]. *)
Definition dump_value_str (item : OpenQueryData) (decimal_places : Z) : result str :=
  if is_number (value item) then
    (adjusted <- adjusted_value (variable item) (value item) ;;
     trimmed adjusted decimal_places)%result
  else
    Ok (match value item with
        | PNone => lit "unknown"
        | v => py_str v
        end).

(** [dump_all_variables] *)
Definition dump_all_variables (data_list : list OpenQueryData) (decimal_places : Z)
  : io unit :=
  print (lit "Available variables:") ;;
  for_each data_list (fun item =>
    value_str <- lift (dump_value_str item decimal_places) ;;
    print (lit "  " ++ variable item ++ lit ": " ++ value_str ++ lit " "
             ++ match unit_ item with Some u => u | None => [] end)).


(** [get_data_value(data, key) or 0] *)
Definition reading (data : list OpenQueryData) (key : str) : result pyval :=
  (v <- get_data_value data key ;; Ok (py_or v (PInt 0)))%result.

(** [if x <= 0.02: x = 0] *)
Definition floor_solar (x : pyval) : result pyval :=
  (le <- py_le_float x threshold ;; Ok (if le then PInt 0 else x))%result.

(** The default branch of [main]: the primary power flow values. *)
Definition default_summary (args : Args) (device : Device)
           (data : list OpenQueryData) : io unit :=
  solar <- lift (reading data (lit "generationPower")) ;;
  pv_power <- lift (reading data (lit "pvPower")) ;;
  grid_consumption <- lift (reading data (lit "gridConsumptionPower")) ;;
  feed_in <- lift (reading data (lit "feedinPower")) ;;
  home <- lift (reading data (lit "loadsPower")) ;;
  grid_flow <- lift (py_sub grid_consumption feed_in) ;;
  battery_charge <- lift (reading data (lit "batChargePower")) ;;
  battery_discharge <- lift (reading data (lit "batDischargePower")) ;;
  battery_flow <- lift (py_sub battery_charge battery_discharge) ;;
  battery_soc <- lift (reading data (lit "SoC")) ;;
  solar <- lift (floor_solar solar) ;;
  pv_power <- lift (floor_solar pv_power) ;;
  when (arg_debug args)
    (print (lit "DEBUG: Raw values:") ;;
     print (lit "DEBUG: Solar: " ++ py_str solar ++ lit " W") ;;
     print (lit "DEBUG: PVPower: " ++ py_str pv_power ++ lit " W") ;;
     print (lit "DEBUG: GridConsumption: " ++ py_str grid_consumption ++ lit " W") ;;
     print (lit "DEBUG: FeedIn: " ++ py_str feed_in ++ lit " W") ;;
     print (lit "DEBUG: Home: " ++ py_str home ++ lit " W") ;;
     print (lit "DEBUG: BatteryCharge: " ++ py_str battery_charge ++ lit " W") ;;
     print (lit "DEBUG: BatteryDischarge: " ++ py_str battery_discharge ++ lit " W")) ;;
  print (lit "Device: " ++ station_name device) ;;
  s <- lift (format_power_value solar (arg_decimals args)) ;;
  print (lit "generationPower: " ++ s) ;;
  s <- lift (format_power_value pv_power (arg_decimals args)) ;;
  print (lit "pvPower: " ++ s) ;;
  s <- lift (format_power_value home (arg_decimals args)) ;;
  print (lit "loadsPower: " ++ s) ;;
  magnitude <- lift (py_abs grid_flow) ;;
  s <- lift (format_power_value magnitude (arg_decimals args)) ;;
  importing <- lift (py_gt_zero grid_flow) ;;
  print (lit "Grid: " ++ s ++ lit " "
           ++ (if (importing : bool) then lit "import" else lit "export")) ;;
  when (has_battery device)
    (magnitude <- lift (py_abs battery_flow) ;;
     s <- lift (format_power_value magnitude (arg_decimals args)) ;;
     charging <- lift (py_gt_zero battery_flow) ;;
     print (lit "Battery: " ++ s ++ lit " "
              ++ (if (charging : bool) then lit "charging" else lit "discharging")) ;;
     soc_formatted <- lift (trimmed battery_soc (arg_decimals args)) ;;
     print (lit "SoC: " ++ soc_formatted ++ lit "%")).

(** The last branch of [main]: only the requested variables. *)
Definition show_variables (args : Args) (variables : list str)
           (data : list OpenQueryData) : io unit :=
  for_each variables (fun variable =>
    value <- lift (get_data_value data variable) ;;
    if is_number value then
      adjusted <- lift (adjusted_value variable value) ;;
      let unit := get_data_unit data variable in
      value_str <- lift (trimmed adjusted (arg_decimals args)) ;;
      print (variable ++ lit ": " ++ value_str ++ lit " " ++ unit)
    else
      print (variable ++ lit ": Not available")).

(** What [main] prints once the first device and its data are fetched:
    the three branches on the variable flags and [--all]. *)
Definition main_output (args : Args) (variables : list str) (device : Device)
           (data : list OpenQueryData) : io unit :=
  if negb (match variables with [] => false | _ => true end) && negb (arg_all args)
  then default_summary args device data
  else if arg_all args
  then dump_all_variables data (arg_decimals args)
  else show_variables args variables data.

End Client.

(** * Properties *)

(** ** Signer *)

(** The separator of the source, ["\\r\\n"]: the four characters
    backslash, r, backslash, n, the text of the escape sequence and not
    the two control characters CR and LF. *)
Definition separator : str := [92; 114; 92; 110].

Lemma separator_is_escape_text :
  lit "\r\n" = separator /\ separator <> [13; 10].
Proof. split; [reflexivity | discriminate]. Qed.

(** The signature as the specification words it: the lowercase hex MD5 of
    the UTF-8 bytes of path, token and timestamp, in that order, with the
    separator between them; an absent token counts as the empty text. *)
Definition signature_by_spec (path : str) (token : option str) (timestamp : str)
  : str :=
  let tok := match token with Some t => t | None => [] end in
  MD5.hexdigest (UTF8.utf8 path ++ UTF8.utf8 separator
                   ++ UTF8.utf8 tok ++ UTF8.utf8 separator
                   ++ UTF8.utf8 timestamp).

Lemma encodable_app (a b : str) :
  UTF8.encodable (a ++ b) <-> UTF8.encodable a /\ UTF8.encodable b.
Proof.
  unfold UTF8.encodable. rewrite forallb_app, andb_true_iff. tauto.
Qed.

Lemma encode_encodable (s : str) :
  UTF8.encodable s -> UTF8.encode s = Ok (UTF8.utf8 s).
Proof.
  unfold UTF8.encodable.
  induction s as [| c t IH]; simpl; intros Hs; [reflexivity |].
  apply andb_true_iff in Hs. destruct Hs as [Hc Ht].
  rewrite Hc, (IH Ht). reflexivity.
Qed.

Lemma encode_not_encodable (s : str) :
  forallb UTF8.is_scalar s = false -> UTF8.encode s = Raise UnicodeEncodeError.
Proof.
  induction s as [| c t IH]; simpl; intros Hs; [discriminate |].
  destruct (UTF8.is_scalar c); simpl in Hs; [| reflexivity].
  rewrite (IH Hs). reflexivity.
Qed.

Lemma utf8_app (a b : str) : UTF8.utf8 (a ++ b) = UTF8.utf8 a ++ UTF8.utf8 b.
Proof. apply flat_map_app. Qed.

Lemma token_or_empty_spec (api : FoxESSStatsAPI) :
  token_or_empty api = match token api with Some t => t | None => [] end.
Proof. unfold token_or_empty. destruct (token api) as [[| c t] |]; reflexivity. Qed.

Definition api_with_token (t : option str) : FoxESSStatsAPI :=
  {| api_key := lit "key"; token := t; debug_mode := false |}.

Lemma generate_signature_ok (api : FoxESSStatsAPI) (path timestamp : str) :
  UTF8.encodable (path ++ token_or_empty api ++ timestamp) ->
  _generate_signature api path timestamp
  = Ok (signature_by_spec path (token api) timestamp).
Proof.
  intros Henc.
  unfold _generate_signature, signature_by_spec.
  rewrite <- token_or_empty_spec.
  destruct separator_is_escape_text as [-> _].
  assert (Hsep : UTF8.encodable separator) by reflexivity.
  apply encodable_app in Henc. destruct Henc as [Hp Hrest].
  apply encodable_app in Hrest. destruct Hrest as [Ht Hts].
  cbn [py_join].
  rewrite encode_encodable.
  - cbn [rbind]. rewrite !utf8_app. reflexivity.
  - repeat (apply encodable_app; split); assumption.
Qed.

(** C1, as amended.  For every path, token and timestamp whose code points
    all have a UTF-8 encoding (no lone surrogate), the signature is the
    lowercase hex MD5 of the UTF-8 bytes of path, token, timestamp joined
    by the four-character text backslash-r-backslash-n, an absent token
    counting as empty; a lone surrogate in any of them makes the encoding
    step raise. *)
Theorem signature_is_md5_of_joined_fields :
  forall (api : FoxESSStatsAPI) (path timestamp : str),
    (UTF8.encodable (path ++ token_or_empty api ++ timestamp) ->
     _generate_signature api path timestamp
     = Ok (signature_by_spec path (token api) timestamp))
    /\ (~ UTF8.encodable (path ++ token_or_empty api ++ timestamp) ->
        _generate_signature api path timestamp = Raise UnicodeEncodeError).
Proof.
  intros api path timestamp. split; [apply generate_signature_ok |].
  intros Hbad. unfold _generate_signature.
  rewrite encode_not_encodable; [reflexivity |].
  apply not_true_is_false. intros Hall. apply Hbad.
  unfold UTF8.encodable in *. cbn [py_join] in Hall.
  rewrite !forallb_app in Hall. rewrite !forallb_app.
  repeat (apply andb_true_iff in Hall; destruct Hall as [? Hall]).
  repeat (apply andb_true_iff; split); assumption.
Qed.

Lemma signature_is_md5_of_joined_fields_witness :
  _generate_signature (api_with_token (Some (lit "key")))
                      (lit "/op/v0/device/list") (lit "1700000000000")
  = Ok (signature_by_spec (lit "/op/v0/device/list") (Some (lit "key"))
                          (lit "1700000000000")).
Proof.
  apply (signature_is_md5_of_joined_fields (api_with_token (Some (lit "key")))).
  vm_compute. reflexivity.
Defined.

(** The digest [hashlib] gives for the same three fields. *)
Example signature_known_value :
  signature_by_spec (lit "/op/v0/device/list") (Some (lit "key"))
                    (lit "1700000000000")
  = lit "9516f5b50df4f3b2cbefb3e18de0e4aa".
Proof. vm_compute. reflexivity. Qed.

(** C1, as stated, fails: a token holding a lone surrogate (an API key
    given on the command line as a byte that is not UTF-8) makes
    [str.encode] raise, so signing has a failure mode. *)
Lemma signature_fails_on_lone_surrogate :
  _generate_signature (api_with_token (Some [0xDC80]))
                      (lit "/op/v0/device/list") (lit "1700000000000")
  = Raise UnicodeEncodeError
  /\ _generate_signature (api_with_token (Some [0xDC80]))
                         (lit "/op/v0/device/list") (lit "1700000000000")
     <> Ok (signature_by_spec (lit "/op/v0/device/list") (Some [0xDC80])
                              (lit "1700000000000")).
Proof. split; [vm_compute; reflexivity | vm_compute; discriminate]. Qed.

(** ** Query helpers: matching *)

(** Changing the case of a Basic Latin letter: A-Z to a-z, and back. *)
Definition ascii_lower (c : N) : N :=
  if (65 <=? c) && (c <=? 90) then c + 32 else c.

Definition ascii_upper (c : N) : N :=
  if (97 <=? c) && (c <=? 122) then c - 32 else c.

(** One character of a query after the case of its Basic Latin letters was
    changed: kept, lowercased or uppercased. *)
Definition case_variant (c c' : N) : Prop :=
  c' = c \/ c' = ascii_lower c \/ c' = ascii_upper c.

(** Two queries that differ in the case of Basic Latin letters only. *)
Definition same_up_to_case (a b : str) : Prop := Forall2 case_variant a b.

(** Two characters that [str.lower] does not tell apart: the same lowercase
    mapping, and the same part in the context of a capital sigma. *)
Definition same_letter (c c' : N) : Prop :=
  Unicode.lower_full c' = Unicode.lower_full c
  /\ Unicode.case_ignorable c' = Unicode.case_ignorable c
  /\ Unicode.cased c' = Unicode.cased c
  /\ (c' =? Unicode.capital_sigma) = (c =? Unicode.capital_sigma).

Lemma same_letter_refl (c : N) : same_letter c c.
Proof. exact (conj eq_refl (conj eq_refl (conj eq_refl eq_refl))). Qed.

Lemma same_letter_sym (c c' : N) : same_letter c c' -> same_letter c' c.
Proof.
  intros (H1 & H2 & H3 & H4).
  exact (conj (eq_sym H1) (conj (eq_sym H2) (conj (eq_sym H3) (eq_sym H4)))).
Qed.

Lemma same_letter_capital (n : nat) :
  (n < 26)%nat -> same_letter (65 + N.of_nat n) (65 + N.of_nat n + 32).
Proof.
  intros H.
  do 26 (destruct n as [| n]; [vm_compute; repeat split |]).
  lia.
Qed.

Lemma same_letter_basic_latin (c : N) : 65 <= c <= 90 -> same_letter c (c + 32).
Proof.
  intros H.
  replace c with (65 + N.of_nat (N.to_nat (c - 65))) by lia.
  apply same_letter_capital. lia.
Qed.

Lemma case_variant_same_letter (c c' : N) : case_variant c c' -> same_letter c c'.
Proof.
  intros [-> | [-> | ->]].
  - apply same_letter_refl.
  - unfold ascii_lower.
    destruct ((65 <=? c) && (c <=? 90)) eqn:E; [| apply same_letter_refl].
    apply andb_true_iff in E. destruct E as [E1 E2].
    apply N.leb_le in E1. apply N.leb_le in E2.
    apply same_letter_basic_latin. lia.
  - unfold ascii_upper.
    destruct ((97 <=? c) && (c <=? 122)) eqn:E; [| apply same_letter_refl].
    apply andb_true_iff in E. destruct E as [E1 E2].
    apply N.leb_le in E1. apply N.leb_le in E2.
    apply same_letter_sym.
    replace c with (c - 32 + 32) at 2 by lia.
    apply same_letter_basic_latin. lia.
Qed.

Lemma skip_ignorable_same (a b : str) :
  Forall2 same_letter a b ->
  Forall2 same_letter (Unicode.skip_ignorable a) (Unicode.skip_ignorable b).
Proof.
  induction 1 as [| c c' a b Hc Hab IH]; cbn [Unicode.skip_ignorable].
  - constructor.
  - rewrite (proj1 (proj2 Hc)).
    destruct (Unicode.case_ignorable c); [exact IH |].
    constructor; [exact Hc | exact Hab].
Qed.

Lemma final_sigma_same (before before' after after' : str) :
  Forall2 same_letter before before' ->
  Forall2 same_letter after after' ->
  Unicode.final_sigma before' after' = Unicode.final_sigma before after.
Proof.
  intros Hb Ha. unfold Unicode.final_sigma.
  apply skip_ignorable_same in Hb. apply skip_ignorable_same in Ha.
  destruct Hb as [| c c' ? ? (_ & _ & Hc & _) _]; [reflexivity |].
  rewrite Hc.
  destruct Ha as [| d d' ? ? (_ & _ & Hd & _) _]; [reflexivity |].
  rewrite Hd. reflexivity.
Qed.

Lemma lower_from_same (s s' : str) :
  Forall2 same_letter s s' ->
  forall before before',
    Forall2 same_letter before before' ->
    Unicode.lower_from before' s' = Unicode.lower_from before s.
Proof.
  induction 1 as [| c c' s s' Hc Hs IH]; intros before before' Hb;
    cbn [Unicode.lower_from]; [reflexivity |].
  rewrite (IH (c :: before) (c' :: before')) by (constructor; assumption).
  rewrite (final_sigma_same before before' s s' Hb Hs).
  destruct Hc as (H1 & _ & _ & H4). rewrite H1, H4. reflexivity.
Qed.

Lemma same_up_to_case_lower (a b : str) :
  same_up_to_case a b -> py_lower b = py_lower a.
Proof.
  intros H. unfold py_lower, Unicode.lower.
  apply lower_from_same; [| constructor].
  revert H. apply Forall2_impl. exact case_variant_same_letter.
Qed.

Lemma same_up_to_case_upper (a : str) : same_up_to_case a (map ascii_upper a).
Proof.
  induction a as [| c a IH]; constructor; [right; right; reflexivity | exact IH].
Qed.

Lemma matches_same_lower (item : OpenQueryData) (key key' : str) :
  py_lower key' = py_lower key -> matches item key' = matches item key.
Proof. intros H. unfold matches. rewrite H. reflexivity. Qed.

(** [str.lower] on sample texts: Basic Latin and Latin-1 letters, the two
    code points of the lowercase of capital I with dot above, the capital
    sigma at the end of a word, inside a word and alone, and characters
    without a lowercase mapping. *)
Example py_lower_examples :
  py_lower (lit "SoC") = lit "soc"
  /\ py_lower [0xC9; 0x74; 0xC9] = [0xE9; 0x74; 0xE9]
  /\ py_lower [0x130] = [0x69; 0x307]
  /\ py_lower [0x41; 0x3A3] = [0x61; 0x3C2]
  /\ py_lower [0x41; 0x2E; 0x3A3] = [0x61; 0x2E; 0x3C2]
  /\ py_lower [0x41; 0x3A3; 0x42] = [0x61; 0x3C3; 0x62]
  /\ py_lower [0x3A3] = [0x3C3]
  /\ py_lower [0x131; 0xDF; 0x37; 0xDC80] = [0x131; 0xDF; 0x37; 0xDC80]
  /\ py_lower [0x10400; 0x1E921] = [0x10428; 0x1E943].
Proof. repeat split; vm_compute; reflexivity. Qed.

(** What each helper returns once a point is found. *)
Definition value_of_item (item : OpenQueryData) : result pyval :=
  if is_number (value item)
  then (f <- py_float (value item) ;; Ok (PFloat f))%result
  else Ok (value item).

Definition unit_of_item (item : OpenQueryData) : str :=
  py_replace degree_C (lit "C") (match unit_ item with Some u => u | None => [] end).

(** The first point, in list order, whose variable name is the key up to
    letter case. *)
Definition first_match (data : list OpenQueryData) (key : str)
  : option OpenQueryData :=
  find (fun item => matches item key) data.

Lemma get_data_value_find (data : list OpenQueryData) (key : str) :
  get_data_value data key
  = match first_match data key with
    | Some item => value_of_item item
    | None => Ok PNone
    end.
Proof.
  unfold first_match.
  induction data as [| item rest IH]; simpl; [reflexivity |].
  destruct (matches item key); [reflexivity | exact IH].
Qed.

Lemma get_data_unit_find (data : list OpenQueryData) (key : str) :
  get_data_unit data key
  = match first_match data key with
    | Some item => unit_of_item item
    | None => []
    end.
Proof.
  unfold first_match.
  induction data as [| item rest IH]; simpl; [reflexivity |].
  destruct (matches item key); [reflexivity | exact IH].
Qed.

Lemma get_data_name_find (data : list OpenQueryData) (key : str) :
  get_data_name data key
  = match first_match data key with
    | Some item => name item
    | None => key
    end.
Proof.
  unfold first_match.
  induction data as [| item rest IH]; simpl; [reflexivity |].
  destruct (matches item key); [reflexivity | exact IH].
Qed.

Lemma first_match_same_lower (data : list OpenQueryData) (key key' : str) :
  py_lower key' = py_lower key -> first_match data key' = first_match data key.
Proof.
  intros H. unfold first_match.
  induction data as [| item rest IH]; simpl; [reflexivity |].
  rewrite (matches_same_lower item _ _ H), IH. reflexivity.
Qed.

Lemma first_match_split (pre post : list OpenQueryData) (item : OpenQueryData)
      (key : str) :
  forallb (fun x => negb (matches x key)) pre = true ->
  matches item key = true ->
  first_match (pre ++ item :: post) key = Some item.
Proof.
  unfold first_match.
  induction pre as [| x pre IH]; simpl; intros Hpre Hitem.
  - rewrite Hitem. reflexivity.
  - apply andb_true_iff in Hpre. destruct Hpre as [Hx Hpre].
    apply negb_true_iff in Hx. rewrite Hx. apply IH; assumption.
Qed.

Definition point (v : string) (x : pyval) (n u : string) : OpenQueryData :=
  {| variable := lit v; value := x; name := lit n; unit_ := Some (lit u) |}.

(** C7, as amended.  The three lookups compare the lowercase, by
    [str.lower], of the variable name with that of the query.  Two
    queries with the same lowercase give the same value and unit, and the
    same name whenever a point matches; two queries that differ in the
    case of Basic Latin letters only have the same lowercase.  The point
    found is the first one in list order whose name matches, and the
    lookups return its value (numbers as floats), its unit and its
    display name. *)
Theorem lookups_ignore_case_first_match_wins :
  forall (data : list OpenQueryData) (key key' : str),
    py_lower key' = py_lower key ->
    get_data_value data key' = get_data_value data key
    /\ get_data_unit data key' = get_data_unit data key
    /\ (first_match data key <> None ->
        get_data_name data key' = get_data_name data key)
    /\ (forall pre item post,
          data = pre ++ item :: post ->
          forallb (fun x => negb (matches x key)) pre = true ->
          matches item key = true ->
          get_data_value data key' = value_of_item item
          /\ get_data_unit data key' = unit_of_item item
          /\ get_data_name data key' = name item)
    /\ (forall item,
          matches item key = str_eqb (py_lower (variable item)) (py_lower key))
    /\ (forall query query',
          same_up_to_case query query' -> py_lower query' = py_lower query).
Proof.
  intros data key key' Hcase.
  rewrite !get_data_value_find, !get_data_unit_find, !get_data_name_find.
  rewrite (first_match_same_lower data _ _ Hcase).
  repeat match goal with |- _ /\ _ => split end.
  - reflexivity.
  - reflexivity.
  - destruct (first_match data key); [reflexivity | congruence].
  - intros pre item post -> Hpre Hitem.
    rewrite (first_match_split pre post item key Hpre Hitem).
    split; [reflexivity | split; reflexivity].
  - reflexivity.
  - exact same_up_to_case_lower.
Qed.

Lemma lookups_ignore_case_first_match_wins_witness :
  let data := [point "pvPower" (fl 12 1) "PV" "kW";
               point "SoC" (PInt 85) "State of charge" "%";
               point "soc" (PInt 10) "Duplicate" "V"] in
  same_up_to_case (lit "soc") (lit "SOC")
  /\ py_lower (lit "SOC") = py_lower (lit "soc")
  /\ get_data_value data (lit "SOC") = get_data_value data (lit "soc")
  /\ get_data_value data (lit "SOC") = Ok (fl 85 0)
  /\ get_data_unit data (lit "SOC") = lit "%"
  /\ get_data_name data (lit "SOC") = lit "State of charge".
Proof.
  intros data.
  pose proof (same_up_to_case_upper (lit "soc")) as Hcase.
  assert (Hlower : py_lower (lit "SOC") = py_lower (lit "soc"))
    by (vm_compute; reflexivity).
  destruct (lookups_ignore_case_first_match_wins data (lit "soc") (lit "SOC") Hlower)
    as (Hv & _ & _ & Hfirst & _).
  destruct (Hfirst [point "pvPower" (fl 12 1) "PV" "kW"]
                   (point "SoC" (PInt 85) "State of charge" "%")
                   [point "soc" (PInt 10) "Duplicate" "V"]
                   eq_refl eq_refl eq_refl) as (Hv' & Hu' & Hn').
  exact (conj Hcase (conj Hlower (conj Hv (conj Hv' (conj Hu' Hn'))))).
Defined.

(** C7, as stated, fails for letters outside Basic Latin: the lookups
    compare lowercase forms, and a change of case need not keep the
    lowercase form.  The uppercase of dotless i (U+0131) is I, whose
    lowercase is i; the uppercase of sharp s (U+00DF) is SS, whose
    lowercase is ss.  So a point named with such a letter is found by its
    name as it is, and not by the uppercase of that name. *)
Lemma uppercase_query_misses_the_point :
  let dotless := {| variable := [0x131]; value := fl 15 1;
                    name := lit "Dotless"; unit_ := Some (lit "kW") |} in
  let street := {| variable := lit "stra" ++ [0xDF] ++ lit "e"; value := fl 15 1;
                   name := lit "Street"; unit_ := Some (lit "kW") |} in
  get_data_value [dotless] [0x131] = Ok (fl 15 1)
  /\ get_data_value [dotless] (lit "I") = Ok PNone
  /\ get_data_unit [dotless] [0x131] = lit "kW"
  /\ get_data_unit [dotless] (lit "I") = []
  /\ get_data_name [dotless] [0x131] = lit "Dotless"
  /\ get_data_name [dotless] (lit "I") = lit "I"
  /\ get_data_value [street] (lit "stra" ++ [0xDF] ++ lit "e") = Ok (fl 15 1)
  /\ get_data_value [street] (lit "STRASSE") = Ok PNone.
Proof. repeat split; vm_compute; reflexivity. Qed.

(** Without a matching point [get_data_name] echoes the query as it was
    typed, so there the answer follows the case of the query. *)
Lemma get_data_name_no_match (data : list OpenQueryData) (key : str) :
  first_match data key = None -> get_data_name data key = key.
Proof. intros H. rewrite get_data_name_find, H. reflexivity. Qed.

(** ** Query helpers: the display name *)

(** C8, as amended.  [get_data_name] matches on the variable name of a
    point (not on its display name), up to letter case; it returns the
    display name of the first matching point, and the query itself when no
    point matches.  The result is non-empty whenever the query and the
    display names of the points are. *)
Theorem get_data_name_first_match_or_query :
  forall (data : list OpenQueryData) (key : str),
    get_data_name data key
    = match find (fun item => str_eqb (py_lower (variable item)) (py_lower key)) data with
      | Some item => name item
      | None => key
      end
    /\ (key <> [] ->
        (forall item, In item data -> name item <> []) ->
        get_data_name data key <> []).
Proof.
  intros data key. split; [apply get_data_name_find |].
  intros Hkey Hnames. rewrite get_data_name_find. unfold first_match.
  destruct (find _ data) as [item |] eqn:E; [| exact Hkey].
  apply find_some in E. apply Hnames. exact (proj1 E).
Qed.

(** C8, as stated, fails: the display name of a matching point may be
    empty (the constructor defaults it to [''] when the server omits it),
    and then so is the result; and a query equal to the display name but
    not to the variable name finds nothing. *)
Lemma get_data_name_can_be_empty :
  get_data_name [point "SoC" (PInt 85) "" "%"] (lit "soc") = []
  /\ get_data_name [point "SoC" (PInt 85) "Charge" "%"] (lit "charge") = lit "charge"
  /\ get_data_name [point "SoC" (PInt 85) "Charge" "%"] (lit "soc") = lit "Charge".
Proof. repeat split. Qed.

(** ** Output modes *)

Inductive mode := DefaultSummary | ShowAll | ExplicitVariables.

Definition run_mode (repr_of : pyval -> str) (m : mode) (args : Args)
           (variables : list str) (device : Device) (data : list OpenQueryData)
  : io unit :=
  match m with
  | DefaultSummary => default_summary repr_of args device data
  | ShowAll => dump_all_variables repr_of data (arg_decimals args)
  | ExplicitVariables => show_variables args variables data
  end.

(** The mode by the precedence of the code: [--all] first, then variable
    flags, then the summary. *)
Definition mode_of_flags (all : bool) (variables : list str) : mode :=
  if all then ShowAll
  else match variables with
       | [] => DefaultSummary
       | _ :: _ => ExplicitVariables
       end.

(** The mode by the precedence of the claim: variable flags first. *)
Definition mode_as_claimed (all : bool) (variables : list str) : mode :=
  match variables with
  | _ :: _ => ExplicitVariables
  | [] => if all then ShowAll else DefaultSummary
  end.

(** C3, as amended.  For every combination of flags the program renders
    exactly one of the three modes: show-all when [--all] is given (also
    when variable flags are given with it), else the explicit variables
    when any were supplied, else the default summary. *)
Theorem main_output_one_mode_by_precedence :
  forall (repr_of : pyval -> str) (args : Args) (variables : list str)
         (device : Device) (data : list OpenQueryData),
    main_output repr_of args variables device data
    = run_mode repr_of (mode_of_flags (arg_all args) variables)
               args variables device data.
Proof.
  intros repr_of args variables device data.
  unfold main_output, mode_of_flags, run_mode.
  destruct variables, (arg_all args); reflexivity.
Qed.

Definition flags (all : bool) (decimals : Z) : Args :=
  {| arg_api_key := lit "key"; arg_debug := false; arg_test := false;
     arg_all := all; arg_decimals := decimals |}.

Definition station (battery : bool) : Device :=
  {| device_sn := lit "SN1"; station_name := lit "Home"; station_id := lit "1";
     battery := PNone; module_sn := lit "M1"; device_type := lit "H3";
     has_pv := true; has_battery := battery |}.

Definition no_repr : pyval -> str := fun _ => [].

(** C3, as stated, fails: with [--all] and [--SoC] together the program
    dumps all variables; the variable flag does not take precedence. *)
Lemma all_flag_wins_over_variable_flags :
  let data := [point "SoC" (fl 855 1) "State of charge" "%"] in
  let variables := extract_variables [lit "--SoC"] in
  mode_as_claimed true variables = ExplicitVariables
  /\ output (main_output no_repr (flags true 2) variables (station false) data)
     = [lit "Available variables:"; lit "  SoC: 85.5 %"]
  /\ main_output no_repr (flags true 2) variables (station false) data
     <> run_mode no_repr (mode_as_claimed true variables)
                 (flags true 2) variables (station false) data.
Proof.
  split; [reflexivity |]. split; [vm_compute; reflexivity |].
  vm_compute. discriminate.
Qed.

(** ** The response envelope *)

(** C4, as amended.  For a response whose envelope carries an integer
    error code, the request raises the server error, with the code in its
    message, exactly when the code is strictly positive; for a code of
    zero or below it returns the result payload (an empty dict when the
    envelope has none). *)
Theorem fetch_raises_on_positive_errno :
  forall (repr_of : pyval -> str) (api : FoxESSStatsAPI) (timestamp url : str)
         (status : Z) (envelope : list (str * pyval)) (code : Z),
    UTF8.encodable (py_replace base_url [] url ++ token_or_empty api ++ timestamp) ->
    dict_get envelope (lit "errno") (PInt 0) = PInt code ->
    outcome (_fetch repr_of api timestamp url (Responded status (Some (PDict envelope))))
    = if (0 <? code)%Z
      then Raise (Exception (lit "Server error " ++ Digits.of_Z code))
      else Ok (dict_get envelope (lit "result") (PDict [])).
Proof.
  intros repr_of api timestamp url status envelope code Henc Herrno.
  unfold _fetch, _get_headers.
  rewrite (generate_signature_ok api _ _ Henc).
  rewrite Herrno. cbn [py_gt_zero].
  destruct (debug_mode api), (0 <? code)%Z; reflexivity.
Qed.

Definition device_list_url : str := base_url ++ lit "/op/v0/device/list".

Definition envelope (code : Z) : pyval :=
  PDict [(lit "errno", PInt code); (lit "result", PStr (lit "payload"))].

Lemma fetch_raises_on_positive_errno_witness :
  outcome (_fetch no_repr (api_with_token (Some (lit "key"))) (lit "1700000000000")
                  device_list_url (Responded 200 (Some (envelope 40256))))
  = Raise (Exception (lit "Server error 40256")).
Proof.
  apply (fetch_raises_on_positive_errno
           no_repr (api_with_token (Some (lit "key"))) (lit "1700000000000")
           device_list_url 200 _ 40256).
  - vm_compute. reflexivity.
  - reflexivity.
Defined.

(** C4, as stated, fails: a negative error code is nonzero, yet the
    request returns the result payload and raises nothing. *)
Lemma negative_errno_returns_result :
  outcome (_fetch no_repr (api_with_token (Some (lit "key"))) (lit "1700000000000")
                  device_list_url (Responded 200 (Some (envelope (-1)))))
  = Ok (PStr (lit "payload")).
Proof. vm_compute. reflexivity. Qed.

(** ** Stripping and digits *)

Lemma rstrip_app_repeat (c : N) (s : str) (k : nat) :
  rstrip c (s ++ repeat c k) = rstrip c s.
Proof.
  induction s as [| x t IH]; simpl.
  - induction k as [| k IHk]; simpl; [reflexivity |].
    rewrite IHk, N.eqb_refl. reflexivity.
  - rewrite IH. reflexivity.
Qed.

Lemma rstrip_last_other (c x : N) (s : str) :
  x <> c -> rstrip c (s ++ [x]) = s ++ [x].
Proof.
  intros Hx. induction s as [| y t IH]; simpl.
  - apply N.eqb_neq in Hx. rewrite Hx. reflexivity.
  - rewrite IH. destruct (t ++ [x]) eqn:E; [| reflexivity].
    destruct t; discriminate.
Qed.

(** What [rstrip] returns: the text without its trailing run of [c]. *)
Lemma rstrip_spec (c : N) (s : str) :
  exists k, s = rstrip c s ++ repeat c k
            /\ forall t, rstrip c s <> t ++ [c].
Proof.
  induction s as [| x t (k & Hk & Hend)]; simpl.
  - exists O. split; [reflexivity |]. intros [| ? ?]; discriminate.
  - destruct (rstrip c t) as [| y r] eqn:E.
    + destruct (x =? c) eqn:Ex.
      * apply N.eqb_eq in Ex. subst x. exists (S k). split.
        -- simpl. f_equal. exact Hk.
        -- intros [| ? ?]; discriminate.
      * exists k. split; [simpl; f_equal; exact Hk |].
        intros [| ? [| ? ?]] Heq; try discriminate.
        injection Heq as ->. rewrite N.eqb_refl in Ex. discriminate.
    + exists k. split; [simpl; f_equal; exact Hk |].
      intros [| z u] Heq; [discriminate |].
      injection Heq as _ Heq. exact (Hend u Heq).
Qed.

Lemma rstrip_absent (c : N) (s : str) : ~ In c s -> rstrip c s = s.
Proof.
  induction s as [| x t IH]; simpl; intros Hin; [reflexivity |].
  rewrite IH by tauto. destruct t; [| reflexivity].
  destruct (x =? c) eqn:E; [| reflexivity].
  apply N.eqb_eq in E. tauto.
Qed.

Definition is_digit (c : N) : Prop := 48 <= c <= 57.

Lemma digit_is_digit (d : N) : d < 10 -> is_digit (Digits.digit d).
Proof. unfold is_digit, Digits.digit. lia. Qed.

Lemma rev_digits_digits (fuel : nat) (n : N) :
  Forall is_digit (Digits.rev_digits fuel n).
Proof.
  revert n. induction fuel as [| fuel IH]; intros n; simpl; [constructor |].
  destruct (n <? 10) eqn:E.
  - apply N.ltb_lt in E. constructor; [apply digit_is_digit; exact E | constructor].
  - constructor; [| apply IH].
    apply digit_is_digit. apply N.mod_lt. discriminate.
Qed.

Lemma of_N_digits (n : N) : Forall is_digit (Digits.of_N n).
Proof. unfold Digits.of_N. apply Forall_rev. apply rev_digits_digits. Qed.

Lemma of_N_nonempty (n : N) : Digits.of_N n <> [].
Proof.
  unfold Digits.of_N. simpl.
  destruct (n <? 10); simpl; intros H;
    [discriminate | apply app_eq_nil in H; destruct H; discriminate].
Qed.

Lemma frac_length (p : nat) (r : N) : List.length (Digits.frac p r) = p.
Proof.
  revert r. induction p as [| p IH]; intros r; simpl; [reflexivity |].
  rewrite IH. reflexivity.
Qed.

Lemma frac_digits (p : nat) (r : N) :
  r < 10 ^ N.of_nat p -> Forall is_digit (Digits.frac p r).
Proof.
  revert r. induction p as [| p IH]; intros r Hr; simpl; [constructor |].
  assert (Hpos : 10 ^ N.of_nat p <> 0) by (apply N.pow_nonzero; discriminate).
  constructor.
  - apply digit_is_digit. apply N.Div0.div_lt_upper_bound.
    rewrite Nat2N.inj_succ, N.pow_succ_r' in Hr. lia.
  - apply IH. apply N.mod_lt. exact Hpos.
Qed.

Lemma frac_zero (p : nat) : Digits.frac p 0 = repeat 48 p.
Proof.
  induction p as [| p IH]; simpl; [reflexivity |].
  rewrite N.Div0.div_0_l, N.Div0.mod_0_l.
  rewrite IH. reflexivity.
Qed.

(** A text with [p] digits after the point: an optional minus sign, at
    least one digit and, unless [p] is 0, a point and exactly [p] digits. *)
Definition has_decimals (s : str) (p : nat) : Prop :=
  exists sg ip fr,
    s = sg ++ ip ++ match p with O => [] | S _ => 46 :: fr end
    /\ (sg = [] \/ sg = [45])
    /\ ip <> [] /\ Forall is_digit ip
    /\ Forall is_digit fr /\ List.length fr = p.

Lemma fixed_has_decimals (sg : str) (n : N) (p : nat) :
  sg = [] \/ sg = [45] -> has_decimals (sg ++ Digits.fixed n p) p.
Proof.
  intros Hsg. unfold Digits.fixed.
  set (scale := 10 ^ N.of_nat p).
  assert (Hpos : scale <> 0) by (apply N.pow_nonzero; discriminate).
  exists sg, (Digits.of_N (n / scale)), (Digits.frac p (n mod scale)).
  repeat split.
  - exact Hsg.
  - apply of_N_nonempty.
  - apply of_N_digits.
  - apply frac_digits. apply N.mod_lt. exact Hpos.
  - apply frac_length.
Qed.

Lemma format_f_has_decimals (x : spec_float) (p : nat) :
  Float.is_finite x = true -> has_decimals (FloatFormat.format_f x p) p.
Proof.
  destruct x as [s | s | | s m e]; simpl; intros H; try discriminate;
    apply fixed_has_decimals; destruct s; auto.
Qed.

(** ** Number formatting *)

Definition valid_precision (p : Z) : Prop := (0 <= p <= max_precision)%Z.

(** The trimming of the program on an already rendered number. *)
Definition strip_zeros_then_point (s : str) : str := rstrip 46 (rstrip 48 s).

(** A float rendered with [p] decimals and trimmed. *)
Definition shown (x : spec_float) (p : Z) : str :=
  strip_zeros_then_point (FloatFormat.format_f x (Z.to_nat p)).

Lemma py_format_f_float (x : spec_float) (p : Z) :
  valid_precision p ->
  py_format_f (PFloat x) p = Ok (FloatFormat.format_f x (Z.to_nat p)).
Proof.
  intros [H0 Hmax]. unfold py_format_f.
  apply Z.ltb_ge in H0. apply Z.ltb_ge in Hmax. rewrite H0, Hmax. reflexivity.
Qed.

Lemma trimmed_float (x : spec_float) (p : Z) :
  valid_precision p -> trimmed (PFloat x) p = Ok (shown x p).
Proof.
  intros Hp. unfold trimmed. rewrite (py_format_f_float x p Hp). reflexivity.
Qed.

Lemma trimmed_int_zero (p : Z) :
  trimmed (PInt 0) p = trimmed (PFloat Float.zero) p.
Proof.
  unfold trimmed, py_format_f.
  destruct ((p <? 0)%Z || (max_precision <? p)%Z); reflexivity.
Qed.

Lemma shown_zero (p : Z) : (1 <= p)%Z -> shown Float.zero p = lit "0".
Proof.
  intros Hp. unfold shown, strip_zeros_then_point, Float.zero, FloatFormat.format_f.
  destruct (Z.to_nat p) as [| n] eqn:E; [lia |].
  unfold Digits.fixed, FloatFormat.sign.
  rewrite N.Div0.div_0_l, N.Div0.mod_0_l, frac_zero.
  change ([] ++ Digits.of_N 0 ++ 46 :: repeat 48 (S n))
    with ([48; 46] ++ repeat 48 (S n)).
  rewrite rstrip_app_repeat. reflexivity.
Qed.

(** ** The default summary on numeric readings *)

Lemma bind_lift_ok {A B} (a : A) (k : A -> io B) : io_bind (lift (Ok a)) k = k a.
Proof. unfold io_bind, lift. destruct (k a). reflexivity. Qed.

Lemma bind_printed {B} (out : list str) (k : unit -> io B) :
  io_bind (out, Ok tt) k = (out ++ output (k tt), outcome (k tt)).
Proof. unfold io_bind, output, outcome. destruct (k tt). reflexivity. Qed.

Lemma bind_raised {A B} (out : list str) (e : exn) (k : A -> io B) :
  io_bind (out, Raise e) k = (out, Raise e).
Proof. reflexivity. Qed.

(** The eight readings of the summary as floats; an absent or zero
    reading counts as [0.0]. *)
Record Readings := {
  r_generation : spec_float;
  r_pv : spec_float;
  r_grid : spec_float;
  r_feed_in : spec_float;
  r_loads : spec_float;
  r_charge : spec_float;
  r_discharge : spec_float;
  r_soc : spec_float
}.

(** [get_data_value(data, key) or 0] is the number [x]: either the float
    found, or the integer 0 put in place of an absent or zero value. *)
Definition reads (data : list OpenQueryData) (key : str) (x : spec_float) : Prop :=
  reading data key = Ok (PFloat x)
  \/ (reading data key = Ok (PInt 0) /\ x = Float.zero).

Definition reads_all (data : list OpenQueryData) (r : Readings) : Prop :=
  reads data (lit "generationPower") (r_generation r)
  /\ reads data (lit "pvPower") (r_pv r)
  /\ reads data (lit "gridConsumptionPower") (r_grid r)
  /\ reads data (lit "feedinPower") (r_feed_in r)
  /\ reads data (lit "loadsPower") (r_loads r)
  /\ reads data (lit "batChargePower") (r_charge r)
  /\ reads data (lit "batDischargePower") (r_discharge r)
  /\ reads data (lit "SoC") (r_soc r).

(** The zero-floor rule on a float reading. *)
Definition zero_floor (x : spec_float) : spec_float :=
  if Float.leb x threshold then Float.zero else x.

Definition kW (x : spec_float) (p : Z) : str := shown x p ++ lit " kW".

Definition grid_line (flow : spec_float) (p : Z) : str :=
  lit "Grid: " ++ kW (Float.abs flow) p ++ lit " "
      ++ (if Float.ltb Float.zero flow then lit "import" else lit "export").

Definition battery_line (flow : spec_float) (p : Z) : str :=
  lit "Battery: " ++ kW (Float.abs flow) p ++ lit " "
      ++ (if Float.ltb Float.zero flow then lit "charging" else lit "discharging").

(** The lines of the summary, computed on floats alone. *)
Definition summary_lines (p : Z) (device : Device) (r : Readings) : list str :=
  [ lit "Device: " ++ station_name device;
    lit "generationPower: " ++ kW (zero_floor (r_generation r)) p;
    lit "pvPower: " ++ kW (zero_floor (r_pv r)) p;
    lit "loadsPower: " ++ kW (r_loads r) p;
    grid_line (Float.sub (r_grid r) (r_feed_in r)) p ]
  ++ if has_battery device
     then [ battery_line (Float.sub (r_charge r) (r_discharge r)) p;
            lit "SoC: " ++ shown (r_soc r) p ++ lit "%" ]
     else [].

(** A value as [reading] returns it, and the float it stands for. *)
Definition stands_for (v : pyval) (x : spec_float) : Prop :=
  v = PFloat x \/ (v = PInt 0 /\ x = Float.zero).

Lemma reads_stands_for (data : list OpenQueryData) (key : str) (x : spec_float) :
  reads data key x -> exists v, reading data key = Ok v /\ stands_for v x.
Proof.
  intros [H | [H Hx]]; eexists; (split; [exact H |]);
    [left; reflexivity | right; split; [reflexivity | exact Hx]].
Qed.

Lemma stands_for_trimmed (v : pyval) (x : spec_float) (p : Z) :
  valid_precision p -> stands_for v x -> trimmed v p = Ok (shown x p).
Proof.
  intros Hp [-> | [-> ->]].
  - apply trimmed_float, Hp.
  - rewrite trimmed_int_zero. apply trimmed_float, Hp.
Qed.

Lemma stands_for_kW (v : pyval) (x : spec_float) (p : Z) :
  valid_precision p -> stands_for v x -> format_power_value v p = Ok (kW x p).
Proof.
  intros Hp Hv. unfold format_power_value.
  rewrite (stands_for_trimmed v x p Hp Hv). reflexivity.
Qed.

Lemma sub_zero_left (s : bool) (y : spec_float) :
  Float.is_zero y = false ->
  Float.sub (S754_zero s) y = Float.sub Float.zero y.
Proof. destruct y as [? | ? | | ? ? ?]; intros H; try discriminate; reflexivity. Qed.

(** The difference of two readings, its sign test and its magnitude are
    those of the float difference. *)
Lemma stands_for_sub (a b : pyval) (x y : spec_float) :
  stands_for a x -> stands_for b y ->
  exists v m,
    py_sub a b = Ok v
    /\ py_gt_zero v = Ok (Float.ltb Float.zero (Float.sub x y))
    /\ py_abs v = Ok m
    /\ stands_for m (Float.abs (Float.sub x y)).
Proof.
  intros [-> | [-> ->]] [-> | [-> ->]].
  - exists (PFloat (Float.sub x y)), (PFloat (Float.abs (Float.sub x y))).
    repeat split. left. reflexivity.
  - exists (PFloat (Float.sub x Float.zero)),
           (PFloat (Float.abs (Float.sub x Float.zero))).
    repeat split. left. reflexivity.
  - exists (PFloat (Float.sub Float.zero y)),
           (PFloat (Float.abs (Float.sub Float.zero y))).
    repeat split. left. reflexivity.
  - exists (PInt 0), (PInt 0). repeat split. right. split; reflexivity.
Qed.

Lemma stands_for_floor (v : pyval) (x : spec_float) :
  stands_for v x ->
  exists w, floor_solar v = Ok w /\ stands_for w (zero_floor x).
Proof.
  intros [-> | [-> ->]].
  - unfold floor_solar, zero_floor. cbn [py_le_float rbind].
    destruct (Float.leb x threshold); eexists; (split; [reflexivity |]).
    + right. split; reflexivity.
    + left. reflexivity.
  - exists (PInt 0). split; [reflexivity |]. right. split; reflexivity.
Qed.

Ltac io_step H := rewrite H; rewrite bind_lift_ok; cbv beta.

(** With eight numeric readings and a valid precision, the default
    summary raises nothing and prints, after its debug lines if any, the
    lines computed on the floats. *)
Lemma default_summary_numeric (repr_of : pyval -> str) (args : Args)
      (device : Device) (data : list OpenQueryData) (r : Readings) :
  valid_precision (arg_decimals args) ->
  reads_all data r ->
  exists debug_lines,
    default_summary repr_of args device data
    = (debug_lines ++ summary_lines (arg_decimals args) device r, Ok tt)
    /\ (arg_debug args = false -> debug_lines = []).
Proof.
  intros Hp (H1 & H2 & H3 & H4 & H5 & H6 & H7 & H8).
  apply reads_stands_for in H1, H2, H3, H4, H5, H6, H7, H8.
  destruct H1 as (solar & E1 & S1), H2 as (pv & E2 & S2), H3 as (gc & E3 & S3),
           H4 as (fi & E4 & S4), H5 as (home & E5 & S5), H6 as (bc & E6 & S6),
           H7 as (bd & E7 & S7), H8 as (soc & E8 & S8).
  destruct (stands_for_sub gc fi _ _ S3 S4) as (gflow & gmag & Eg & Egt & Egabs & Sg).
  destruct (stands_for_sub bc bd _ _ S6 S7) as (bflow & bmag & Eb & Ebt & Ebabs & Sb).
  destruct (stands_for_floor solar _ S1) as (solar' & Ef1 & Sf1).
  destruct (stands_for_floor pv _ S2) as (pv' & Ef2 & Sf2).
  pose proof (stands_for_kW _ _ _ Hp Sf1) as K1.
  pose proof (stands_for_kW _ _ _ Hp Sf2) as K2.
  pose proof (stands_for_kW _ _ _ Hp S5) as K3.
  pose proof (stands_for_kW _ _ _ Hp Sg) as K4.
  pose proof (stands_for_kW _ _ _ Hp Sb) as K5.
  pose proof (stands_for_trimmed _ _ _ Hp S8) as K6.
  unfold default_summary.
  io_step E1. io_step E2. io_step E3. io_step E4. io_step E5. io_step Eg.
  io_step E6. io_step E7. io_step Eb. io_step E8. io_step Ef1. io_step Ef2.
  set (dbg := when (arg_debug args) _).
  assert (Hdbg : exists lines, dbg = (lines, Ok tt)
                               /\ (arg_debug args = false -> lines = [])).
  { unfold dbg. destruct (arg_debug args).
    - eexists. split; [reflexivity | discriminate].
    - exists []. split; reflexivity. }
  destruct Hdbg as (lines & -> & Hlines).
  exists lines. split; [| exact Hlines].
  rewrite bind_printed. unfold output, outcome.
  unfold print at 1. rewrite bind_printed. unfold output, outcome.
  io_step K1. unfold print at 1. rewrite bind_printed. unfold output, outcome.
  io_step K2. unfold print at 1. rewrite bind_printed. unfold output, outcome.
  io_step K3. unfold print at 1. rewrite bind_printed. unfold output, outcome.
  io_step Egabs. io_step K4. io_step Egt.
  unfold print at 1. rewrite bind_printed. unfold output, outcome.
  unfold summary_lines, grid_line, battery_line.
  destruct (has_battery device); unfold when.
  - io_step Ebabs. io_step K5. io_step Ebt.
    unfold print at 1. rewrite bind_printed. unfold output, outcome.
    io_step K6. reflexivity.
  - reflexivity.
Qed.

(** ** Directions of the grid and battery flows *)



Lemma in_summary_output (repr_of : pyval -> str) (args : Args) (device : Device)
      (data : list OpenQueryData) (r : Readings) (line : str) :
  valid_precision (arg_decimals args) ->
  reads_all data r ->
  In line (summary_lines (arg_decimals args) device r) ->
  In line (output (default_summary repr_of args device data)).
Proof.
  intros Hp Hr Hin.
  destruct (default_summary_numeric repr_of args device data r Hp Hr)
    as (dbg & -> & _).
  unfold output, fst. apply in_or_app. right. exact Hin.
Qed.

Definition sample (g pv gc fi home bc bd soc : Z) : list OpenQueryData :=
  [ point "generationPower" (fl g 2) "Output Power" "kW";
    point "pvPower" (fl pv 2) "PV Power" "kW";
    point "gridConsumptionPower" (fl gc 2) "GridConsumption Power" "kW";
    point "feedinPower" (fl fi 2) "Feed-in Power" "kW";
    point "loadsPower" (fl home 2) "Load Power" "kW";
    point "batChargePower" (fl bc 2) "Charge Power" "kW";
    point "batDischargePower" (fl bd 2) "Discharge Power" "kW";
    point "SoC" (fl soc 2) "SoC" "%" ].

Definition sample_readings (g pv gc fi home bc bd soc : Z) : Readings :=
  {| r_generation := Float.decimal g 2; r_pv := Float.decimal pv 2;
     r_grid := Float.decimal gc 2; r_feed_in := Float.decimal fi 2;
     r_loads := Float.decimal home 2; r_charge := Float.decimal bc 2;
     r_discharge := Float.decimal bd 2; r_soc := Float.decimal soc 2 |}.

Ltac reads_by_computation :=
  repeat split;
  first [ left; vm_compute; reflexivity
        | right; split; vm_compute; reflexivity ].



(** The two examples of the specification: 100 against 30 is an import of
    70, 10 against 50 an export of 40. *)
Example grid_examples :
  output (default_summary no_repr (flags false 2) (station false)
                          (sample 0 0 10000 3000 0 0 0 0))
  = [lit "Device: Home"; lit "generationPower: 0 kW"; lit "pvPower: 0 kW";
     lit "loadsPower: 0 kW"; lit "Grid: 70 kW import"]
  /\ output (default_summary no_repr (flags false 2) (station false)
                             (sample 0 0 1000 5000 0 0 0 0))
     = [lit "Device: Home"; lit "generationPower: 0 kW"; lit "pvPower: 0 kW";
        lit "loadsPower: 0 kW"; lit "Grid: 40 kW export"].
Proof. split; vm_compute; reflexivity. Qed.

(** ** Absent and zero readings *)

(** The eight variables the default summary reads. *)
Definition summary_keys : list str :=
  [ lit "generationPower"; lit "pvPower"; lit "gridConsumptionPower";
    lit "feedinPower"; lit "loadsPower"; lit "batChargePower";
    lit "batDischargePower"; lit "SoC" ].

(** No point of the list carries the variable. *)
Definition absent (data : list OpenQueryData) (key : str) : Prop :=
  first_match data key = None.

(** The variable is there with a value of exactly zero. *)
Definition zero_valued (data : list OpenQueryData) (key : str) : Prop :=
  exists s, get_data_value data key = Ok (PFloat (S754_zero s)).

Lemma reading_absent_or_zero (data : list OpenQueryData) (key : str) :
  absent data key \/ zero_valued data key -> reading data key = Ok (PInt 0).
Proof.
  unfold reading. intros [H | [s H]].
  - rewrite get_data_value_find, H. reflexivity.
  - rewrite H. reflexivity.
Qed.

Definition zero_readings : Readings :=
  {| r_generation := Float.zero; r_pv := Float.zero; r_grid := Float.zero;
     r_feed_in := Float.zero; r_loads := Float.zero; r_charge := Float.zero;
     r_discharge := Float.zero; r_soc := Float.zero |}.

Lemma summary_lines_zero (p : Z) (device : Device) :
  (1 <= p)%Z ->
  summary_lines p device zero_readings
  = [ lit "Device: " ++ station_name device;
      lit "generationPower: 0 kW"; lit "pvPower: 0 kW"; lit "loadsPower: 0 kW";
      lit "Grid: 0 kW export" ]
    ++ if has_battery device
       then [lit "Battery: 0 kW discharging"; lit "SoC: 0%"]
       else [].
Proof.
  intros Hp. unfold summary_lines, grid_line, battery_line, kW, zero_readings.
  cbn [r_generation r_pv r_grid r_feed_in r_loads r_charge r_discharge r_soc].
  change (zero_floor Float.zero) with Float.zero.
  change (Float.sub Float.zero Float.zero) with Float.zero.
  change (Float.abs Float.zero) with Float.zero.
  change (Float.ltb Float.zero Float.zero) with false.
  rewrite (shown_zero p Hp). reflexivity.
Qed.

(** The variable is there with a number the lookup returns as a float. *)
Definition numeric (data : list OpenQueryData) (key : str) : Prop :=
  exists x, get_data_value data key = Ok (PFloat x).

(** The float a reading of the summary stands for: the float found, and
    zero where [or 0] put the integer 0. *)
Definition read_float (data : list OpenQueryData) (key : str) : spec_float :=
  match reading data key with
  | Ok (PFloat x) => x
  | _ => Float.zero
  end.

Definition readings_of (data : list OpenQueryData) : Readings :=
  {| r_generation := read_float data (lit "generationPower");
     r_pv := read_float data (lit "pvPower");
     r_grid := read_float data (lit "gridConsumptionPower");
     r_feed_in := read_float data (lit "feedinPower");
     r_loads := read_float data (lit "loadsPower");
     r_charge := read_float data (lit "batChargePower");
     r_discharge := read_float data (lit "batDischargePower");
     r_soc := read_float data (lit "SoC") |}.

Lemma read_float_zero (data : list OpenQueryData) (key : str) :
  absent data key \/ zero_valued data key -> read_float data key = Float.zero.
Proof.
  intros H. unfold read_float. rewrite (reading_absent_or_zero data key H).
  reflexivity.
Qed.

Lemma reads_read_float (data : list OpenQueryData) (key : str) :
  absent data key \/ numeric data key -> reads data key (read_float data key).
Proof.
  intros [H | [x H]].
  - right. split; [apply reading_absent_or_zero; left; exact H |].
    apply read_float_zero. left. exact H.
  - unfold reads, read_float, reading. rewrite H. cbn [rbind].
    destruct x as [sg | sg | | sg m e]; cbn [py_or truthy];
      first [left; reflexivity | right; split; reflexivity].
Qed.

Lemma reads_all_readings_of (data : list OpenQueryData) :
  (forall key, In key summary_keys -> absent data key \/ numeric data key) ->
  reads_all data (readings_of data).
Proof.
  intros H. unfold reads_all, readings_of.
  cbn [r_generation r_pv r_grid r_feed_in r_loads r_charge r_discharge r_soc].
  repeat split; apply reads_read_float, H; simpl; tauto.
Qed.

Lemma grid_line_zero (p : Z) :
  grid_line (Float.sub Float.zero Float.zero) p
  = lit "Grid: " ++ shown Float.zero p ++ lit " kW export".
Proof.
  unfold grid_line, kW.
  change (Float.sub Float.zero Float.zero) with Float.zero.
  change (Float.abs Float.zero) with Float.zero.
  change (Float.ltb Float.zero Float.zero) with false.
  rewrite <- !app_assoc. reflexivity.
Qed.

(** C10, as amended.  In the default summary a variable that is absent
    from the data points, or present with a value of exactly zero, is read
    as the integer 0.  When each of the eight variables is absent or
    carries a number, the summary raises nothing and prints the lines of
    these readings, zero standing for the absent ones; with both grid
    variables absent or zero the grid line is that of a zero flow, which
    reads "Grid: 0 kW export" at one decimal place or more; and with all
    eight absent or zero every line prints 0. *)
Theorem absent_variables_read_as_zero :
  forall (repr_of : pyval -> str) (args : Args) (device : Device)
         (data : list OpenQueryData),
    valid_precision (arg_decimals args) ->
    (forall key, In key summary_keys -> absent data key \/ numeric data key) ->
    let p := arg_decimals args in
    let missing key := absent data key \/ zero_valued data key in
    (forall key, missing key ->
                 reading data key = Ok (PInt 0) /\ read_float data key = Float.zero)
    /\ (exists debug_lines,
          default_summary repr_of args device data
          = (debug_lines ++ summary_lines p device (readings_of data), Ok tt)
          /\ (arg_debug args = false -> debug_lines = []))
    /\ (missing (lit "gridConsumptionPower") ->
        missing (lit "feedinPower") ->
        In (lit "Grid: " ++ shown Float.zero p ++ lit " kW export")
           (output (default_summary repr_of args device data))
        /\ ((1 <= p)%Z ->
            In (lit "Grid: 0 kW export")
               (output (default_summary repr_of args device data))))
    /\ ((forall key, In key summary_keys -> missing key) ->
        (1 <= p)%Z ->
        summary_lines p device (readings_of data)
        = [ lit "Device: " ++ station_name device;
            lit "generationPower: 0 kW"; lit "pvPower: 0 kW";
            lit "loadsPower: 0 kW"; lit "Grid: 0 kW export" ]
          ++ (if has_battery device
              then [lit "Battery: 0 kW discharging"; lit "SoC: 0%"]
              else [])).
Proof.
  intros repr_of args device data Hp Hkeys p missing.
  pose proof (reads_all_readings_of data Hkeys) as Hr.
  split; [| split; [| split]].
  - intros key Hkey.
    split; [apply reading_absent_or_zero | apply read_float_zero]; exact Hkey.
  - exact (default_summary_numeric repr_of args device data _ Hp Hr).
  - intros Hgrid Hfeed.
    assert (Hline : In (lit "Grid: " ++ shown Float.zero p ++ lit " kW export")
                       (output (default_summary repr_of args device data))).
    { apply (in_summary_output repr_of args device data _ _ Hp Hr).
      unfold summary_lines, readings_of. cbn [r_grid r_feed_in].
      rewrite (read_float_zero _ _ Hgrid), (read_float_zero _ _ Hfeed).
      fold p. rewrite grid_line_zero.
      apply in_or_app. left. simpl. tauto. }
    split; [exact Hline |].
    intros H1. rewrite (shown_zero p H1) in Hline. exact Hline.
  - intros Hall H1.
    assert (Hzero : readings_of data = zero_readings).
    { unfold readings_of, zero_readings.
      rewrite !read_float_zero by (apply Hall; simpl; tauto). reflexivity. }
    rewrite Hzero. apply summary_lines_zero. exact H1.
Qed.

Lemma absent_variables_read_as_zero_witness :
  let data := [ point "loadsPower" (PInt 500) "Load Power" "kW";
                point "generationPower" (fl 15 1) "Output Power" "kW";
                point "soc" (PFloat (S754_zero true)) "SoC" "%";
                point "invTemperation" (fl 385 1) "Inverter" "C" ] in
  outcome (default_summary no_repr (flags false 2) (station true) data) = Ok tt
  /\ In (lit "Grid: 0 kW export")
        (output (default_summary no_repr (flags false 2) (station true) data))
  /\ reading data (lit "feedinPower") = Ok (PInt 0).
Proof.
  intros data.
  destruct (absent_variables_read_as_zero
              no_repr (flags false 2) (station true) data)
    as (Hread & (dbg & Heq & _) & Hgrid & _).
  - vm_compute. split; discriminate.
  - intros key Hin. simpl in Hin.
    repeat (destruct Hin as [<- | Hin];
            [first [ left; vm_compute; reflexivity
                   | right; eexists; vm_compute; reflexivity ] |]).
    contradiction.
  - split; [rewrite Heq; reflexivity |].
    split.
    + apply Hgrid; [left; vm_compute; reflexivity | left; vm_compute; reflexivity
                    | vm_compute; discriminate].
    + apply Hread. left. vm_compute. reflexivity.
Defined.

(** C10, as stated, fails with no decimal places: the trimming removes
    the only digit of the rendered 0, so the grid line of a response
    without grid variables carries no number. *)
Lemma grid_line_has_no_digit_at_zero_decimals :
  let data := [point "loadsPower" (PInt 500) "Load Power" "kW"] in
  reading data (lit "gridConsumptionPower") = Ok (PInt 0)
  /\ reading data (lit "feedinPower") = Ok (PInt 0)
  /\ default_summary no_repr (flags false 0) (station false) data
     = ([ lit "Device: Home"; lit "generationPower:  kW"; lit "pvPower:  kW";
          lit "loadsPower: 5 kW"; lit "Grid:  kW export" ], Ok tt)
  /\ ~ In (lit "Grid: 0 kW export")
          (output (default_summary no_repr (flags false 0) (station false) data)).
Proof.
  repeat split; try (vm_compute; reflexivity).
  vm_compute. intros H.
  repeat (destruct H as [H | H]; [discriminate H |]). exact H.
Qed.

(** ** The zero-floor rule *)

Lemma for_each_completed {A} (l : list A) (body : A -> io unit) (x : A) :
  outcome (for_each l body) = Ok tt ->
  In x l ->
  outcome (body x) = Ok tt
  /\ forall line, In line (output (body x)) -> In line (output (for_each l body)).
Proof.
  induction l as [| a rest IH]; simpl; intros Hok Hin; [contradiction |].
  unfold io_bind in *.
  destruct (body a) as [o [[] | e]] eqn:Ea; [| discriminate Hok].
  destruct (for_each rest body) as [o' r'] eqn:Er.
  unfold outcome, output in *; simpl in *.
  destruct Hin as [<- | Hin].
  - rewrite Ea. simpl. split; [reflexivity |].
    intros line Hl. apply in_or_app. left. exact Hl.
  - destruct (IH Hok Hin) as [Hx Hlines]. split; [exact Hx |].
    intros line Hl. apply in_or_app. right. apply Hlines, Hl.
Qed.

(** Python's [v <= 0.02] on a number, read off the number: an integer is
    at most 0.02 exactly when it is at most 0. *)
Definition at_most_threshold (v : pyval) : bool :=
  match v with
  | PBool b => negb b
  | PInt z => (z <=? 0)%Z
  | PFloat f => Float.leb f threshold
  | _ => false
  end.

(** The zero-floor rule on a value: [0.0] in place of a number that is at
    most 0.02. *)
Definition floored (v : pyval) : pyval :=
  if at_most_threshold v then PFloat Float.zero else v.

Lemma int_le_threshold (z : Z) : Float.Z_leb z threshold = (z <=? 0)%Z.
Proof.
  change threshold with (S754_finite false 5764607523034235 (-58)).
  unfold Float.Z_leb, cond_Zopp.
  change (0 <=? -58)%Z with false. cbv iota.
  change (2 ^ (- (-58)))%Z with 288230376151711744%Z.
  destruct (z <=? 0)%Z eqn:E.
  - apply Z.leb_le in E. apply Z.leb_le. lia.
  - apply Z.leb_gt in E. apply Z.leb_gt. lia.
Qed.

Lemma py_le_threshold (v : pyval) :
  is_number v = true -> py_le_float v threshold = Ok (at_most_threshold v).
Proof.
  destruct v as [| b | z | f | | |]; intros H; try discriminate H;
    unfold py_le_float, at_most_threshold.
  - destruct b; reflexivity.
  - rewrite int_le_threshold. reflexivity.
  - reflexivity.
Qed.

Lemma adjusted_value_solar (v : str) (x : pyval) :
  is_solar v = true -> is_number x = true -> adjusted_value v x = Ok (floored x).
Proof.
  intros Hv Hx. unfold adjusted_value, floored.
  rewrite Hv, (py_le_threshold x Hx). reflexivity.
Qed.

Lemma floored_float (x : spec_float) : floored (PFloat x) = PFloat (zero_floor x).
Proof. unfold floored, zero_floor. simpl. destruct (Float.leb x threshold); reflexivity. Qed.

Lemma above_threshold_not_below (x : spec_float) :
  Float.ltb threshold x = true -> Float.leb x threshold = false.
Proof.
  change threshold with (S754_finite false 5764607523034235 (-58)).
  set (M := 5764607523034235%positive).
  unfold Float.ltb, Float.leb, SFltb, SFleb, SFcompare.
  destruct x as [s | [] | | [] m e]; cbv beta iota;
    try discriminate; try reflexivity.
  rewrite (Z.compare_antisym e (-58)).
  destruct (e ?= -58)%Z; cbv beta iota delta [CompOpp];
    try discriminate; try reflexivity.
  assert (Hanti : Pos.compare_cont Eq M m = CompOpp (Pos.compare_cont Eq m M))
    by (symmetry; apply (Pos.compare_cont_antisym m M Eq)).
  rewrite Hanti.
  destruct (Pos.compare_cont Eq m M); cbv beta iota delta [CompOpp];
    try discriminate; reflexivity.
Qed.

(** The line [dump_all_variables] prints for a point. *)
Definition dump_line (item : OpenQueryData) (text : str) : str :=
  lit "  " ++ variable item ++ lit ": " ++ text ++ lit " "
      ++ match unit_ item with Some u => u | None => [] end.

Lemma dump_body_solar (repr_of : pyval -> str) (item : OpenQueryData) (p : Z) :
  is_solar (variable item) = true ->
  is_number (value item) = true ->
  io_bind (lift (dump_value_str repr_of item p))
          (fun value_str =>
             print (lit "  " ++ variable item ++ lit ": " ++ value_str ++ lit " "
                      ++ match unit_ item with Some u => u | None => [] end))
  = match trimmed (floored (value item)) p with
    | Ok text => ([dump_line item text], Ok tt)
    | Raise e => ([], Raise e)
    end.
Proof.
  intros Hsolar Hnum. unfold dump_value_str.
  rewrite Hnum, (adjusted_value_solar _ _ Hsolar Hnum). cbn [rbind].
  destruct (trimmed (floored (value item)) p) as [text | e]; reflexivity.
Qed.

Lemma adjusted_value_number (v : str) (x : pyval) :
  is_number x = true ->
  adjusted_value v x = Ok (if is_solar v then floored x else x).
Proof.
  intros Hx. destruct (is_solar v) eqn:Hv.
  - apply adjusted_value_solar; assumption.
  - unfold adjusted_value. rewrite Hv. reflexivity.
Qed.

(** The value whose rendering a line carries: floored when the name on
    the line is one of the two solar names, spelled exactly. *)
Definition displayed (variable : str) (value : pyval) : pyval :=
  if is_solar variable then floored value else value.

Lemma dump_body_number (repr_of : pyval -> str) (item : OpenQueryData) (p : Z) :
  is_number (value item) = true ->
  io_bind (lift (dump_value_str repr_of item p))
          (fun value_str =>
             print (lit "  " ++ variable item ++ lit ": " ++ value_str ++ lit " "
                      ++ match unit_ item with Some u => u | None => [] end))
  = match trimmed (displayed (variable item) (value item)) p with
    | Ok text => ([dump_line item text], Ok tt)
    | Raise e => ([], Raise e)
    end.
Proof.
  intros Hnum. unfold dump_value_str, displayed.
  rewrite Hnum, (adjusted_value_number _ _ Hnum). cbn [rbind].
  destruct (trimmed _ p) as [text | e]; reflexivity.
Qed.

Lemma shown_zero_no_decimals : shown Float.zero 0 = [].
Proof. vm_compute. reflexivity. Qed.

(** C2, as amended.  The zero-floor rule holds in the three output paths
    for the names generationPower and pvPower spelled exactly so.  A
    numeric reading of at most 0.02 is shown as the number 0 is (the text
    "0" at one decimal place or more) and a reading above 0.02 is shown as
    it is: on the two solar lines of the default summary, whatever the
    case of the point's name; on the line of a point in the show-all dump
    when the point's name is one of the two; on the line of a requested
    variable when the flag as typed is one of the two.  Under any other
    name, also one that differs in letter case only, the dump and the
    explicit path show the reading as it is. *)
Theorem zero_floor_in_all_three_paths :
  forall (repr_of : pyval -> str) (args : Args) (device : Device)
         (data : list OpenQueryData) (r : Readings) (variables : list str)
         (item : OpenQueryData) (v : str) (x : spec_float),
    valid_precision (arg_decimals args) ->
    let p := arg_decimals args in
    (reads_all data r ->
     In (lit "generationPower: " ++ shown (zero_floor (r_generation r)) p ++ lit " kW")
        (output (default_summary repr_of args device data))
     /\ In (lit "pvPower: " ++ shown (zero_floor (r_pv r)) p ++ lit " kW")
           (output (default_summary repr_of args device data)))
    /\ (In item data ->
        is_number (value item) = true ->
        outcome (dump_all_variables repr_of data p) = Ok tt ->
        exists text,
          trimmed (displayed (variable item) (value item)) p = Ok text
          /\ In (dump_line item text) (output (dump_all_variables repr_of data p)))
    /\ (In v variables -> get_data_value data v = Ok (PFloat x) ->
        outcome (show_variables args variables data) = Ok tt ->
        exists y,
          displayed v (PFloat x) = PFloat y
          /\ In (v ++ lit ": " ++ shown y p ++ lit " " ++ get_data_unit data v)
                (output (show_variables args variables data)))
    /\ (forall name value,
          displayed name value
          = if str_eqb name (lit "generationPower") || str_eqb name (lit "pvPower")
            then floored value else value)
    /\ floored (PFloat x) = PFloat (zero_floor x)
    /\ (Float.leb x threshold = true -> zero_floor x = Float.zero)
    /\ (Float.ltb threshold x = true -> zero_floor x = x)
    /\ ((1 <= p)%Z -> shown Float.zero p = lit "0").
Proof.
  intros repr_of args device data r variables item v x Hp p.
  repeat match goal with |- _ /\ _ => split end.
  - intros Hr.
    split; apply (in_summary_output repr_of args device data r _ Hp Hr);
      unfold summary_lines, kW; fold p; simpl; tauto.
  - intros Hin Hnum Hok.
    unfold dump_all_variables in *. fold p in Hok |- *.
    unfold print in Hok at 1. unfold print at 1.
    rewrite bind_printed in Hok. rewrite bind_printed.
    unfold outcome at 1 in Hok. cbn [snd] in Hok.
    destruct (for_each_completed _ _ item Hok Hin) as [Hbody Hlines].
    rewrite (dump_body_number repr_of item p Hnum) in Hbody, Hlines.
    destruct (trimmed (displayed (variable item) (value item)) p) as [text | e] eqn:Et;
      [| discriminate Hbody].
    exists text. split; [reflexivity |].
    unfold output at 1. cbn [fst]. apply in_or_app. right.
    apply Hlines. left. reflexivity.
  - intros Hin Hval Hok.
    exists (if is_solar v then zero_floor x else x).
    split; [unfold displayed; destruct (is_solar v);
            [apply floored_float | reflexivity] |].
    unfold show_variables in *.
    destruct (for_each_completed _ _ v Hok Hin) as [_ Hlines].
    apply Hlines. rewrite Hval, bind_lift_ok. cbn [is_number].
    rewrite (adjusted_value_number v (PFloat x) eq_refl), bind_lift_ok.
    fold p.
    destruct (is_solar v); rewrite ?floored_float, (trimmed_float _ p Hp), bind_lift_ok;
      left; reflexivity.
  - intros name value. unfold displayed, is_solar. cbn [existsb].
    rewrite orb_false_r. reflexivity.
  - apply floored_float.
  - intros Hle. unfold zero_floor. rewrite Hle. reflexivity.
  - intros Hgt. unfold zero_floor.
    rewrite (above_threshold_not_below x Hgt). reflexivity.
  - apply shown_zero.
Qed.

Definition solar_data : list OpenQueryData :=
  [ point "generationPower" (fl 2 2) "Output Power" "kW";
    point "pvPower" (fl 21 3) "PV Power" "kW" ].

Definition solar_readings : Readings :=
  {| r_generation := Float.decimal 2 2; r_pv := Float.decimal 21 3;
     r_grid := Float.zero; r_feed_in := Float.zero; r_loads := Float.zero;
     r_charge := Float.zero; r_discharge := Float.zero; r_soc := Float.zero |}.

Lemma zero_floor_in_all_three_paths_witness :
  (In (lit "generationPower: 0 kW")
      (output (default_summary no_repr (flags false 3) (station false) solar_data))
   /\ In (lit "pvPower: 0.021 kW")
         (output (default_summary no_repr (flags false 3) (station false) solar_data)))
  /\ In (lit "  generationPower: 0 kW")
        (output (dump_all_variables no_repr solar_data 3))
  /\ In (lit "generationPower: 0 kW")
        (output (show_variables (flags false 3) [lit "generationPower"] solar_data)).
Proof.
  assert (Hp : valid_precision (arg_decimals (flags false 3)))
    by (vm_compute; split; discriminate).
  destruct (zero_floor_in_all_three_paths
              no_repr (flags false 3) (station false) solar_data solar_readings
              [lit "generationPower"]
              (point "generationPower" (fl 2 2) "Output Power" "kW")
              (lit "generationPower") (Float.decimal 2 2) Hp)
    as (Hdefault & Hdump & Hshow & _).
  split; [| split].
  - apply Hdefault. reads_by_computation.
  - destruct Hdump as (text & Htext & Hline);
      [left; reflexivity | reflexivity | vm_compute; reflexivity |].
    vm_compute in Htext. injection Htext as <-. exact Hline.
  - destruct Hshow as (y & Hy & Hline);
      [left; reflexivity | vm_compute; reflexivity | vm_compute; reflexivity |].
    vm_compute in Hy. injection Hy as <-. exact Hline.
Defined.

(** C2, as stated, fails.  The two solar names are compared exactly, with
    the flag as typed and with the point's name as sent, while the lookup
    ignores case: [--generationpower] finds the point generationPower and
    prints its reading of 0.02 unfloored, and the dump prints the reading
    0.01 of a point named PVPOWER unfloored; the default summary floors
    both.  So the three paths do not apply the rule identically.  And
    with no decimal places the floored reading is not shown as 0: the
    trimming leaves no digit. *)
Lemma zero_floor_skipped_under_another_case :
  let generation := [point "generationPower" (fl 2 2) "Output Power" "kW"] in
  let pv := [point "PVPOWER" (fl 1 2) "PV Power" "kW"] in
  extract_variables [lit "--generationpower"] = [lit "generationpower"]
  /\ output (show_variables (flags false 2) [lit "generationpower"] generation)
     = [lit "generationpower: 0.02 kW"]
  /\ In (lit "generationPower: 0 kW")
        (output (default_summary no_repr (flags false 2) (station false) generation))
  /\ output (dump_all_variables no_repr pv 2)
     = [lit "Available variables:"; lit "  PVPOWER: 0.01 kW"]
  /\ In (lit "pvPower: 0 kW")
        (output (default_summary no_repr (flags false 2) (station false) pv))
  /\ output (show_variables (flags false 0) [lit "pvPower"]
                            [point "pvPower" (fl 1 2) "PV Power" "kW"])
     = [lit "pvPower:  kW"].
Proof.
  repeat split; vm_compute; try reflexivity; tauto.
Qed.

(** A reading of exactly 0.02 is shown as 0 is; one of 0.021 is not
    floored. *)
Example zero_floor_examples :
  trimmed (floored (fl 2 2)) 2 = trimmed (PInt 0) 2
  /\ trimmed (floored (fl 21 3)) 3 = Ok (lit "0.021")
  /\ floored (PInt 0) = PFloat Float.zero
  /\ floored (PInt 1) = PInt 1.
Proof. repeat split; vm_compute; reflexivity. Qed.

(** ** The digits written denote the number

    The value of a digit string, least significant digit first and most
    significant first. *)

Fixpoint value_rev (s : str) : N :=
  match s with
  | [] => 0
  | c :: t => (c - 48) + 10 * value_rev t
  end.

Definition digits_value (s : str) : N := value_rev (rev s).

Lemma rev_digits_value (fuel : nat) (n : N) :
  n < 2 ^ N.of_nat fuel -> value_rev (Digits.rev_digits fuel n) = n.
Proof.
  revert n. induction fuel as [| fuel IH]; intros n Hn.
  - simpl in Hn. simpl. lia.
  - cbn [Digits.rev_digits]. destruct (n <? 10) eqn:E.
    + apply N.ltb_lt in E. unfold Digits.digit. cbn [value_rev]. lia.
    + cbn [value_rev]. rewrite IH.
      * unfold Digits.digit.
        pose proof (N.div_mod n 10 ltac:(discriminate)) as Hdm.
        set (q := n / 10) in *. set (d := n mod 10) in *. clearbody q d. lia.
      * apply N.Div0.div_lt_upper_bound.
        rewrite Nat2N.inj_succ, N.pow_succ_r' in Hn. lia.
Qed.

(** [str(n)] reads back as [n]. *)
Lemma of_N_value (n : N) : digits_value (Digits.of_N n) = n.
Proof.
  unfold digits_value, Digits.of_N. rewrite rev_involutive.
  apply rev_digits_value.
  rewrite Nat2N.inj_succ, N2Nat.id, N.pow_succ_r'.
  pose proof (N.size_gt n). lia.
Qed.

Lemma value_rev_app (a b : str) :
  value_rev (a ++ b) = value_rev a + 10 ^ N.of_nat (List.length a) * value_rev b.
Proof.
  induction a as [| c a IH].
  - cbn [app value_rev List.length N.of_nat]. rewrite N.pow_0_r. lia.
  - cbn [app value_rev List.length]. rewrite IH, Nat2N.inj_succ, N.pow_succ_r'.
    generalize (c - 48) (value_rev a) (value_rev b) (10 ^ N.of_nat (List.length a)).
    intros; ring.
Qed.

(** The [p] fraction digits read back as the fraction. *)
Lemma frac_value (p : nat) (r : N) :
  r < 10 ^ N.of_nat p -> digits_value (Digits.frac p r) = r.
Proof.
  unfold digits_value. revert r. induction p as [| p IH]; intros r Hr.
  - simpl in *. lia.
  - cbn [Digits.frac rev].
    assert (Hpos : 10 ^ N.of_nat p <> 0) by (apply N.pow_nonzero; discriminate).
    rewrite value_rev_app, IH by (apply N.mod_lt; exact Hpos).
    rewrite length_rev, frac_length. cbn [value_rev]. unfold Digits.digit.
    pose proof (N.div_mod r (10 ^ N.of_nat p) Hpos) as Hdm.
    set (q := r / 10 ^ N.of_nat p) in *. set (d := r mod 10 ^ N.of_nat p) in *.
    set (scale := 10 ^ N.of_nat p) in *. clearbody q d scale. nia.
Qed.

(** The integer written for a finite double is nearest to its exact
    value scaled by [10^p]: for a negative exponent [e] the distance from
    [m * 10^p / 2^(-e)] is at most one half. *)
Lemma scaled_round_nearest (m : positive) (e : Z) (p : nat) :
  (e < 0)%Z ->
  let n := Z.of_N (Float.scaled_round m e p) in
  (Z.abs (2 * (n * 2 ^ (- e) - Zpos m * 10 ^ Z.of_nat p)) <= 2 ^ (- e))%Z.
Proof.
  intros He n. unfold n, Float.scaled_round.
  apply Z.leb_gt in He. rewrite He.
  set (num := (Zpos m * 10 ^ Z.of_nat p)%Z).
  set (den := (2 ^ (- e))%Z).
  assert (Hden : (0 < den)%Z) by (apply Z.pow_pos_nonneg; apply Z.leb_gt in He; lia).
  assert (Hnum : (0 <= num)%Z) by (unfold num; apply Z.mul_nonneg_nonneg; [lia |];
                                   apply Z.pow_nonneg; lia).
  pose proof (Z.div_mod num den ltac:(lia)) as Hdm.
  pose proof (Z.mod_pos_bound num den Hden) as Hr.
  assert (Hq : (0 <= num / den)%Z) by (apply Z.div_pos; lia).
  set (q := (num / den)%Z) in *. set (r := (num mod den)%Z) in *.
  clearbody q r den. clearbody num. subst num.
  assert (Hlow : (q * den - (den * q + r) = - r)%Z) by ring.
  assert (Hhigh : ((q + 1) * den - (den * q + r) = den - r)%Z) by ring.
  destruct (2 * r ?= den)%Z eqn:C.
  - apply Z.compare_eq in C.
    destruct (Z.even q); rewrite Z2N.id by lia;
      [rewrite Hlow | rewrite Hhigh]; lia.
  - pose proof (proj1 (Z.compare_lt_iff _ _) C) as Hlt.
    rewrite Z2N.id by lia. rewrite Hlow. lia.
  - pose proof (proj1 (Z.compare_gt_iff _ _) C) as Hgt.
    rewrite Z2N.id by lia. rewrite Hhigh. lia.
Qed.

(** For an exponent that is not negative the double is an integer and is
    written exactly. *)
Lemma scaled_round_exact (m : positive) (e : Z) (p : nat) :
  (0 <= e)%Z ->
  Z.of_N (Float.scaled_round m e p) = (Zpos m * 10 ^ Z.of_nat p * 2 ^ e)%Z.
Proof.
  intros He. unfold Float.scaled_round.
  apply Z.leb_le in He. rewrite He. apply Z2N.id.
  apply Z.mul_nonneg_nonneg; [apply Z.mul_nonneg_nonneg; [lia |] |];
    apply Z.pow_nonneg; lia.
Qed.

(** ** Number formatting: render, strip zeros, strip the point *)

Lemma dump_value_str_float (repr_of : pyval -> str) (item : OpenQueryData)
      (x : spec_float) (p : Z) :
  valid_precision p ->
  value item = PFloat x ->
  dump_value_str repr_of item p
  = Ok (shown (if is_solar (variable item) then zero_floor x else x) p).
Proof.
  intros Hp Hx. unfold dump_value_str, adjusted_value. rewrite Hx. cbn [is_number].
  destruct (is_solar (variable item)).
  - rewrite (py_le_threshold (PFloat x) eq_refl). cbn [rbind].
    change (if at_most_threshold (PFloat x) then PFloat Float.zero else PFloat x)
      with (floored (PFloat x)).
    rewrite floored_float. apply trimmed_float, Hp.
  - cbn [rbind]. apply trimmed_float, Hp.
Qed.

Lemma py_format_f_number (v : pyval) (x : spec_float) (p : Z) :
  valid_precision p -> is_number v = true -> py_float v = Ok x ->
  py_format_f v p = Ok (FloatFormat.format_f x (Z.to_nat p)).
Proof.
  intros [H0 Hmax] Hnum Hx. unfold py_format_f.
  apply Z.ltb_ge in H0. apply Z.ltb_ge in Hmax. rewrite H0, Hmax. cbn [orb].
  destruct v; try discriminate Hnum; rewrite Hx; reflexivity.
Qed.

(** C5.  A number is rendered with the requested count of decimal digits,
    then its trailing zeros are stripped, then a trailing decimal point;
    power values, the state-of-charge percentage and the values of the
    dump of all variables go through this same trimming.  So 1.50 at two
    decimals gives "1.5", 2.00 gives "2" and 1.234 gives "1.23". *)
Theorem numbers_rendered_then_trimmed :
  forall (repr_of : pyval -> str) (args : Args) (device : Device)
         (data : list OpenQueryData) (r : Readings) (item : OpenQueryData)
         (v : pyval) (x : spec_float),
    valid_precision (arg_decimals args) ->
    is_number v = true ->
    py_float v = Ok x ->
    let p := arg_decimals args in
    let rendered := FloatFormat.format_f x (Z.to_nat p) in
    let without_zeros := rstrip 48 rendered in
    let trimmed_text := rstrip 46 without_zeros in
    py_format_f v p = Ok rendered
    /\ (Float.is_finite x = true -> has_decimals rendered (Z.to_nat p))
    /\ (exists k, rendered = without_zeros ++ repeat 48 k
                  /\ forall t, without_zeros <> t ++ [48])
    /\ (exists k, without_zeros = trimmed_text ++ repeat 46 k
                  /\ forall t, trimmed_text <> t ++ [46])
    /\ format_power_value v p = Ok (trimmed_text ++ lit " kW")
    /\ (reads_all data r -> has_battery device = true ->
        In (lit "SoC: "
              ++ rstrip 46 (rstrip 48 (FloatFormat.format_f (r_soc r) (Z.to_nat p)))
              ++ lit "%")
           (output (default_summary repr_of args device data)))
    /\ (value item = v -> is_solar (variable item) = false ->
        dump_value_str repr_of item p = Ok trimmed_text)
    /\ format_power_value (fl 150 2) 2 = Ok (lit "1.5 kW")
    /\ format_power_value (fl 200 2) 2 = Ok (lit "2 kW")
    /\ format_power_value (fl 1234 3) 2 = Ok (lit "1.23 kW").
Proof.
  intros repr_of args device data r item v x Hp Hnum Hx
         p rendered without_zeros trimmed_text.
  pose proof (py_format_f_number v x p Hp Hnum Hx) as Hfmt.
  repeat match goal with |- _ /\ _ => split end.
  - exact Hfmt.
  - apply format_f_has_decimals.
  - apply rstrip_spec.
  - apply rstrip_spec.
  - unfold format_power_value, trimmed. rewrite Hfmt. reflexivity.
  - intros Hr Hb.
    apply (in_summary_output repr_of args device data r _ Hp Hr).
    unfold summary_lines. rewrite Hb. fold p. simpl. tauto.
  - intros Hv Hsolar.
    unfold dump_value_str, adjusted_value, trimmed.
    rewrite Hv, Hnum, Hsolar. cbn [rbind]. rewrite Hfmt. reflexivity.
  - vm_compute. reflexivity.
  - vm_compute. reflexivity.
  - vm_compute. reflexivity.
Qed.

Lemma numbers_rendered_then_trimmed_witness :
  py_format_f (fl 150 2) 2 = Ok (lit "1.50")
  /\ format_power_value (fl 150 2) 2 = Ok (lit "1.5 kW")
  /\ In (lit "SoC: 85.5%")
        (output (default_summary no_repr (flags false 2) (station true)
                                 (sample 0 0 10000 3000 50000 500 2000 8550)))
  /\ dump_value_str no_repr (point "loadsPower" (fl 150 2) "Load Power" "kW") 2
     = Ok (lit "1.5").
Proof.
  assert (Hp : valid_precision (arg_decimals (flags false 2)))
    by (vm_compute; split; discriminate).
  destruct (numbers_rendered_then_trimmed
              no_repr (flags false 2) (station true)
              (sample 0 0 10000 3000 50000 500 2000 8550)
              (sample_readings 0 0 10000 3000 50000 500 2000 8550)
              (point "loadsPower" (fl 150 2) "Load Power" "kW")
              (fl 150 2) (Float.decimal 150 2) Hp eq_refl eq_refl)
    as (Hfmt & _ & _ & _ & Hkw & Hsoc & Hdump & _).
  split; [exact Hfmt |]. split; [exact Hkw |]. split.
  - apply Hsoc; [reads_by_computation | reflexivity].
  - apply Hdump; reflexivity.
Defined.

(** ** Zero decimals *)

Lemma digits_no_point (s : str) : Forall is_digit s -> ~ In 46 s.
Proof.
  intros H Hin. rewrite Forall_forall in H. specialize (H _ Hin).
  unfold is_digit in H. lia.
Qed.

Lemma format_f_zero_decimals_no_point (x : spec_float) :
  ~ In 46 (FloatFormat.format_f x 0).
Proof.
  assert (Hfixed : forall s n, ~ In 46 (FloatFormat.sign s ++ Digits.fixed n 0)).
  { intros s n Hin. apply in_app_or in Hin. destruct Hin as [Hin | Hin].
    - destruct s; simpl in Hin; [destruct Hin as [Hin | []]; discriminate | exact Hin].
    - unfold Digits.fixed in Hin. rewrite app_nil_r in Hin.
      exact (digits_no_point _ (of_N_digits _) Hin). }
  destruct x as [s | s | | s m e]; unfold FloatFormat.format_f.
  - apply Hfixed.
  - destruct s; simpl; intros H; repeat (destruct H as [H | H]; [discriminate |]);
      exact H.
  - simpl; intros H; repeat (destruct H as [H | H]; [discriminate |]); exact H.
  - apply Hfixed.
Qed.

Lemma py_format_f_zero_decimals_no_point (v : pyval) (rendered : str) :
  py_format_f v 0 = Ok rendered -> ~ In 46 rendered.
Proof.
  unfold py_format_f. change ((0 <? 0)%Z || (max_precision <? 0)%Z) with false.
  cbv iota.
  destruct v as [| b | z | f | | |]; try discriminate;
    (destruct (py_float _) as [x |]; [| discriminate]);
    cbn [rbind]; intros H; injection H as <-;
    apply format_f_zero_decimals_no_point.
Qed.

(** C9.  At zero decimal places no point is printed, and stripping the
    trailing zeros removes digits of the integer part: whenever the
    rendering of a value at zero decimals ends in the digit 0,
    [format_power_value] returns the rendering without its final run of
    zeros, so 100 gives "1 kW". *)
Theorem zero_decimals_strip_integer_zeros :
  forall (v : pyval) (rendered : str),
    py_format_f v 0 = Ok rendered ->
    (exists t, rendered = t ++ [48]) ->
    exists kept k,
      rendered = kept ++ repeat 48 (S k)
      /\ (forall t, kept <> t ++ [48])
      /\ format_power_value v 0 = Ok (kept ++ lit " kW").
Proof.
  intros v rendered Hfmt [t Ht].
  destruct (rstrip_spec 48 rendered) as (k & Hk & Hend).
  exists (rstrip 48 rendered).
  destruct k as [| k].
  - exfalso. simpl in Hk. rewrite app_nil_r in Hk.
    apply (Hend t). rewrite <- Hk. exact Ht.
  - exists k. split; [exact Hk |]. split; [exact Hend |].
    unfold format_power_value, trimmed. rewrite Hfmt. cbn [rbind].
    rewrite (rstrip_absent 46 (rstrip 48 rendered)); [reflexivity |].
    intros Hin. apply (py_format_f_zero_decimals_no_point v rendered Hfmt).
    rewrite Hk. apply in_or_app. left. exact Hin.
Qed.

Lemma zero_decimals_strip_integer_zeros_witness :
  py_format_f (PInt 100) 0 = Ok (lit "100")
  /\ format_power_value (PInt 100) 0 = Ok (lit "1 kW").
Proof.
  split; [vm_compute; reflexivity |].
  destruct (zero_decimals_strip_integer_zeros (PInt 100) (lit "100"))
    as (kept & k & Hk & Hend & Hfmt).
  - vm_compute. reflexivity.
  - exists (lit "10"). reflexivity.
  - assert (Hkept : kept = rstrip 48 (kept ++ repeat 48 (S k))).
    { rewrite rstrip_app_repeat. symmetry.
      destruct kept as [| c kept'] using rev_ind; [reflexivity |].
      apply rstrip_last_other. intros ->. exact (Hend kept' eq_refl). }
    rewrite <- Hk in Hkept. rewrite Hfmt, Hkept. reflexivity.
Defined.

(** The same happens to the value 0 itself, whose text becomes empty. *)
Example zero_at_zero_decimals : format_power_value (PInt 0) 0 = Ok (lit " kW").
Proof. vm_compute. reflexivity. Qed.

(** * Further properties of the client *)

(** ** The shape of a signature *)

Definition is_lower_hex (c : N) : Prop := 48 <= c <= 57 \/ 97 <= c <= 102.

Lemma le_bytes_length (n : nat) (x : N) : List.length (MD5.le_bytes n x) = n.
Proof.
  revert x. induction n as [| n IH]; intros x; simpl; [reflexivity |].
  rewrite IH. reflexivity.
Qed.

Lemma le_bytes_bound (n : nat) (x : N) : Forall (fun b => b < 256) (MD5.le_bytes n x).
Proof.
  revert x. induction n as [| n IH]; intros x; cbn [MD5.le_bytes]; constructor.
  - change 255 with (N.ones 8). rewrite N.land_ones.
    apply N.mod_lt. discriminate.
  - apply IH.
Qed.

Lemma hex_digit_lower (n : N) : n < 16 -> is_lower_hex (MD5.hex_digit n).
Proof.
  intros Hn. unfold MD5.hex_digit, is_lower_hex.
  destruct (n <? 10) eqn:E.
  - apply N.ltb_lt in E. lia.
  - apply N.ltb_ge in E. lia.
Qed.

Lemma hex_bytes_shape (bs : list N) :
  Forall (fun b => b < 256) bs ->
  List.length (flat_map MD5.hex_byte bs) = (2 * List.length bs)%nat
  /\ Forall is_lower_hex (flat_map MD5.hex_byte bs).
Proof.
  induction 1 as [| b bs Hb _ [IHlen IHhex]]; [split; constructor |].
  cbn [flat_map MD5.hex_byte app List.length]. split; [rewrite IHlen; lia |].
  constructor; [| constructor; [| exact IHhex]]; apply hex_digit_lower.
  - apply N.Div0.div_lt_upper_bound. lia.
  - apply N.mod_lt. discriminate.
Qed.

Lemma digest_shape (msg : list N) :
  List.length (MD5.digest msg) = 16%nat
  /\ Forall (fun b => b < 256) (MD5.digest msg).
Proof.
  unfold MD5.digest.
  destruct (MD5.blocks _ MD5.init (MD5.pad msg)) as [[[a b] c] d].
  split.
  - rewrite !length_app, !le_bytes_length. reflexivity.
  - repeat (apply Forall_app; split); apply le_bytes_bound.
Qed.

(** X1.  Whenever signing succeeds, the signature is a text of exactly 32
    characters, each a digit or a lowercase letter a-f. *)
Theorem signature_is_32_lowercase_hex :
  forall (api : FoxESSStatsAPI) (path timestamp signature : str),
    _generate_signature api path timestamp = Ok signature ->
    List.length signature = 32%nat /\ Forall is_lower_hex signature.
Proof.
  intros api path timestamp signature. unfold _generate_signature.
  destruct (UTF8.encode _) as [bs | e]; cbn [rbind]; [| discriminate].
  intros H. injection H as <-. unfold MD5.hexdigest.
  destruct (digest_shape bs) as [Hlen Hbound].
  destruct (hex_bytes_shape _ Hbound) as [Hl Hh].
  rewrite Hl, Hlen. split; [reflexivity | exact Hh].
Qed.

Lemma signature_is_32_lowercase_hex_witness :
  List.length (lit "9516f5b50df4f3b2cbefb3e18de0e4aa") = 32%nat
  /\ Forall is_lower_hex (lit "9516f5b50df4f3b2cbefb3e18de0e4aa").
Proof.
  apply (signature_is_32_lowercase_hex
           (api_with_token (Some (lit "key")))
           (lit "/op/v0/device/list") (lit "1700000000000")).
  vm_compute. reflexivity.
Defined.

(** X2.  The signature does not record where one field ends and the next
    begins: a path that ends in separator-and-text signs like the shorter
    path with that text and a separator put in front of the token. *)
Theorem signature_ignores_field_boundaries :
  forall (key : str) (debug : bool) (a b c timestamp : str),
    _generate_signature
      {| api_key := key; token := Some c; debug_mode := debug |}
      (a ++ lit "\r\n" ++ b) timestamp
    = _generate_signature
        {| api_key := key; token := Some (b ++ lit "\r\n" ++ c); debug_mode := debug |}
        a timestamp.
Proof.
  intros key debug a b c timestamp. unfold _generate_signature.
  f_equal. cbn [py_join]. rewrite !token_or_empty_spec. cbn [token].
  rewrite <- !app_assoc. reflexivity.
Qed.

(** ** Request headers *)

(** [headers.get(name)] on the pairs of the headers dict. *)
Fixpoint header (headers : list (str * str)) (name : str) : option str :=
  match headers with
  | [] => None
  | (k, v) :: rest => if str_eqb k name then Some v else header rest name
  end.

Lemma get_headers_result (api : FoxESSStatsAPI) (path timestamp : str) :
  UTF8.encodable (path ++ token_or_empty api ++ timestamp) ->
  exists hs,
    outcome (_get_headers api path timestamp) = Ok hs
    /\ header hs (lit "timestamp") = Some timestamp
    /\ header hs (lit "signature")
       = Some (signature_by_spec path (token api) timestamp)
    /\ header hs (lit "token")
       = match token_or_empty api with [] => None | t => Some t end
    /\ header hs (lit "User-Agent") = Some (lit "FoxESSCmdLine/1.0")
    /\ (debug_mode api = false -> output (_get_headers api path timestamp) = []).
Proof.
  intros Henc. unfold _get_headers.
  rewrite (generate_signature_ok api path timestamp Henc), bind_lift_ok.
  destruct (debug_mode api), (token_or_empty api) as [| c t];
    (eexists; repeat split; try reflexivity; discriminate).
Qed.

(** X3.  A fresh client sends no token header and signs with an empty
    token; once authenticated it sends the API key as the token header and
    signs with it, unless the key is empty, in which case the header is
    still left out.  Timestamp and signature headers are always there. *)
Theorem headers_before_and_after_authenticate :
  forall (key : str) (debug : bool) (path timestamp : str),
    UTF8.encodable (path ++ key ++ timestamp) ->
    let fresh := FoxESSStatsAPI_init key debug in
    (exists hs,
        outcome (_get_headers fresh path timestamp) = Ok hs
        /\ header hs (lit "token") = None
        /\ header hs (lit "timestamp") = Some timestamp
        /\ header hs (lit "signature") = Some (signature_by_spec path None timestamp))
    /\ (exists hs,
           outcome (_get_headers (authenticate fresh) path timestamp) = Ok hs
           /\ header hs (lit "token") = match key with [] => None | _ => Some key end
           /\ header hs (lit "timestamp") = Some timestamp
           /\ header hs (lit "signature")
              = Some (signature_by_spec path (Some key) timestamp)).
Proof.
  intros key debug path timestamp Henc fresh.
  apply encodable_app in Henc. destruct Henc as [Hp Hrest].
  apply encodable_app in Hrest. destruct Hrest as [Hk Ht].
  split.
  - destruct (get_headers_result fresh path timestamp) as (hs & H1 & H2 & H3 & H4 & _).
    { apply encodable_app. split; [exact Hp | exact Ht]. }
    exists hs. repeat split; assumption.
  - destruct (get_headers_result (authenticate fresh) path timestamp)
      as (hs & H1 & H2 & H3 & H4 & _).
    { rewrite token_or_empty_spec. cbn [authenticate token fresh FoxESSStatsAPI_init api_key].
      apply encodable_app. split; [exact Hp |].
      apply encodable_app. split; [exact Hk | exact Ht]. }
    exists hs. rewrite token_or_empty_spec in H4.
    cbn [authenticate token fresh FoxESSStatsAPI_init api_key] in H3, H4.
    repeat split; try assumption.
    rewrite H4. destruct key; reflexivity.
Qed.

Lemma headers_before_and_after_authenticate_witness :
  exists hs,
    outcome (_get_headers (authenticate (FoxESSStatsAPI_init (lit "key") false))
                          (lit "/op/v0/device/list") (lit "1700000000000")) = Ok hs
    /\ header hs (lit "token") = Some (lit "key")
    /\ header hs (lit "timestamp") = Some (lit "1700000000000")
    /\ header hs (lit "signature")
       = Some (signature_by_spec (lit "/op/v0/device/list") (Some (lit "key"))
                                 (lit "1700000000000")).
Proof.
  refine (proj2 (headers_before_and_after_authenticate
                   (lit "key") false (lit "/op/v0/device/list")
                   (lit "1700000000000") _)).
  vm_compute. reflexivity.
Defined.

(** ** What a request can return *)

Lemma fetch_after_headers (repr_of : pyval -> str) (api : FoxESSStatsAPI)
      (timestamp url : str) (answer : transport) :
  outcome (_fetch repr_of api timestamp url answer)
  = match _generate_signature api (py_replace base_url [] url) timestamp with
    | Raise e => Raise e
    | Ok _ =>
        match answer with
        | Responded _ None => Raise ValueError
        | Responded _ (Some (PDict response_data)) =>
            match py_gt_zero (dict_get response_data (lit "errno") (PInt 0)) with
            | Raise e => Raise e
            | Ok true =>
                Raise (Exception
                         (lit "Server error "
                              ++ py_str repr_of (dict_get response_data (lit "errno") (PInt 0))))
            | Ok false => Ok (dict_get response_data (lit "result") (PDict []))
            end
        | Responded _ (Some _) => Raise AttributeError
        | HTTPError code (Ok error_text) =>
            Raise (Exception (lit "HTTP " ++ Digits.of_Z code ++ lit ": " ++ error_text))
        | HTTPError code (Raise e) => Raise e
        | URLError reason => Raise (Exception (lit "URL Error: " ++ reason))
        | Failed e => Raise e
        end
    end.
Proof.
  unfold _fetch, _get_headers.
  destruct (_generate_signature api _ timestamp) as [sig | e]; [| reflexivity].
  rewrite bind_lift_ok.
  destruct (debug_mode api);
    (destruct answer as [status [body |] | code [text | e] | reason | e];
     [ destruct body as [| | | | | | d];
       try reflexivity;
       destruct (py_gt_zero (dict_get d (lit "errno") (PInt 0))) as [[|] | e];
       reflexivity
     | reflexivity | reflexivity | reflexivity | reflexivity | reflexivity ]).
Qed.

(** X4.  A request returns a payload only for a response whose body is a
    JSON object with an error code that is not above zero, and the payload
    is that object's result (an empty object when it has none); an HTTP
    error status, a network failure, a body that is not JSON or not an
    object, and a positive error code all raise. *)
Theorem fetch_returns_only_an_unwrapped_result :
  forall (repr_of : pyval -> str) (api : FoxESSStatsAPI) (timestamp url : str)
         (answer : transport) (payload : pyval),
    outcome (_fetch repr_of api timestamp url answer) = Ok payload ->
    exists status response_data,
      answer = Responded status (Some (PDict response_data))
      /\ py_gt_zero (dict_get response_data (lit "errno") (PInt 0)) = Ok false
      /\ payload = dict_get response_data (lit "result") (PDict []).
Proof.
  intros repr_of api timestamp url answer payload.
  rewrite fetch_after_headers.
  destruct (_generate_signature api _ timestamp) as [sig | e]; [| discriminate].
  destruct answer as [status [body |] | code [text | e] | reason | e];
    try discriminate.
  destruct body as [| | | | | | d]; try discriminate.
  destruct (py_gt_zero (dict_get d (lit "errno") (PInt 0))) as [[|] | e] eqn:E;
    try discriminate.
  intros H. injection H as <-. exists status, d.
  split; [reflexivity | split; [exact E | reflexivity]].
Qed.

Lemma fetch_returns_only_an_unwrapped_result_witness :
  exists status response_data,
    Responded 200 (Some (envelope 0)) = Responded status (Some (PDict response_data))
    /\ py_gt_zero (dict_get response_data (lit "errno") (PInt 0)) = Ok false
    /\ PStr (lit "payload") = dict_get response_data (lit "result") (PDict []).
Proof.
  apply (fetch_returns_only_an_unwrapped_result
           no_repr (api_with_token (Some (lit "key"))) (lit "1700000000000")
           device_list_url).
  vm_compute. reflexivity.
Defined.

(** X5.  What a failed request raises, provided the request could be
    signed: an HTTP error status whose body decodes gives the message
    "HTTP <code>: <body text>"; when reading or decoding that body raises
    (a body that is not UTF-8 raises [UnicodeDecodeError]) that exception
    leaves [_fetch] in its place; a network failure gives "URL Error:
    <reason>"; a body that is not JSON raises [ValueError]; any other
    exception of [urlopen] passes through unchanged. *)
Theorem fetch_transport_errors :
  forall (repr_of : pyval -> str) (api : FoxESSStatsAPI) (timestamp url : str)
         (code : Z) (error_text reason : str) (e : exn),
    UTF8.encodable (py_replace base_url [] url ++ token_or_empty api ++ timestamp) ->
    outcome (_fetch repr_of api timestamp url (HTTPError code (Ok error_text)))
    = Raise (Exception (lit "HTTP " ++ Digits.of_Z code ++ lit ": " ++ error_text))
    /\ outcome (_fetch repr_of api timestamp url (HTTPError code (Raise e)))
       = Raise e
    /\ outcome (_fetch repr_of api timestamp url (URLError reason))
       = Raise (Exception (lit "URL Error: " ++ reason))
    /\ outcome (_fetch repr_of api timestamp url (Responded 200 None))
       = Raise ValueError
    /\ outcome (_fetch repr_of api timestamp url (Failed e))
       = Raise e.
Proof.
  intros repr_of api timestamp url code error_text reason e Henc.
  rewrite !fetch_after_headers, (generate_signature_ok api _ _ Henc).
  repeat split.
Qed.

Lemma fetch_transport_errors_witness :
  outcome (_fetch no_repr (api_with_token (Some (lit "key"))) (lit "1700000000000")
                  device_list_url (HTTPError 401 (Ok (lit "Unauthorized"))))
  = Raise (Exception (lit "HTTP 401: Unauthorized"))
  /\ outcome (_fetch no_repr (api_with_token (Some (lit "key"))) (lit "1700000000000")
                     device_list_url (HTTPError 401 (Raise UnicodeDecodeError)))
     = Raise UnicodeDecodeError.
Proof.
  refine (let H := fetch_transport_errors
                     no_repr (api_with_token (Some (lit "key"))) (lit "1700000000000")
                     device_list_url 401 (lit "Unauthorized") [] UnicodeDecodeError _
          in conj (proj1 H) (proj1 (proj2 H))).
  vm_compute. reflexivity.
Defined.

Lemma fetch_quiet_prints_nothing (repr_of : pyval -> str) (key : str)
      (tok : option str) (timestamp url : str) (answer : transport) :
  output (_fetch repr_of {| api_key := key; token := tok; debug_mode := false |}
                 timestamp url answer) = [].
Proof.
  unfold _fetch, _get_headers. cbn [debug_mode when].
  destruct (_generate_signature _ _ timestamp) as [sig | e]; [| reflexivity].
  rewrite bind_lift_ok.
  destruct answer as [status [body |] | code [text | e] | reason | e];
    try reflexivity.
  destruct body as [| | | | | | d]; try reflexivity.
  destruct (py_gt_zero (dict_get d (lit "errno") (PInt 0))) as [[|] | e];
    reflexivity.
Qed.

(** X6.  Debug mode changes nothing but the printing: a request ends the
    same way, with the same payload or the same exception, whether the
    debug flag is set or not, and without the flag it prints nothing. *)
Theorem fetch_result_independent_of_debug :
  forall (repr_of : pyval -> str) (key : str) (tok : option str)
         (timestamp url : str) (answer : transport),
    let quiet := {| api_key := key; token := tok; debug_mode := false |} in
    let verbose := {| api_key := key; token := tok; debug_mode := true |} in
    outcome (_fetch repr_of verbose timestamp url answer)
    = outcome (_fetch repr_of quiet timestamp url answer)
    /\ output (_fetch repr_of quiet timestamp url answer) = [].
Proof.
  intros repr_of key tok timestamp url answer quiet verbose.
  split.
  - rewrite !fetch_after_headers. reflexivity.
  - apply fetch_quiet_prints_nothing.
Qed.

(** ** The path that is signed *)

(** [old in s] for a non-empty [old]. *)
Fixpoint occurs (old s : str) : bool :=
  match s with
  | [] => false
  | _ :: t => startswith old s || occurs old t
  end.

Lemma replace_from_absent (old new s : str) (fuel : nat) :
  occurs old s = false -> replace_from fuel old new s = s.
Proof.
  revert fuel. induction s as [| c t IH]; intros fuel Hs.
  - destruct fuel; reflexivity.
  - destruct fuel as [| fuel]; [reflexivity |].
    cbn [occurs] in Hs. apply orb_false_iff in Hs. destruct Hs as [Hc Ht].
    cbn [replace_from]. rewrite Hc, (IH fuel Ht). reflexivity.
Qed.

Lemma startswith_app (p s : str) : startswith p (p ++ s) = true.
Proof.
  induction p as [| a p IH]; [reflexivity |].
  cbn [app startswith]. rewrite N.eqb_refl, IH. reflexivity.
Qed.

Lemma skipn_prefix (p s : str) : skipn (List.length p) (p ++ s) = s.
Proof. induction p as [| a p IH]; [reflexivity | exact IH]. Qed.

Lemma py_replace_prefix (old s : str) :
  old <> [] -> occurs old s = false -> py_replace old [] (old ++ s) = s.
Proof.
  intros Hold Hs. unfold py_replace.
  destruct old as [| a old']; [contradiction |].
  change ((a :: old') ++ s) with (a :: (old' ++ s)).
  cbn [replace_from].
  change (a :: (old' ++ s)) with ((a :: old') ++ s).
  rewrite startswith_app, skipn_prefix.
  cbn [app]. apply replace_from_absent, Hs.
Qed.

(** X7.  The request for the base URL followed by a path is signed over
    that path alone, host and scheme removed, whenever the path does not
    itself contain the base URL: in debug mode the first printed lines
    name the path, the timestamp and the signature of exactly these. *)
Theorem fetch_signs_the_path_after_the_base_url :
  forall (repr_of : pyval -> str) (key : str) (tok : option str)
         (timestamp path : str) (answer : transport),
    let api := {| api_key := key; token := tok; debug_mode := true |} in
    occurs base_url path = false ->
    UTF8.encodable (path ++ token_or_empty api ++ timestamp) ->
    firstn 4 (output (_fetch repr_of api timestamp (base_url ++ path) answer))
    = [ lit "DEBUG: Setting up headers for " ++ path;
        lit "DEBUG: Timestamp: " ++ timestamp;
        lit "DEBUG: Signature: " ++ signature_by_spec path tok timestamp;
        lit "DEBUG: Fetching " ++ base_url ++ path ].
Proof.
  intros repr_of key tok timestamp path answer api Hfree Henc.
  unfold _fetch, _get_headers.
  rewrite (py_replace_prefix base_url path) by (discriminate || exact Hfree).
  rewrite (generate_signature_ok api path timestamp Henc), bind_lift_ok.
  cbn [debug_mode api when token].
  destruct answer as [status [body |] | code [text | e] | reason | e];
    try reflexivity.
  destruct body as [| | | | | | d]; try reflexivity.
  destruct (py_gt_zero (dict_get d (lit "errno") (PInt 0))) as [[|] | e];
    reflexivity.
Qed.

Lemma fetch_signs_the_path_after_the_base_url_witness :
  firstn 4 (output (_fetch no_repr
                           {| api_key := lit "key"; token := Some (lit "key");
                              debug_mode := true |}
                           (lit "1700000000000")
                           (base_url ++ lit "/op/v0/device/list")
                           (Responded 200 (Some (envelope 0)))))
  = [ lit "DEBUG: Setting up headers for /op/v0/device/list";
      lit "DEBUG: Timestamp: 1700000000000";
      lit "DEBUG: Signature: 9516f5b50df4f3b2cbefb3e18de0e4aa";
      lit "DEBUG: Fetching https://www.foxesscloud.com/op/v0/device/list" ].
Proof.
  rewrite (fetch_signs_the_path_after_the_base_url
             no_repr (lit "key") (Some (lit "key")) (lit "1700000000000")
             (lit "/op/v0/device/list") (Responded 200 (Some (envelope 0))));
    vm_compute; reflexivity.
Defined.

(** ** The authentication test *)

Section Authentication.

Variable repr_of : pyval -> str.

(** [str(e)] for an exception raised by Python itself; the text is
    Python's and is only printed. *)
Variable builtin_message : exn -> str.

Definition exn_str (e : exn) : str :=
  match e with
  | Exception msg => msg
  | _ => builtin_message e
  end.

Local Open Scope io_scope.

(** [FoxESSStatsAPI.authenticate] with its debug line; the client with the
    token set is returned. *)
Definition authenticate_io (api : FoxESSStatsAPI) : io FoxESSStatsAPI :=
  when (debug_mode api) (print (lit "DEBUG: Setting API key as token")) ;;
  io_ret (authenticate api).

(** [try: body; return True / except Exception as e: ...; return False]:
    every exception of the program is an [Exception]. *)
Definition caught {A} (body : io A) (handler : exn -> io bool) : io bool :=
  match body with
  | (out, Ok _) => (out, Ok true)
  | (out, Raise e) => io_bind (out, Ok tt) (fun _ => handler e)
  end.

(** [FoxESSStatsAPI.test_authentication], given the clock reading and the
    answer to the device-list request; the client is returned with its
    token set. *)
Definition test_authentication (api : FoxESSStatsAPI) (timestamp : str)
           (answer : transport) : io (FoxESSStatsAPI * bool) :=
  when (debug_mode api) (print (lit "DEBUG: Testing authentication")) ;;
  api' <- authenticate_io api ;;
  valid <- caught (_fetch repr_of api' timestamp
                          (base_url ++ lit "/op/v0/device/list") answer)
                  (fun e =>
                     when (debug_mode api')
                       (print (lit "DEBUG: Authentication test failed: " ++ exn_str e)) ;;
                     io_ret false) ;;
  io_ret (api', valid).

(** The [--test] branch of [main], which is reached when the API key is
    not empty: the verdict on the key. *)
Definition main_test (args : Args) (timestamp : str) (answer : transport) : io unit :=
  let api := FoxESSStatsAPI_init (arg_api_key args) (arg_debug args) in
  r <- test_authentication api timestamp answer ;;
  if snd r
  then print (lit "API Key is valid")
  else print (lit "API Key is invalid or there was a connection problem").

End Authentication.

Lemma bind_value {A B} (out : list str) (a : A) (k : A -> io B) :
  io_bind (out, Ok a) k = (out ++ output (k a), outcome (k a)).
Proof. unfold io_bind, output, outcome. destruct (k a). reflexivity. Qed.

Lemma caught_never_raises {A} (body : io A) (handler : exn -> io bool) :
  (forall e, outcome (handler e) = Ok false) ->
  caught body handler
  = (output body ++ match outcome body with
                    | Ok _ => []
                    | Raise e => output (handler e)
                    end,
     Ok match outcome body with Ok _ => true | Raise _ => false end).
Proof.
  intros Hh. unfold caught, outcome, output.
  destruct body as [out [a | e]]; cbn [fst snd].
  - rewrite app_nil_r. reflexivity.
  - rewrite bind_value. specialize (Hh e). unfold outcome, output in *.
    rewrite Hh. reflexivity.
Qed.

(** A computation with lines printed before it. *)
Definition prepend {A} (out : list str) (m : io A) : io A := (out ++ fst m, snd m).

Lemma bind_prepend {A B} (out : list str) (a : A) (k : A -> io B) :
  io_bind (out, Ok a) k = prepend out (k a).
Proof. unfold io_bind, prepend. destruct (k a). reflexivity. Qed.

Lemma test_authentication_result (repr_of : pyval -> str)
      (builtin_message : exn -> str) (api : FoxESSStatsAPI) (timestamp : str)
      (answer : transport) :
  exists out,
    test_authentication repr_of builtin_message api timestamp answer
    = (out,
       Ok (authenticate api,
           match outcome (_fetch repr_of (authenticate api) timestamp
                                 device_list_url answer) with
           | Ok _ => true
           | Raise _ => false
           end))
    /\ (debug_mode api = false -> out = []).
Proof.
  unfold test_authentication, device_list_url.
  assert (H1 : forall l, when (debug_mode api) (print l)
                         = ((if debug_mode api then [l] else []), Ok tt))
    by (intros l; destruct (debug_mode api); reflexivity).
  assert (H2 : authenticate_io api
               = ((if debug_mode api
                   then [lit "DEBUG: Setting API key as token"] else []),
                  Ok (authenticate api)))
    by (unfold authenticate_io; destruct (debug_mode api); reflexivity).
  rewrite H1, bind_prepend. cbv beta.
  rewrite H2, bind_prepend. cbv beta.
  set (fetched := _fetch repr_of (authenticate api) timestamp _ answer).
  assert (Hquiet : debug_mode api = false -> output fetched = []).
  { intros Hd. unfold fetched.
    destruct api as [key tok dbg]. cbn [debug_mode] in Hd. subst dbg.
    apply (fetch_quiet_prints_nothing repr_of key (Some key)). }
  change (debug_mode (authenticate api)) with (debug_mode api).
  rewrite caught_never_raises
    by (intros e; destruct (debug_mode api); reflexivity).
  rewrite bind_prepend. cbv beta.
  unfold prepend, io_ret. cbn [fst snd].
  eexists. split; [reflexivity |]. intros Hd.
  rewrite (Hquiet Hd), Hd. cbn [app].
  destruct (outcome fetched) as [payload | e]; reflexivity.
Qed.

(** Whether the device-list request made with the key passes: the key and
    the timestamp can be encoded, and the answer is a JSON object whose
    error code is not above zero. *)
Definition accepted (key timestamp : str) (answer : transport) : bool :=
  forallb UTF8.is_scalar (key ++ timestamp)
  && match answer with
     | Responded _ (Some (PDict response_data)) =>
         match py_gt_zero (dict_get response_data (lit "errno") (PInt 0)) with
         | Ok false => true
         | _ => false
         end
     | _ => false
     end.

Lemma device_list_path :
  py_replace base_url [] device_list_url = lit "/op/v0/device/list".
Proof. vm_compute. reflexivity. Qed.

Lemma token_after_authenticate (api : FoxESSStatsAPI) :
  token_or_empty (authenticate api) = api_key api.
Proof. rewrite token_or_empty_spec. reflexivity. Qed.

Lemma device_list_signature (api : FoxESSStatsAPI) (timestamp : str) :
  (forallb UTF8.is_scalar (api_key api ++ timestamp) = true ->
   exists sig,
     _generate_signature (authenticate api) (lit "/op/v0/device/list") timestamp
     = Ok sig)
  /\ (forallb UTF8.is_scalar (api_key api ++ timestamp) = false ->
      _generate_signature (authenticate api) (lit "/op/v0/device/list") timestamp
      = Raise UnicodeEncodeError).
Proof.
  split; intros H.
  - eexists. apply generate_signature_ok.
    rewrite token_after_authenticate.
    apply encodable_app. split; [reflexivity | exact H].
  - unfold _generate_signature. rewrite encode_not_encodable; [reflexivity |].
    cbn [py_join]. rewrite token_after_authenticate.
    rewrite forallb_app in H. rewrite !forallb_app.
    apply andb_false_iff in H. destruct H as [H | H]; rewrite H;
      rewrite ?andb_false_r; reflexivity.
Qed.

Lemma fetch_device_list_accepted (repr_of : pyval -> str) (api : FoxESSStatsAPI)
      (timestamp : str) (answer : transport) :
  match outcome (_fetch repr_of (authenticate api) timestamp device_list_url answer) with
  | Ok _ => true
  | Raise _ => false
  end
  = accepted (api_key api) timestamp answer.
Proof.
  rewrite fetch_after_headers, device_list_path. unfold accepted.
  destruct (device_list_signature api timestamp) as [Hok Hbad].
  destruct (forallb UTF8.is_scalar (api_key api ++ timestamp)).
  - destruct (Hok eq_refl) as [sig ->]. cbn [andb].
    destruct answer as [status [body |] | code [text | e] | reason | e];
      try reflexivity.
    destruct body as [| | | | | | d]; try reflexivity.
    destruct (py_gt_zero (dict_get d (lit "errno") (PInt 0))) as [[|] | e];
      reflexivity.
  - rewrite (Hbad eq_refl). reflexivity.
Qed.

(** X8.  The authentication test never raises: it sets the token to the
    API key and answers true exactly when the device-list request made
    with that key passes, that is when the server answers with a JSON
    object whose error code is not above zero; an HTTP error, a network
    failure, a malformed body, a positive error code and a key that
    cannot be encoded all give false.  Without the debug flag it prints
    nothing. *)
Theorem test_authentication_never_raises :
  forall (repr_of : pyval -> str) (builtin_message : exn -> str)
         (api : FoxESSStatsAPI) (timestamp : str) (answer : transport),
    exists out,
      test_authentication repr_of builtin_message api timestamp answer
      = (out, Ok (authenticate api, accepted (api_key api) timestamp answer))
      /\ (debug_mode api = false -> out = []).
Proof.
  intros repr_of builtin_message api timestamp answer.
  destruct (test_authentication_result repr_of builtin_message api timestamp answer)
    as (out & Heq & Hquiet).
  exists out. split; [| exact Hquiet].
  rewrite Heq, fetch_device_list_accepted. reflexivity.
Qed.

(** X9.  With [--test], a non-empty API key and no debug flag the program
    prints exactly one line and raises nothing: "API Key is valid" when the device-list
    request passes, and "API Key is invalid or there was a connection
    problem" otherwise, for instance on an HTTP 401. *)
Theorem main_test_prints_one_verdict :
  forall (repr_of : pyval -> str) (builtin_message : exn -> str)
         (args : Args) (timestamp : str) (answer : transport),
    arg_api_key args <> [] ->
    arg_debug args = false ->
    main_test repr_of builtin_message args timestamp answer
    = ([ if accepted (arg_api_key args) timestamp answer
         then lit "API Key is valid"
         else lit "API Key is invalid or there was a connection problem" ],
       Ok tt).
Proof.
  intros repr_of builtin_message args timestamp answer _ Hdebug.
  unfold main_test.
  destruct (test_authentication_result
              repr_of builtin_message
              (FoxESSStatsAPI_init (arg_api_key args) (arg_debug args))
              timestamp answer) as (out & Heq & Hquiet).
  rewrite Heq, fetch_device_list_accepted, (Hquiet Hdebug), bind_prepend.
  cbv beta. cbn [snd FoxESSStatsAPI_init api_key].
  destruct (accepted (arg_api_key args) timestamp answer); reflexivity.
Qed.

Lemma main_test_prints_one_verdict_witness :
  main_test no_repr (fun _ => []) (flags false 2) (lit "1700000000000")
            (HTTPError 401 (Ok (lit "Unauthorized")))
  = ([lit "API Key is invalid or there was a connection problem"], Ok tt)
  /\ main_test no_repr (fun _ => []) (flags false 2) (lit "1700000000000")
               (Responded 200 (Some (envelope 0)))
     = ([lit "API Key is valid"], Ok tt).
Proof.
  split.
  - exact (main_test_prints_one_verdict
             no_repr (fun _ => []) (flags false 2) (lit "1700000000000")
             (HTTPError 401 (Ok (lit "Unauthorized"))) ltac:(discriminate) eq_refl).
  - exact (main_test_prints_one_verdict
             no_repr (fun _ => []) (flags false 2) (lit "1700000000000")
             (Responded 200 (Some (envelope 0))) ltac:(discriminate) eq_refl).
Defined.

(** ** What the lookups return *)

(** X10.  Over data points whose variable names are text, what
    [get_data_value] returns is never an [int] or a [bool]: a number comes
    back as a float (a bool as 0.0 or 1.0, an integer that a float can
    hold as that float), any other value of the first matching point as
    it is, and [None] when no point matches. *)
Theorem get_data_value_numbers_are_floats :
  forall (data : list OpenQueryData) (key : str),
    (forall v, get_data_value data key = Ok v ->
               is_number v = true -> exists f, v = PFloat f)
    /\ (forall item,
          first_match data key = Some item ->
          match value item with
          | PBool b => get_data_value data key = Ok (PFloat (Float.of_Z (Z_of_bool b)))
          | PInt z =>
              get_data_value data key = Ok (PFloat (Float.of_Z z))
              \/ get_data_value data key = Raise OverflowError
          | other => get_data_value data key = Ok other
          end)
    /\ (first_match data key = None -> get_data_value data key = Ok PNone).
Proof.
  intros data key. rewrite get_data_value_find.
  destruct (first_match data key) as [item |].
  - assert (Hb : forall b, float_of_int (Z_of_bool b) = Ok (Float.of_Z (Z_of_bool b)))
      by (intros []; reflexivity).
    split; [| split; [| intros H; discriminate H]].
    + unfold value_of_item.
      destruct (value item) as [| b | z | f | s | l | d]; cbn [is_number py_float].
      * intros v H Hn; injection H as <-; discriminate Hn.
      * rewrite Hb. cbn [rbind]. intros v H _; injection H as <-; eexists; reflexivity.
      * destruct (float_of_int z) as [f | ex]; cbn [rbind]; intros v H _;
          [injection H as <-; eexists; reflexivity | discriminate H].
      * cbn [rbind]. intros v H _; injection H as <-; eexists; reflexivity.
      * intros v H Hn; injection H as <-; discriminate Hn.
      * intros v H Hn; injection H as <-; discriminate Hn.
      * intros v H Hn; injection H as <-; discriminate Hn.
    + intros item' H. injection H as <-. unfold value_of_item.
      destruct (value item) as [| b | z | f | s | l | d]; cbn [is_number py_float];
        try reflexivity.
      * rewrite Hb. reflexivity.
      * unfold float_of_int.
        destruct (Float.of_Z z) as [sg | sg | | sg m ex]; cbn [rbind];
          first [left; reflexivity | right; reflexivity].
  - split; [intros v H Hn; injection H as <-; discriminate Hn |].
    split; [intros item H; discriminate H | reflexivity].
Qed.

Lemma get_data_value_numbers_are_floats_witness :
  let data := [point "SoC" (PInt 85) "State of charge" "%"] in
  (exists f, fl 85 0 = PFloat f)
  /\ get_data_value data (lit "soc") = Ok (fl 85 0).
Proof.
  intros data.
  destruct (get_data_value_numbers_are_floats data (lit "soc")) as (Hfloat & Hitem & _).
  split.
  - apply Hfloat; [vm_compute; reflexivity | reflexivity].
  - destruct (Hitem (point "SoC" (PInt 85) "State of charge" "%") eq_refl) as [H | H].
    + rewrite H. vm_compute. reflexivity.
    + vm_compute in H. discriminate H.
Defined.

(** ** Units *)

Lemma no_degree_no_occurrence (u : str) :
  ~ In 0xB0 u -> occurs degree_C u = false.
Proof.
  induction u as [| c t IH]; intros Hin; [reflexivity |].
  cbn [occurs]. rewrite IH by (intros H; apply Hin; right; exact H).
  rewrite orb_false_r. unfold degree_C. cbn [startswith].
  destruct (0xB0 =? c) eqn:E; [| reflexivity].
  apply N.eqb_eq in E. exfalso. apply Hin. left. symmetry. exact E.
Qed.

Lemma replace_degree_once (fuel : nat) (pre post : str) :
  ~ In 0xB0 pre -> ~ In 0xB0 post ->
  (List.length pre < fuel)%nat ->
  replace_from fuel degree_C (lit "C") (pre ++ degree_C ++ post)
  = pre ++ lit "C" ++ post.
Proof.
  revert fuel. induction pre as [| c pre IH]; intros fuel Hpre Hpost Hfuel.
  - destruct fuel as [| fuel]; [inversion Hfuel |].
    change ([] ++ degree_C ++ post) with (0xB0 :: 0x43 :: post).
    cbn [replace_from].
    change (startswith degree_C (0xB0 :: 0x43 :: post))
      with (startswith degree_C (degree_C ++ post)).
    rewrite (startswith_app degree_C post).
    change (skipn (List.length degree_C) (0xB0 :: 0x43 :: post)) with post.
    rewrite (replace_from_absent _ _ _ _ (no_degree_no_occurrence post Hpost)).
    reflexivity.
  - destruct fuel as [| fuel]; [inversion Hfuel |].
    cbn [app replace_from].
    assert (Hc : startswith degree_C (c :: pre ++ degree_C ++ post) = false).
    { unfold degree_C at 1. cbn [startswith].
      destruct (0xB0 =? c) eqn:E; [| reflexivity].
      apply N.eqb_eq in E. exfalso. apply Hpre. left. symmetry. exact E. }
    rewrite Hc. f_equal. apply IH.
    + intros H. apply Hpre. right. exact H.
    + exact Hpost.
    + cbn [List.length] in Hfuel. lia.
Qed.

(** X11.  The unit of a variable comes back as the server sent it when it
    holds no degree sign; a degree-Celsius sign in it is replaced by the
    letter C; a missing unit and a missing variable give the empty
    text. *)
Theorem get_data_unit_normalizes_degree_celsius :
  forall (data : list OpenQueryData) (key : str) (item : OpenQueryData)
         (pre post : str),
    first_match data key = Some item ->
    ~ In 0xB0 pre -> ~ In 0xB0 post ->
    (unit_ item = Some (pre ++ post) -> get_data_unit data key = pre ++ post)
    /\ (unit_ item = Some (pre ++ degree_C ++ post) ->
        get_data_unit data key = pre ++ lit "C" ++ post)
    /\ (unit_ item = None -> get_data_unit data key = [])
    /\ (forall other, first_match data other = None -> get_data_unit data other = []).
Proof.
  intros data key item pre post Hitem Hpre Hpost.
  rewrite get_data_unit_find, Hitem. unfold unit_of_item.
  repeat split.
  - intros ->. unfold py_replace. apply replace_from_absent.
    apply no_degree_no_occurrence. intros H. apply in_app_or in H. tauto.
  - intros ->. unfold py_replace. apply replace_degree_once; try assumption.
    rewrite length_app. lia.
  - intros ->. reflexivity.
  - intros other H. rewrite get_data_unit_find, H. reflexivity.
Qed.

Definition temperature_point : OpenQueryData :=
  {| variable := lit "batTemperature"; value := fl 215 1;
     name := lit "Battery temperature"; unit_ := Some degree_C |}.

Lemma get_data_unit_normalizes_degree_celsius_witness :
  get_data_unit [temperature_point] (lit "battemperature") = lit "C".
Proof.
  refine (proj1 (proj2 (get_data_unit_normalizes_degree_celsius
                          [temperature_point] (lit "battemperature")
                          temperature_point [] [] eq_refl _ _)) eq_refl);
    intros [].
Defined.

(** ** Loops that print one line per element *)

Lemma for_each_ok_output {A} (l : list A) (body : A -> io unit) :
  outcome (for_each l body) = Ok tt ->
  output (for_each l body) = flat_map (fun x => output (body x)) l.
Proof.
  induction l as [| a rest IH]; cbn [for_each flat_map]; intros Hok; [reflexivity |].
  unfold io_bind in *.
  destruct (body a) as [o [[] | e]] eqn:Ea; [| discriminate Hok].
  destruct (for_each rest body) as [o' r'] eqn:Er.
  unfold outcome, output in *. cbn [fst snd] in *.
  rewrite (IH Hok). reflexivity.
Qed.

Lemma for_each_all_ok {A} (l : list A) (body : A -> io unit) :
  (forall x, In x l -> outcome (body x) = Ok tt) ->
  outcome (for_each l body) = Ok tt.
Proof.
  induction l as [| a rest IH]; cbn [for_each]; intros Hall; [reflexivity |].
  unfold io_bind.
  pose proof (Hall a (or_introl eq_refl)) as Ha.
  destruct (body a) as [o [[] | e]]; [| discriminate Ha].
  destruct (for_each rest body) as [o' r'] eqn:Er.
  unfold outcome in *. cbn [snd] in *.
  apply IH. intros x Hx. apply Hall. right. exact Hx.
Qed.

(** The text of a result, empty for an exception. *)
Definition text_of (r : result str) : str :=
  match r with Ok t => t | Raise _ => [] end.

Lemma lift_then_print (r : result str) (line : str -> str) :
  io_bind (lift r) (fun t => print (line t))
  = match r with
    | Ok t => ([line t], Ok tt)
    | Raise e => ([], Raise e)
    end.
Proof. destruct r; reflexivity. Qed.

(** The body of the loop of [dump_all_variables]. *)
Definition dump_item (repr_of : pyval -> str) (p : Z) (item : OpenQueryData) : io unit :=
  io_bind (lift (dump_value_str repr_of item p))
          (fun value_str => print (dump_line item value_str)).

Lemma dump_all_variables_loop (repr_of : pyval -> str) (data : list OpenQueryData)
      (p : Z) :
  dump_all_variables repr_of data p
  = prepend [lit "Available variables:"] (for_each data (dump_item repr_of p)).
Proof.
  unfold dump_all_variables.
  change (print (lit "Available variables:"))
    with ([lit "Available variables:"], Ok tt).
  rewrite bind_prepend. reflexivity.
Qed.

(** X12.  The dump of all variables always starts with the line
    "Available variables:".  When it completes it has printed, after that
    line, exactly one line per data point, in the order of the list; and
    it always completes when no value is a number, a missing value being
    shown as "unknown". *)
Theorem dump_all_variables_one_line_per_point :
  forall (repr_of : pyval -> str) (data : list OpenQueryData) (p : Z),
    (exists rest, output (dump_all_variables repr_of data p)
                  = lit "Available variables:" :: rest)
    /\ (outcome (dump_all_variables repr_of data p) = Ok tt ->
        output (dump_all_variables repr_of data p)
        = lit "Available variables:"
              :: map (fun item => dump_line item (text_of (dump_value_str repr_of item p)))
                     data)
    /\ ((forall item, In item data -> is_number (value item) = false) ->
        outcome (dump_all_variables repr_of data p) = Ok tt)
    /\ (forall item, value item = PNone ->
                     dump_value_str repr_of item p = Ok (lit "unknown")).
Proof.
  intros repr_of data p. rewrite dump_all_variables_loop.
  unfold prepend, output, outcome. cbn [fst snd app].
  split; [eexists; reflexivity |]. split; [| split].
  - intros Hok. f_equal.
    change (snd (for_each data (dump_item repr_of p)))
      with (outcome (for_each data (dump_item repr_of p))) in Hok.
    change (fst (for_each data (dump_item repr_of p)))
      with (output (for_each data (dump_item repr_of p))).
    rewrite (for_each_ok_output _ _ Hok).
    assert (Hall : forall item, In item data ->
                                exists t, dump_value_str repr_of item p = Ok t).
    { intros item Hin. destruct (for_each_completed _ _ item Hok Hin) as [Hb _].
      unfold dump_item in Hb. rewrite lift_then_print in Hb.
      destruct (dump_value_str repr_of item p) as [t | e]; [eauto | discriminate Hb]. }
    clear Hok. induction data as [| item rest IH]; [reflexivity |].
    cbn [flat_map map]. unfold dump_item at 1. rewrite lift_then_print.
    destruct (Hall item (or_introl eq_refl)) as [t Ht]. rewrite Ht.
    cbn [text_of output fst app]. f_equal.
    apply IH. intros x Hx. apply Hall. right. exact Hx.
  - intros Hnone.
    change (snd (for_each data (dump_item repr_of p)))
      with (outcome (for_each data (dump_item repr_of p))).
    apply for_each_all_ok. intros item Hin.
    unfold dump_item. rewrite lift_then_print. unfold dump_value_str.
    rewrite (Hnone item Hin). reflexivity.
  - intros item Hv. unfold dump_value_str. rewrite Hv. reflexivity.
Qed.

Lemma dump_all_variables_one_line_per_point_witness :
  output (dump_all_variables no_repr
            [ point "SoC" (fl 855 1) "SoC" "%";
              {| variable := lit "runningState"; value := PNone;
                 name := lit "State"; unit_ := None |} ] 2)
  = [ lit "Available variables:"; lit "  SoC: 85.5 %"; lit "  runningState: unknown " ].
Proof.
  rewrite (proj1 (proj2 (dump_all_variables_one_line_per_point no_repr _ 2)));
    vm_compute; reflexivity.
Defined.

(** ** Requested variables *)

Lemma get_data_value_number_float (data : list OpenQueryData) (key : str) (v : pyval) :
  get_data_value data key = Ok v -> is_number v = true -> exists f, v = PFloat f.
Proof.
  rewrite get_data_value_find.
  destruct (first_match data key) as [item |];
    [| intros H Hn; injection H as <-; discriminate Hn].
  unfold value_of_item.
  destruct (is_number (value item)) eqn:En.
  - destruct (py_float (value item)) as [f | e]; cbn [rbind]; intros H _;
      [injection H as <-; eexists; reflexivity | discriminate H].
  - intros H Hn. injection H as <-. rewrite En in Hn. discriminate Hn.
Qed.

(** The body of the loop of the explicit-variable mode. *)
Definition show_item (args : Args) (data : list OpenQueryData) (variable : str)
  : io unit :=
  io_bind (lift (get_data_value data variable))
    (fun value =>
       if is_number value
       then io_bind (lift (adjusted_value variable value))
              (fun adjusted =>
                 io_bind (lift (trimmed adjusted (arg_decimals args)))
                   (fun value_str =>
                      print (variable ++ lit ": " ++ value_str ++ lit " "
                                      ++ get_data_unit data variable)))
       else print (variable ++ lit ": Not available")).

(** The line printed for one requested variable. *)
Definition show_line (args : Args) (data : list OpenQueryData) (variable : str) : str :=
  match get_data_value data variable with
  | Ok value =>
      if is_number value
      then variable ++ lit ": "
                    ++ text_of (rbind (adjusted_value variable value)
                                      (fun adjusted => trimmed adjusted (arg_decimals args)))
                    ++ lit " " ++ get_data_unit data variable
      else variable ++ lit ": Not available"
  | Raise _ => []
  end.

Lemma show_body (args : Args) (data : list OpenQueryData) (variable : str) :
  show_item args data variable
  = match get_data_value data variable with
    | Raise e => ([], Raise e)
    | Ok value =>
        if is_number value
        then match rbind (adjusted_value variable value)
                         (fun adjusted => trimmed adjusted (arg_decimals args)) with
             | Ok _ => ([show_line args data variable], Ok tt)
             | Raise e => ([], Raise e)
             end
        else ([show_line args data variable], Ok tt)
    end.
Proof.
  unfold show_item, show_line.
  destruct (get_data_value data variable) as [value | e]; [| reflexivity].
  rewrite bind_lift_ok.
  destruct (is_number value); [| reflexivity].
  destruct (adjusted_value variable value) as [adjusted | e]; [| reflexivity].
  rewrite bind_lift_ok. cbn [rbind].
  destruct (trimmed adjusted (arg_decimals args)) as [t | e]; reflexivity.
Qed.

(** X13.  With a precision the formatter accepts and every lookup
    succeeding, the explicit-variable mode completes and prints exactly
    one line per requested variable, in the order requested; the line of a
    variable that is absent from the data, or whose value is not a
    number, is "<name>: Not available". *)
Theorem show_variables_one_line_per_request :
  forall (args : Args) (variables : list str) (data : list OpenQueryData),
    valid_precision (arg_decimals args) ->
    (forall v, In v variables -> exists x, get_data_value data v = Ok x) ->
    show_variables args variables data
    = (map (show_line args data) variables, Ok tt)
    /\ (forall v x, get_data_value data v = Ok x -> is_number x = false ->
                    show_line args data v = v ++ lit ": Not available")
    /\ (forall v, first_match data v = None ->
                  show_line args data v = v ++ lit ": Not available").
Proof.
  intros args variables data Hp Hall. split; [| split].
  - assert (Hbody : forall v, In v variables ->
                              show_item args data v = ([show_line args data v], Ok tt)).
    { intros v Hin. rewrite (show_body args data v).
      destruct (Hall v Hin) as [x Hx]. rewrite Hx.
      destruct (is_number x) eqn:En; [| reflexivity].
      destruct (get_data_value_number_float data v x Hx En) as [f ->].
      unfold adjusted_value.
      destruct (is_solar v); cbn [py_le_float rbind];
        [destruct (Float.leb f threshold) |];
        rewrite trimmed_float by exact Hp; reflexivity. }
    change (show_variables args variables data)
      with (for_each variables (show_item args data)).
    assert (Hok : outcome (for_each variables (show_item args data)) = Ok tt).
    { apply for_each_all_ok. intros v Hin. rewrite (Hbody v Hin). reflexivity. }
    pose proof (for_each_ok_output _ _ Hok) as Hout.
    destruct (for_each variables (show_item args data)) as [out r] eqn:E.
    unfold outcome, output in Hok, Hout. cbn [fst snd] in Hok, Hout.
    subst r. f_equal. rewrite Hout.
    clear E Hout Hall. induction variables as [| v rest IH]; [reflexivity |].
    cbn [flat_map map]. rewrite (Hbody v (or_introl eq_refl)).
    cbn [output fst app]. f_equal. apply IH. intros x Hx. apply Hbody. right. exact Hx.
  - intros v x Hx Hn. unfold show_line. rewrite Hx, Hn. reflexivity.
  - intros v Hv. unfold show_line. rewrite get_data_value_find, Hv. reflexivity.
Qed.

Lemma show_variables_one_line_per_request_witness :
  show_variables (flags false 2) [lit "soc"; lit "batChargePower"]
                 [point "SoC" (fl 855 1) "SoC" "%"]
  = ([lit "soc: 85.5 %"; lit "batChargePower: Not available"], Ok tt).
Proof.
  assert (Hp : valid_precision (arg_decimals (flags false 2)))
    by (vm_compute; split; discriminate).
  assert (Hall : forall v, In v [lit "soc"; lit "batChargePower"] ->
                           exists x, get_data_value
                                       [point "SoC" (fl 855 1) "SoC" "%"] v = Ok x)
    by (intros v [<- | [<- | []]]; eexists; vm_compute; reflexivity).
  rewrite (proj1 (show_variables_one_line_per_request
                    (flags false 2) [lit "soc"; lit "batChargePower"]
                    [point "SoC" (fl 855 1) "SoC" "%"] Hp Hall)).
  vm_compute. reflexivity.
Defined.

(** ** Variable flags *)

Lemma extract_variables_app (a b : list str) :
  extract_variables (a ++ b) = extract_variables a ++ extract_variables b.
Proof. apply flat_map_app. Qed.

Lemma extract_dashed (n : str) :
  n <> [] -> extract_variables [lit "--" ++ n] = [n].
Proof.
  intros Hn. destruct n as [| c t]; [contradiction |]. reflexivity.
Qed.

Lemma startswith_split (p s : str) :
  startswith p s = true -> s = p ++ skipn (List.length p) s.
Proof.
  revert s. induction p as [| a p IH]; intros s H; [reflexivity |].
  destruct s as [| b s]; [discriminate H |].
  cbn [startswith] in H. apply andb_true_iff in H. destruct H as [Hab Hp].
  apply N.eqb_eq in Hab. subst b.
  cbn [List.length skipn app]. f_equal. apply IH, Hp.
Qed.

(** X14.  Variable flags are read back exactly: the arguments
    [--name1 --name2 ...] with non-empty names give the names in the order
    typed.  Every name extracted is non-empty and was typed with two
    dashes in front; an argument without the two dashes, and a bare
    [--], give nothing. *)
Theorem extract_variables_reads_flags :
  forall (names remaining : list str),
    (forall n, In n names -> n <> []) ->
    extract_variables (map (fun n => lit "--" ++ n) names) = names
    /\ (forall v, In v (extract_variables remaining) ->
                  v <> [] /\ In (lit "--" ++ v) remaining)
    /\ (forall arg, startswith (lit "--") arg = false ->
                    extract_variables [arg] = [])
    /\ extract_variables [lit "--"] = [].
Proof.
  intros names remaining Hnames. split; [| split; [| split]].
  - induction names as [| n rest IH]; [reflexivity |].
    cbn [map].
    change ((lit "--" ++ n) :: map (fun n0 => lit "--" ++ n0) rest)
      with ([lit "--" ++ n] ++ map (fun n0 => lit "--" ++ n0) rest).
    rewrite extract_variables_app, extract_dashed, IH.
    + reflexivity.
    + intros x Hx. apply Hnames. right. exact Hx.
    + apply Hnames. left. reflexivity.
  - intros v Hin. unfold extract_variables in Hin.
    apply in_flat_map in Hin. destruct Hin as (arg & Harg & Hv).
    destruct (startswith (lit "--") arg) eqn:Es; [| destruct Hv].
    destruct (2 <? List.length arg)%nat eqn:El; [| destruct Hv].
    cbn [andb] in Hv. destruct Hv as [<- | []].
    apply Nat.ltb_lt in El.
    pose proof (startswith_split _ _ Es) as Hsplit.
    change (List.length (lit "--")) with 2%nat in Hsplit.
    split.
    + intros Hnil. rewrite Hnil, app_nil_r in Hsplit.
      rewrite Hsplit in El. cbn in El. lia.
    + rewrite <- Hsplit. exact Harg.
  - intros arg Hs. unfold extract_variables. cbn [flat_map].
    rewrite Hs. reflexivity.
  - reflexivity.
Qed.

Lemma extract_variables_reads_flags_witness :
  extract_variables [lit "--SoC"; lit "--pvPower"] = [lit "SoC"; lit "pvPower"].
Proof.
  refine (proj1 (extract_variables_reads_flags [lit "SoC"; lit "pvPower"] [] _)).
  intros n [<- | [<- | []]]; discriminate.
Defined.

(** ** Trimming at one decimal place or more *)

Lemma rstrip_past_other (c d : N) (a b : str) :
  d <> c -> rstrip c (a ++ d :: b) = a ++ d :: rstrip c b.
Proof.
  intros Hd. induction a as [| x a IH].
  - cbn [app rstrip]. apply N.eqb_neq in Hd.
    destruct (rstrip c b); [rewrite Hd |]; reflexivity.
  - cbn [app rstrip]. rewrite IH. destruct a; reflexivity.
Qed.

Lemma rstrip_point_after_digits (s ip : str) :
  ip <> [] -> Forall is_digit ip -> rstrip 46 (s ++ ip) = s ++ ip.
Proof.
  intros Hne Hdig.
  destruct ip as [| d ip'] using rev_ind; [contradiction |].
  rewrite app_assoc. apply rstrip_last_other.
  apply Forall_app in Hdig. destruct Hdig as [_ Hd].
  inversion Hd as [| ? ? Hdd _]. unfold is_digit in Hdd. lia.
Qed.

(** X15.  At one decimal place or more the trimming never touches the
    integer part of a finite number: the rendered text is sign, integer
    digits, a point and fraction digits, and the trimmed text is the sign
    and the same integer digits, followed by the point and the fraction
    without its trailing zeros when any fraction digit is left. *)
Theorem trimming_keeps_the_integer_part :
  forall (x : spec_float) (p : Z),
    (1 <= p)%Z ->
    Float.is_finite x = true ->
    exists sg ip fr k,
      FloatFormat.format_f x (Z.to_nat p) = sg ++ ip ++ [46] ++ fr ++ repeat 48 k
      /\ (sg = [] \/ sg = [45])
      /\ ip <> [] /\ Forall is_digit ip /\ Forall is_digit fr
      /\ (forall t, fr <> t ++ [48])
      /\ shown x p = sg ++ ip ++ match fr with [] => [] | _ :: _ => 46 :: fr end.
Proof.
  intros x p Hp Hfin.
  destruct (format_f_has_decimals x (Z.to_nat p) Hfin)
    as (sg & ip & fr0 & Hfmt & Hsg & Hne & Hip & Hfr0 & Hlen).
  destruct (Z.to_nat p) as [| n] eqn:En; [lia |].
  destruct (rstrip_spec 48 fr0) as (k & Hk & Hend).
  set (fr := rstrip 48 fr0) in *.
  assert (Hfr : Forall is_digit fr).
  { rewrite Hk in Hfr0. apply Forall_app in Hfr0. exact (proj1 Hfr0). }
  exists sg, ip, fr, k. repeat split; try assumption.
  - rewrite Hfmt, Hk. reflexivity.
  - unfold shown, strip_zeros_then_point. rewrite En, Hfmt.
    rewrite app_assoc, (rstrip_past_other 48 46 (sg ++ ip) fr0) by discriminate.
    fold fr. destruct fr as [| d fr'] eqn:Efr.
    + change [46] with (repeat 46 1).
      rewrite rstrip_app_repeat, (rstrip_point_after_digits sg ip Hne Hip), app_nil_r.
      reflexivity.
    + replace ((sg ++ ip) ++ 46 :: d :: fr')
        with (((sg ++ ip) ++ [46]) ++ d :: fr')
        by (rewrite <- (app_assoc (sg ++ ip)); reflexivity).
      rewrite (rstrip_point_after_digits ((sg ++ ip) ++ [46]) (d :: fr'));
        [| discriminate | exact Hfr].
      rewrite <- !app_assoc. reflexivity.
Qed.

Lemma trimming_keeps_the_integer_part_witness :
  exists sg ip fr k,
    FloatFormat.format_f (Float.decimal 1250 2) (Z.to_nat 3)
    = sg ++ ip ++ [46] ++ fr ++ repeat 48 k
    /\ (sg = [] \/ sg = [45])
    /\ ip <> [] /\ Forall is_digit ip /\ Forall is_digit fr
    /\ (forall t, fr <> t ++ [48])
    /\ shown (Float.decimal 1250 2) 3
       = sg ++ ip ++ match fr with [] => [] | _ :: _ => 46 :: fr end.
Proof.
  apply (trimming_keeps_the_integer_part (Float.decimal 1250 2) 3);
    [lia | vm_compute; reflexivity].
Defined.

Example trimming_examples :
  shown (Float.decimal 1250 2) 3 = lit "12.5"
  /\ shown (Float.decimal 1200 2) 3 = lit "12"
  /\ shown (Float.decimal 1200 2) 0 = lit "12"
  /\ shown (Float.decimal 12000 2) 0 = lit "12".
Proof. repeat split; vm_compute; reflexivity. Qed.

(** ** Failures of the default summary *)

Lemma format_power_value_bad_precision (v : pyval) (x : spec_float) (p : Z) :
  stands_for v x -> (p < 0 \/ max_precision < p)%Z ->
  format_power_value v p = Raise ValueError.
Proof.
  intros Hv Hp. unfold format_power_value, trimmed, py_format_f.
  assert (Hbad : ((p <? 0) || (max_precision <? p))%Z = true).
  { apply orb_true_iff. destruct Hp as [Hp | Hp];
      [left; apply Z.ltb_lt | right; apply Z.ltb_lt]; exact Hp. }
  destruct Hv as [-> | [-> _]]; rewrite Hbad; reflexivity.
Qed.

(** X16.  A precision the formatter rejects (a negative [--decimals], or
    one above the C int range) stops the default summary right after the
    device line: with numeric readings and no debug flag it prints
    "Device: <name>" and then raises [ValueError]. *)
Theorem summary_stops_on_bad_precision :
  forall (repr_of : pyval -> str) (args : Args) (device : Device)
         (data : list OpenQueryData) (r : Readings),
    reads_all data r ->
    arg_debug args = false ->
    (arg_decimals args < 0 \/ max_precision < arg_decimals args)%Z ->
    default_summary repr_of args device data
    = ([lit "Device: " ++ station_name device], Raise ValueError).
Proof.
  intros repr_of args device data r (H1 & H2 & H3 & H4 & H5 & H6 & H7 & H8) Hd Hp.
  apply reads_stands_for in H1, H2, H3, H4, H5, H6, H7, H8.
  destruct H1 as (solar & E1 & S1), H2 as (pv & E2 & S2), H3 as (gc & E3 & S3),
           H4 as (fi & E4 & S4), H5 as (home & E5 & S5), H6 as (bc & E6 & S6),
           H7 as (bd & E7 & S7), H8 as (soc & E8 & S8).
  destruct (stands_for_sub gc fi _ _ S3 S4) as (gflow & gmag & Eg & _).
  destruct (stands_for_sub bc bd _ _ S6 S7) as (bflow & bmag & Eb & _).
  destruct (stands_for_floor solar _ S1) as (solar' & Ef1 & Sf1).
  destruct (stands_for_floor pv _ S2) as (pv' & Ef2 & Sf2).
  pose proof (format_power_value_bad_precision _ _ _ Sf1 Hp) as K1.
  unfold default_summary.
  io_step E1. io_step E2. io_step E3. io_step E4. io_step E5. io_step Eg.
  io_step E6. io_step E7. io_step Eb. io_step E8. io_step Ef1. io_step Ef2.
  rewrite Hd, K1. reflexivity.
Qed.

Lemma summary_stops_on_bad_precision_witness :
  default_summary no_repr (flags false (-1)) (station true)
                  (sample 0 0 10000 3000 50000 500 2000 8550)
  = ([lit "Device: Home"], Raise ValueError).
Proof.
  apply (summary_stops_on_bad_precision
           no_repr (flags false (-1)) (station true)
           (sample 0 0 10000 3000 50000 500 2000 8550)
           (sample_readings 0 0 10000 3000 50000 500 2000 8550)).
  - reads_by_computation.
  - reflexivity.
  - left. reflexivity.
Defined.

Lemma py_sub_not_number (a b : pyval) :
  is_number a = false \/ is_number b = false -> py_sub a b = Raise TypeError.
Proof.
  intros [H | H]; destruct a, b; try discriminate H; reflexivity.
Qed.

(** X17.  A grid reading that is not a number (the server sent a text for
    gridConsumptionPower or feedinPower) makes the default summary raise
    [TypeError] before it has printed anything. *)
Theorem summary_raises_on_text_reading :
  forall (repr_of : pyval -> str) (args : Args) (device : Device)
         (data : list OpenQueryData) (solar pv gc fi home : pyval),
    reading data (lit "generationPower") = Ok solar ->
    reading data (lit "pvPower") = Ok pv ->
    reading data (lit "gridConsumptionPower") = Ok gc ->
    reading data (lit "feedinPower") = Ok fi ->
    reading data (lit "loadsPower") = Ok home ->
    is_number gc = false \/ is_number fi = false ->
    default_summary repr_of args device data = ([], Raise TypeError).
Proof.
  intros repr_of args device data solar pv gc fi home E1 E2 E3 E4 E5 Hbad.
  unfold default_summary.
  io_step E1. io_step E2. io_step E3. io_step E4. io_step E5.
  rewrite (py_sub_not_number gc fi Hbad). reflexivity.
Qed.

Lemma summary_raises_on_text_reading_witness :
  default_summary no_repr (flags false 2) (station false)
                  [ point "gridConsumptionPower" (PStr (lit "n/a")) "Grid" "kW";
                    point "feedinPower" (fl 30 0) "Feed-in" "kW" ]
  = ([], Raise TypeError).
Proof.
  apply (summary_raises_on_text_reading
           no_repr (flags false 2) (station false) _
           (PInt 0) (PInt 0) (PStr (lit "n/a")) (fl 30 0) (PInt 0));
    try (vm_compute; reflexivity).
  left. reflexivity.
Defined.

(** ** The battery lines *)

Definition with_battery (device : Device) (flag : bool) : Device :=
  {| device_sn := device_sn device; station_name := station_name device;
     station_id := station_id device; battery := battery device;
     module_sn := module_sn device; device_type := device_type device;
     has_pv := has_pv device; has_battery := flag |}.

(** X18.  The battery flag of the device only decides whether the two
    last lines are printed: with numeric readings and no debug flag the
    summary has five lines for a device without a battery and the same
    five followed by the Battery and SoC lines for one with a battery. *)
Theorem battery_flag_adds_two_lines :
  forall (repr_of : pyval -> str) (args : Args) (device : Device)
         (data : list OpenQueryData) (r : Readings),
    valid_precision (arg_decimals args) ->
    reads_all data r ->
    arg_debug args = false ->
    let without := output (default_summary repr_of args (with_battery device false) data) in
    let with_it := output (default_summary repr_of args (with_battery device true) data) in
    List.length without = 5%nat
    /\ with_it
       = without
           ++ [ battery_line (Float.sub (r_charge r) (r_discharge r)) (arg_decimals args);
                lit "SoC: " ++ shown (r_soc r) (arg_decimals args) ++ lit "%" ].
Proof.
  intros repr_of args device data r Hp Hr Hd without with_it.
  unfold without, with_it.
  destruct (default_summary_numeric repr_of args (with_battery device false) data r Hp Hr)
    as (dbg0 & -> & Hdbg0).
  destruct (default_summary_numeric repr_of args (with_battery device true) data r Hp Hr)
    as (dbg1 & -> & Hdbg1).
  rewrite (Hdbg0 Hd), (Hdbg1 Hd). split; reflexivity.
Qed.

Lemma battery_flag_adds_two_lines_witness :
  output (default_summary no_repr (flags false 2) (with_battery (station false) true)
                          (sample 1 0 60000 0 50000 0 0 8550))
  = output (default_summary no_repr (flags false 2) (with_battery (station false) false)
                            (sample 1 0 60000 0 50000 0 0 8550))
      ++ [ battery_line (Float.sub (Float.decimal 0 2) (Float.decimal 0 2)) 2;
           lit "SoC: " ++ shown (Float.decimal 8550 2) 2 ++ lit "%" ].
Proof.
  refine (proj2 (battery_flag_adds_two_lines
                   no_repr (flags false 2) (station false)
                   (sample 1 0 60000 0 50000 0 0 8550)
                   (sample_readings 1 0 60000 0 50000 0 0 8550) _ _ eq_refl)).
  - vm_compute. split; discriminate.
  - reads_by_computation.
Defined.

(** The first end-to-end scenario of the specification: no battery, a
    generation of 0.01, loads of 500, a grid consumption of 600. *)
Example scenario_without_battery :
  default_summary no_repr (flags false 2) (station false)
                  (sample 1 0 60000 0 50000 0 0 0)
  = ([ lit "Device: Home"; lit "generationPower: 0 kW"; lit "pvPower: 0 kW";
       lit "loadsPower: 500 kW"; lit "Grid: 600 kW import" ], Ok tt).
Proof. vm_compute. reflexivity. Qed.
